(** * Prayer-time notification bot: a shallow embedding of [main.py]

    The notification jobs of the bot ([check_prayer_times],
    [send_daily_prayer_schedule], [send_daily_quote]), the two scrapers
    behind the TTL cache ([parse_prayer_times], [get_daily_quote]) and the
    subscriber table ([update_user], [get_subscribed_users], [set_city]) are
    transcribed as functions over an explicit program state.  Everything the
    program asks of its environment (clocks, HTTP, sqlite failures, Telegram
    sends) is answered by a [world] record.

    Conventions.
    - Python [str] values are [string]s holding their UTF-8 bytes.  Every
      separator the program splits on is ASCII, so splitting and comparing
      bytes agrees with splitting and comparing code points.
    - Python [dict]s are association lists in insertion order.
    - An exception is a [Raise] result; state changes and I/O performed
      before the exception are kept, as in Python.
    - A job runs to completion before the next one starts. *)

From Stdlib Require Import String Ascii List ZArith Bool Lia.
From Stdlib Require Import Decimal DecimalString.
From Stdlib Require DecimalPos DecimalZ.
Import ListNotations.
Local Open Scope string_scope.
Local Open Scope Z_scope.
Local Open Scope list_scope.

Set Implicit Arguments.

(** ** Python values *)

Module Py.

(** The exception classes that occur in the modelled code. *)
Inductive exn : Type :=
| ValueError
| TypeError
| KeyError
| AttributeError
| UnknownTimeZoneError
| TelegramError
| OtherError.

Inductive res (A : Type) : Type :=
| Ok (a : A)
| Raise (e : exn).
Arguments Ok {A} a.
Arguments Raise {A} e.

Definition res_bind {A B : Type} (r : res A) (k : A -> res B) : res B :=
  match r with
  | Ok a => k a
  | Raise e => Raise e
  end.

(** *** [str] *)

(** [s.split(sep)] for a one-character separator: never the empty list. *)
Fixpoint split (sep : ascii) (s : string) : list string :=
  match s with
  | EmptyString => [EmptyString]
  | String c s' =>
      if Ascii.eqb c sep then EmptyString :: split sep s'
      else match split sep s' with
           | [] => [String c EmptyString]
           | p :: ps => String c p :: ps
           end
  end.

(** [l[0]] and [l[-1]] on the result of a split (which is never empty). *)
Definition first (l : list string) : string := hd EmptyString l.
Definition last (l : list string) : string := List.last l EmptyString.

(** [s[i] == c]; indexing past the end raises IndexError in Python, the
    program only indexes after checking [len]. *)
Definition char_at_is (s : string) (i : nat) (c : ascii) : bool :=
  match String.get i s with
  | Some c' => Ascii.eqb c' c
  | None => false
  end.

Definition len (s : string) : Z := Z.of_nat (String.length s).

Fixpoint string_rev_onto (s acc : string) : string :=
  match s with
  | EmptyString => acc
  | String c s' => string_rev_onto s' (String c acc)
  end.

Definition is_space (c : ascii) : bool :=
  let n := nat_of_ascii c in
  ((9 <=? n) && (n <=? 13) || (28 <=? n) && (n <=? 32))%nat.

Fixpoint lstrip (s : string) : string :=
  match s with
  | EmptyString => EmptyString
  | String c s' => if is_space c then lstrip s' else s
  end.

Definition strip (s : string) : string :=
  lstrip (string_rev_onto (lstrip (string_rev_onto s "")) "").

(** [s.replace(old, "")] for a non-empty [old]: occurrences are removed
    left to right without overlap.  [skip] counts the characters of the
    occurrence under removal that are still to be dropped. *)
Fixpoint remove_from (old : string) (skip : nat) (s : string) : string :=
  match s with
  | EmptyString => EmptyString
  | String c s' =>
      match skip with
      | S k => remove_from old k s'
      | O => if String.prefix old s
             then remove_from old (Nat.pred (String.length old)) s'
             else String c (remove_from old 0 s')
      end
  end.

Definition remove (old s : string) : string := remove_from old 0 s.

(** *** [int] *)

Definition is_digit (c : ascii) : bool :=
  let n := nat_of_ascii c in ((48 <=? n) && (n <=? 57))%nat.

Definition digit_val (c : ascii) : Z := Z.of_nat (nat_of_ascii c) - 48.

(** Decimal digits with single underscores allowed between digits. *)
Fixpoint int_digits (s : string) (acc : Z) (after_digit : bool) : option Z :=
  match s with
  | EmptyString => if after_digit then Some acc else None
  | String c s' =>
      if is_digit c then int_digits s' (10 * acc + digit_val c) true
      else if Ascii.eqb c "_" && after_digit then int_digits s' acc false
      else None
  end.

(** [int(s)] on ASCII input: surrounding whitespace, an optional sign,
    decimal digits.  A string that is no integer literal raises
    ValueError.  Python also reads the decimal digits of other scripts;
    here a string with such a digit raises ValueError, so statements about
    [int] are kept to ASCII input. *)
Definition int (s : string) : res Z :=
  let body (sign : Z) (d : string) :=
    match int_digits d 0 false with
    | Some n => Ok (sign * n)
    | None => Raise ValueError
    end in
  match strip s with
  | String "+" d => body 1 d
  | String "-" d => body (-1) d
  | d => body 1 d
  end.

(** [str(n)] for an [int]. *)
Definition str (n : Z) : string := NilZero.string_of_int (Z.to_int n).

(** [s.zfill(width)] for a string without sign, as used by the zero-padded
    fields of [strftime]. *)
Fixpoint zeros (n : nat) : string :=
  match n with
  | O => EmptyString
  | S k => String "0" (zeros k)
  end.

Definition zfill (width : nat) (s : string) : string :=
  (zeros (width - String.length s) ++ s)%string.

(** *** [dict] : association lists in insertion order *)

Definition dict (V : Type) : Type := list (string * V).

Fixpoint dict_get {V : Type} (d : dict V) (k : string) : option V :=
  match d with
  | [] => None
  | (k', v) :: d' => if String.eqb k' k then Some v else dict_get d' k
  end.

(** [k in d] *)
Definition dict_in {V : Type} (k : string) (d : dict V) : bool :=
  match dict_get d k with
  | Some _ => true
  | None => false
  end.

(** [d[k] = v]: an existing key keeps its position. *)
Fixpoint dict_set {V : Type} (d : dict V) (k : string) (v : V) : dict V :=
  match d with
  | [] => [(k, v)]
  | (k', v') :: d' =>
      if String.eqb k' k then (k', v) :: d' else (k', v') :: dict_set d' k v
  end.

End Py.
Import Py.

(** ** [datetime] *)

Module Datetime.

Record date : Type := mkdate { year : Z; month : Z; day : Z }.

(** A [datetime.datetime] down to the second.  [utcoffset] is [None] for a
    naive value and the zone's offset from UTC in minutes for an aware
    one. *)
Record datetime : Type := mkdatetime {
  dt_date : date;
  hour : Z;
  minute : Z;
  second : Z;
  utcoffset : option Z
}.

Definition is_leap (y : Z) : bool :=
  (y mod 4 =? 0) && (negb (y mod 100 =? 0) || (y mod 400 =? 0)).

Definition days_in_month (y m : Z) : Z :=
  if (m =? 2) && is_leap y then 29
  else nth (Z.to_nat m) [-1; 31; 28; 31; 30; 31; 30; 31; 31; 30; 31; 30; 31] 0.

Definition days_before_year (y : Z) : Z :=
  let y1 := y - 1 in y1 * 365 + y1 / 4 - y1 / 100 + y1 / 400.

Definition days_before_month (y m : Z) : Z :=
  nth (Z.to_nat m) [-1; 0; 31; 59; 90; 120; 151; 181; 212; 243; 273; 304; 334] 0
  + (if (2 <? m) && is_leap y then 1 else 0).

(** [date.toordinal()]: 0001-01-01 is day 1. *)
Definition toordinal (d : date) : Z :=
  days_before_year (year d) + days_before_month (year d) (month d) + day d.

(** [date.fromordinal(n)], after the standard library's [_ord2ymd]. *)
Definition fromordinal (n : Z) : date :=
  let n := n - 1 in
  let n400 := n / 146097 in
  let n := n mod 146097 in
  let n100 := n / 36524 in
  let n := n mod 36524 in
  let n4 := n / 1461 in
  let n := n mod 1461 in
  let n1 := n / 365 in
  let n := n mod 365 in
  let y := n400 * 400 + 1 + n100 * 100 + n4 * 4 + n1 in
  if (n1 =? 4) || (n100 =? 4) then mkdate (y - 1) 12 31
  else
    let leapyear := (n1 =? 3) && (negb (n4 =? 24) || (n100 =? 3)) in
    let leap1 (b : bool) := if b && leapyear then 1 else 0 in
    let m := Z.shiftr (n + 50) 5 in
    let preceding := days_before_month 1 m + leap1 (2 <? m) in
    if n <? preceding
    then let m' := m - 1 in
         let preceding' :=
           preceding - (days_in_month 1 m' + leap1 (m' =? 2)) in
         mkdate y m' (n - preceding' + 1)
    else mkdate y m (n - preceding + 1).

(** [dt - datetime.timedelta(days=n)]: the wall-clock fields and the zone
    are kept. *)
Definition sub_days (dt : datetime) (n : Z) : datetime :=
  mkdatetime (fromordinal (toordinal (dt_date dt) - n))
             (hour dt) (minute dt) (second dt) (utcoffset dt).

(** Seconds on the time line of the value's own zone. *)
Definition wall_seconds (dt : datetime) : Z :=
  ((toordinal (dt_date dt) * 24 + hour dt) * 60 + minute dt) * 60 + second dt.

(** [a > b].  Ordering a naive against an aware datetime raises
    TypeError. *)
Definition gt (a b : datetime) : res bool :=
  match utcoffset a, utcoffset b with
  | None, None => Ok (wall_seconds b <? wall_seconds a)
  | Some oa, Some ob =>
      Ok (wall_seconds b - ob * 60 <? wall_seconds a - oa * 60)
  | _, _ => Raise TypeError
  end.

(** [str(d)] and [d.strftime('%Y-%m-%d')] (years of four digits). *)
Definition isoformat (d : date) : string :=
  (zfill 4 (str (year d)) ++ "-" ++ zfill 2 (str (month d)) ++ "-"
   ++ zfill 2 (str (day d)))%string.

(** [dt.strftime("%H:%M")] *)
Definition strftime_HM (dt : datetime) : string :=
  (zfill 2 (str (hour dt)) ++ ":" ++ zfill 2 (str (minute dt)))%string.

Definition all_digits (s : string) : bool :=
  forallb is_digit (list_ascii_of_string s).

Definition digits_value (s : string) : Z :=
  fold_left (fun acc c => 10 * acc + digit_val c) (list_ascii_of_string s) 0.

(** One or two digits whose value lies in [lo..hi]: the month and day
    fields of the [strptime] grammar. *)
Definition field_1_2 (lo hi : Z) (s : string) : option Z :=
  let n := String.length s in
  if ((1 <=? n) && (n <=? 2))%nat && all_digits s
     && (lo <=? digits_value s) && (digits_value s <=? hi)
  then Some (digits_value s) else None.

(** The day field also accepts a space followed by one non-zero digit. *)
Definition day_field (s : string) : option Z :=
  match s with
  | String " " d => if (String.length d =? 1)%nat then field_1_2 1 9 d else None
  | _ => field_1_2 1 31 s
  end.

(** [datetime.datetime.strptime(s, '%Y-%m-%d')]: four digits, a dash, the
    month, a dash, the day, and nothing else; the result is naive midnight.
    Anything else raises ValueError. *)
Definition strptime_Ymd (s : string) : res datetime :=
  match split "-" s with
  | [y; m; d] =>
      if (String.length y =? 4)%nat && all_digits y then
        match field_1_2 1 12 m, day_field d with
        | Some mv, Some dv =>
            let yv := digits_value y in
            if (1 <=? yv) && (dv <=? days_in_month yv mv)
            then Ok (mkdatetime (mkdate yv mv dv) 0 0 0 None)
            else Raise ValueError
        | _, _ => Raise ValueError
        end
      else Raise ValueError
  | _ => Raise ValueError
  end.

End Datetime.
Import Datetime.

(** ** [cachetools.TTLCache] *)

Module TTLCache.
Section Cache.

(** [TTLCache(maxsize, ttl)] of cachetools 5 with the default
    [time.monotonic] timer and the default size of 1 per item.  Timer
    readings and [ttl] are integers in one unit (seconds for the program's
    [CACHE_TIMEOUT]). *)
Variable V : Type.
Variable maxsize : nat.
Variable ttl : Z.

Record link : Type := mklink { key : string; value : V; expires : Z }.

(** The live links in the order in which [popitem] would evict them
    (least recently stored or read first). *)
Definition t : Type := list link.

Definition empty : t := [].

Fixpoint find (k : string) (c : t) : option link :=
  match c with
  | [] => None
  | l :: c' => if String.eqb (key l) k then Some l else find k c'
  end.

Definition delete (k : string) (c : t) : t :=
  filter (fun l => negb (String.eqb (key l) k)) c.

(** [k in cache]: present and not yet expired; nothing is reordered. *)
Definition contains (c : t) (k : string) (now : Z) : bool :=
  match find k c with
  | Some l => now <? expires l
  | None => false
  end.

(** [cache[k]]: the link is moved to the most-recent end; a missing or
    expired key raises KeyError. *)
Definition getitem (c : t) (k : string) (now : Z) : res V * t :=
  match find k c with
  | Some l =>
      let c' := delete k c ++ [l] in
      if now <? expires l then (Ok (value l), c') else (Raise KeyError, c')
  | None => (Raise KeyError, c)
  end.

(** [cache.expire(now)]: with a monotonic timer and one [ttl] the expired
    links are exactly those with [expires <= now]. *)
Definition expire (c : t) (now : Z) : t :=
  filter (fun l => now <? expires l) c.

(** [cache[k] = v]: expired links go first; a new key evicts from the old
    end while the cache is full; the link is (re)appended with a fresh
    expiry. *)
Definition setitem (c : t) (k : string) (v : V) (now : Z) : t :=
  let c1 := expire c now in
  let c2 :=
    match find k c1 with
    | Some _ => c1
    | None => skipn (length c1 + 1 - maxsize) c1
    end in
  delete k c2 ++ [mklink k v (now + ttl)].

End Cache.
End TTLCache.

(** ** Program state, environment and effects *)

(** A JSON-like Python [dict] from [str] to [str]: a schedule maps prayer
    names to clock times, a quote maps ["text"] to its markup. *)
Definition pydict : Type := dict string.

(** A row of the [subscribers] table; [chat_id] is the primary key. *)
Record subscriber : Type := mksubscriber {
  chat_id : Z;
  city : string;
  timezone : string;
  subscribed : Z
}.

(** The dictionaries built by [get_subscribed_users]. *)
Record user : Type := mkuser { u_chat_id : Z; u_city : string; u_tz : string }.

(** Configuration *)
Definition CACHE_TIMEOUT : Z := 3600.
Definition cache_maxsize : nat := 100.

Definition CITIES : dict string :=
  [ ("Москва", "moscow"); ("Казань", "kazan"); ("Уфа", "ufa");
    ("Санкт-Петербург", "sankt-peterburg"); ("Астана", "astana");
    ("Алматы", "almaty"); ("Актау", "aktau"); ("Атырау", "atyrau");
    ("Караганда", "karaganda"); ("Шымкент", "shymkent");
    ("Костанай", "kostanay"); ("Уральск", "uralsk") ].

Definition CITY_TIMEZONES : dict string :=
  [ ("moscow", "Europe/Moscow"); ("kazan", "Europe/Moscow");
    ("ufa", "Asia/Yekaterinburg"); ("sankt-peterburg", "Europe/Moscow");
    ("astana", "Asia/Almaty"); ("almaty", "Asia/Almaty");
    ("aktau", "Asia/Aqtau"); ("atyrau", "Asia/Atyrau");
    ("karaganda", "Asia/Almaty"); ("shymkent", "Asia/Almaty");
    ("kostanay", "Asia/Qostanay"); ("uralsk", "Asia/Oral") ].

Definition PRAYER_NAMES : list string :=
  ["Фаджр"; "Шурук"; "Зухр"; "Аср"; "Магриб"; "Иша"].

(** The module-level globals: [cache], [sent_notifications],
    [sent_daily_schedules], and the sqlite table behind [DATABASE] (rows in
    rowid order, which is [chat_id] order). *)
Record state : Type := mkstate {
  cache : TTLCache.t pydict;
  sent_notifications : dict bool;
  sent_daily_schedules : dict bool;
  subscribers : list subscriber
}.

(** The state at process start, over a given table: empty cache, and the
    ledgers as [post_init] resets them.  ([post_init] then warms the cache
    through [update_data], which is a sequence of [parse_prayer_times] and
    [get_daily_quote] calls.) *)
Definition initial_state (tbl : list subscriber) : state :=
  mkstate (TTLCache.empty pydict) [] [] tbl.

Definition set_cache (c : TTLCache.t pydict) (s : state) : state :=
  mkstate c (sent_notifications s) (sent_daily_schedules s) (subscribers s).
Definition set_sent_notifications (d : dict bool) (s : state) : state :=
  mkstate (cache s) d (sent_daily_schedules s) (subscribers s).
Definition set_sent_daily_schedules (d : dict bool) (s : state) : state :=
  mkstate (cache s) (sent_notifications s) d (subscribers s).
Definition set_subscribers (t : list subscriber) (s : state) : state :=
  mkstate (cache s) (sent_notifications s) (sent_daily_schedules s) t.

(** What BeautifulSoup finds in a page.  [pray_table] is the table of class
    [PrayTimePage_table__wEx0t]: for every [tr], the stripped texts of its
    [td] cells.  [quote_block] is the [div] of class
    [DailyNews_dailyNewsText__5XStP]. *)
Record quote_div : Type := mkquote_div {
  a_href : option (option string);  (* [find('a')], then [get('href')] *)
  h3_text : option string;
  p_text : option string            (* [p] of class [DailyNews_dailyNewsContent__Bq4aR] *)
}.

Record document : Type := mkdocument {
  pray_table : option (list (list string));
  quote_block : option quote_div
}.

Inductive html : Type :=
| HtmlEmpty                      (* the empty string *)
| HtmlDoc (doc : document).

Inductive response : Type :=
| Body (h : html)
| ClientError                    (* [aiohttp.ClientError] *)
| Failure (e : exn).             (* any other exception *)

(** The environment's answers during one run of a handler or job: within a
    run the clocks stand still and the same request gets the same answer. *)
Record world : Type := mkworld {
  sqlite_ok : bool;                       (* [false]: sqlite raises [Error] *)
  utcnow : datetime;                      (* [datetime.datetime.now(pytz.utc)] *)
  localnow : string -> option datetime;   (* [datetime.datetime.now(pytz.timezone(tz))];
                                             [None]: unknown zone *)
  today_local : date;                     (* [datetime.date.today()] *)
  monotonic : Z;                          (* the cache's timer *)
  http_get : string -> response;
  send_ok : Z -> string -> bool           (* [false]: [send_message] raises *)
}.

Inductive level : Type := DEBUG | INFO | WARNING | ERROR.

(** The log sites of the modelled functions with the values they print. *)
Inductive log_msg : Type :=
| FoundSubscribers (n : nat)
| SubscribersQueryFailed
| UserUpdated (chat : Z) (city tz : string)
| UserUpdateFailed (chat : Z)
| UserUnsubscribed (chat : Z)
| UnsubscribeFailed (chat : Z)
| RequestFailed (url : string)
| PageNotLoaded (city : string)
| TableNotFound (city : string)
| ScheduleParsed (city : string) (d : date) (schedule : pydict)
| ScheduleNotFound (city : string) (day : Z)
| ScheduleParseError (city : string) (e : exn)
| QuoteBlockNotFound (quote_type : string)
| QuoteError (quote_type : string) (e : exn)
| DailyScheduleCheck
| NoSubscribersForSchedule
| ScheduleEmpty (city : string)
| FajrNotFound (city : string)
| DailyScheduleSent (chat : Z) (current_time : string)
| DailyScheduleError (chat : Z) (e : exn)
| DailyQuoteStart
| NoSubscribersForQuote
| QuoteUnavailable
| DailyQuoteSent (chat : Z)
| DailyQuoteError (chat : Z) (e : exn)
| PrayerCheckStart
| NoSubscribers
| BadNotificationKey (k : string)
| KeyProcessingError (k : string) (e : exn)
| CheckingUser (chat : Z) (current_time : string)
| NotificationSent (prayer : string) (chat : Z) (time : string)
| UserError (chat : Z) (e : exn).

Inductive event : Type :=
| Fetch (url : string)                   (* [session.get(url)] *)
| Sent (chat : Z) (text : string)        (* a delivered [send_message] *)
| Answered (chat : Z) (text : string)    (* [query.answer] / [edit_message_text] *)
| Log (lvl : level) (msg : log_msg).

(** State, exceptions and a trace of effects. *)
Definition M (A : Type) : Type := state -> res A * state * list event.

Definition ret {A : Type} (a : A) : M A := fun s => (Ok a, s, []).

Definition bind {A B : Type} (m : M A) (k : A -> M B) : M B :=
  fun s =>
    match m s with
    | (Ok a, s1, t1) =>
        match k a s1 with
        | (r, s2, t2) => (r, s2, t1 ++ t2)
        end
    | (Raise e, s1, t1) => (Raise e, s1, t1)
    end.

Definition raise {A : Type} (e : exn) : M A := fun s => (Raise e, s, []).

Definition lift {A : Type} (r : res A) : M A := fun s => (r, s, []).

Definition gets {A : Type} (f : state -> A) : M A := fun s => (Ok (f s), s, []).

Definition modify (f : state -> state) : M unit := fun s => (Ok tt, f s, []).

Definition emit (ev : event) : M unit := fun s => (Ok tt, s, [ev]).

Definition log (lvl : level) (msg : log_msg) : M unit := emit (Log lvl msg).

(** [try: m  except <classes> as e: h e] *)
Definition try_except {A : Type} (m : M A) (catches : exn -> bool)
    (h : exn -> M A) : M A :=
  fun s =>
    match m s with
    | (Raise e, s1, t1) =>
        if catches e then
          match h e s1 with
          | (r, s2, t2) => (r, s2, t1 ++ t2)
          end
        else (Raise e, s1, t1)
    | ok => ok
    end.

Definition any_exception (e : exn) : bool := true.

Definition is_ValueError (e : exn) : bool :=
  match e with
  | ValueError => true
  | _ => false
  end.

Declare Scope monad_scope.
Delimit Scope monad_scope with monad.
Notation "x <- m ;; k" := (bind m (fun x => k))
  (at level 61, m at next level, right associativity) : monad_scope.
Notation "m ;;; k" := (bind m (fun _ => k))
  (at level 61, right associativity) : monad_scope.
Local Open Scope monad_scope.

(** [for x in xs: body x] *)
Fixpoint for_each {X : Type} (xs : list X) (body : X -> M unit) : M unit :=
  match xs with
  | [] => ret tt
  | x :: xs' => body x ;;; for_each xs' body
  end.

Definition outcome {A : Type} (r : res A * state * list event) : res A :=
  fst (fst r).
Definition final {A : Type} (r : res A * state * list event) : state :=
  snd (fst r).
Definition trace {A : Type} (r : res A * state * list event) : list event :=
  snd r.

(** ** The subscriber table *)

(** [SELECT ... WHERE chat_id = ?] followed by [fetchone()] *)
Fixpoint select_by_chat_id (chat : Z) (tbl : list subscriber) : option subscriber :=
  match tbl with
  | [] => None
  | r :: tbl' => if chat_id r =? chat then Some r else select_by_chat_id chat tbl'
  end.

(** [INSERT OR REPLACE]: a row with the same primary key is replaced, a new
    row takes its place in key order. *)
Fixpoint insert_or_replace (r : subscriber) (tbl : list subscriber) : list subscriber :=
  match tbl with
  | [] => [r]
  | r' :: tbl' =>
      if chat_id r <? chat_id r' then r :: tbl
      else if chat_id r =? chat_id r' then r :: tbl'
      else r' :: insert_or_replace r tbl'
  end.

Definition get_subscribed_users (w : world) : M (list user) :=
  if sqlite_ok w then
    tbl <- gets subscribers ;;
    let users :=
      map (fun r => mkuser (chat_id r) (city r) (timezone r))
          (filter (fun r => subscribed r =? 1) tbl) in
    log INFO (FoundSubscribers (length users)) ;;;
    ret users
  else
    log ERROR SubscribersQueryFailed ;;;
    ret [].

(** The chat id is a Telegram id and fits SQLite's INTEGER; what the
    binding does with a larger Python [int] (OverflowError, which
    [except Error] does not catch) is not modelled. *)
Definition update_user (w : world) (chat : Z) (city_code tz : string) : M unit :=
  if sqlite_ok w then
    modify (fun s =>
      set_subscribers
        (insert_or_replace (mksubscriber chat city_code tz 1) (subscribers s)) s) ;;;
    log INFO (UserUpdated chat city_code tz)
  else
    log ERROR (UserUpdateFailed chat).

Definition unsubscribe_user (w : world) (chat : Z) : M unit :=
  if sqlite_ok w then
    modify (fun s =>
      set_subscribers
        (map (fun r => if chat_id r =? chat
                       then mksubscriber (chat_id r) (city r) (timezone r) 0
                       else r)
             (subscribers s)) s) ;;;
    log INFO (UserUnsubscribed chat)
  else
    log ERROR (UnsubscribeFailed chat).

(** [d[k]] *)
Definition subscript {V : Type} (d : dict V) (k : string) : M V :=
  match dict_get d k with
  | Some v => ret v
  | None => raise KeyError
  end.

(** The callback handler behind the city buttons; [data] is
    [query.data] and [chat] is [query.message.chat_id].  The two replies
    at the end are taken to succeed. *)
Definition set_city (w : world) (data : string) (chat : Z) : M unit :=
  let city_name := last (split "_" data) in
  city_code <- subscript CITIES city_name ;;
  tz <- subscript CITY_TIMEZONES city_code ;;
  update_user w chat city_code tz ;;;
  emit (Answered chat ("Город установлен: " ++ city_name)) ;;;
  emit (Answered chat ("Город установлен: " ++ city_name)).

(** ** Scraping behind the cache *)

Definition fetch_url (w : world) (url : string) : M html :=
  emit (Fetch url) ;;;
  match http_get w url with
  | Body h => ret h
  | ClientError => log ERROR (RequestFailed url) ;;; ret HtmlEmpty
  | Failure e => raise e
  end.

Definition cache_contains (w : world) (k : string) : M bool :=
  gets (fun s => TTLCache.contains (cache s) k (monotonic w)).

Definition cache_getitem (w : world) (k : string) : M pydict :=
  fun s =>
    match TTLCache.getitem (cache s) k (monotonic w) with
    | (r, c') => (r, set_cache c' s, [])
    end.

Definition cache_setitem (w : world) (k : string) (v : pydict) : M unit :=
  modify (fun s =>
    set_cache (TTLCache.setitem cache_maxsize CACHE_TIMEOUT (cache s) k v (monotonic w)) s).

(** [cols[i]] below the checked length *)
Definition col (cols : list string) (i : nat) : string := nth i cols "".

Definition is_day_row (d : date) (cols : list string) : bool :=
  (8 <=? length cols)%nat && String.eqb (col cols 0) (str (day d)).

(** [f"{city}_{date}"] *)
Definition schedule_key (city : string) (d : date) : string :=
  (city ++ "_" ++ isoformat d)%string.

(** [f"https://umma.ru/raspisanie-namaza/{city}"] *)
Definition schedule_url (city : string) : string :=
  ("https://umma.ru/raspisanie-namaza/" ++ city)%string.

(** The [logger.debug] lines are left out: the logger is configured at
    level INFO. *)
Definition parse_prayer_times (w : world) (city : string) (d : date) : M pydict :=
  let cache_key := schedule_key city d in
  hit <- cache_contains w cache_key ;;
  if hit then cache_getitem w cache_key
  else
    let url := schedule_url city in
    try_except
      (page <- fetch_url w url ;;
       match page with
       | HtmlEmpty => log ERROR (PageNotLoaded city) ;;; ret []
       | HtmlDoc doc =>
           match pray_table doc with
           | None => log ERROR (TableNotFound city) ;;; ret []
           | Some rows =>
               match find (is_day_row d) rows with
               | Some cols =>
                   let schedule :=
                     [ ("Фаджр", col cols 2); ("Шурук", col cols 3);
                       ("Зухр", col cols 4); ("Аср", col cols 5);
                       ("Магриб", col cols 6); ("Иша", col cols 7) ] in
                   cache_setitem w cache_key schedule ;;;
                   log INFO (ScheduleParsed city d schedule) ;;;
                   ret schedule
               | None => log WARNING (ScheduleNotFound city (day d)) ;;; ret []
               end
           end
       end)
      any_exception
      (fun e => log ERROR (ScheduleParseError city e) ;;; ret []).

Definition quote_urls : dict string :=
  [ ("ayat", "https://umma.ru/ayat-dnya"); ("hadis", "https://umma.ru/hadis-dnya") ].

Definition newline : string := String (ascii_of_nat 10) "".

(** [x.attr] on the result of a [find] that may be [None] *)
Definition found {A : Type} (o : option A) : M A :=
  match o with
  | Some a => ret a
  | None => raise AttributeError
  end.

(** [f"{quote_type}_{datetime.date.today()}"] *)
Definition quote_key (quote_type : string) (today : date) : string :=
  (quote_type ++ "_" ++ isoformat today)%string.

Definition get_daily_quote (w : world) (quote_type : string) : M pydict :=
  let cache_key := quote_key quote_type (today_local w) in
  hit <- cache_contains w cache_key ;;
  if hit then cache_getitem w cache_key
  else
    try_except
      (url <- subscript quote_urls quote_type ;;
       page <- fetch_url w url ;;
       match page with
       | HtmlEmpty => ret []
       | HtmlDoc doc =>
           match quote_block doc with
           | None => log ERROR (QuoteBlockNotFound quote_type) ;;; ret []
           | Some block =>
               href <- found (a_href block) ;;
               let link := match href with Some l => l | None => "None" end in
               h3 <- found (h3_text block) ;;
               let chapter :=
                 ("<a href='https://umma.ru" ++ link ++ "'><b>" ++ h3 ++ "</b></a>")%string in
               quote_text <- found (p_text block) ;;
               let text :=
                 (chapter ++ newline
                  ++ remove "[telegramline]" (remove "Читать полностью" quote_text))%string in
               let result := [("text", text)] in
               cache_setitem w cache_key result ;;;
               ret result
           end
       end)
      any_exception
      (fun e => log ERROR (QuoteError quote_type e) ;;; ret []).

(** ** The notification jobs *)

(** [sum(x * int(t) for x, t in zip(weights, parts))] *)
Fixpoint weighted_sum (weights : list Z) (parts : list string) : res Z :=
  match weights, parts with
  | x :: weights', t :: parts' =>
      res_bind (int t) (fun n =>
      res_bind (weighted_sum weights' parts') (fun rest => Ok (x * n + rest)))
  | _, _ => Ok 0
  end.

(** [sum(x * int(t) for x, t in zip([60, 1], time.split(":")))] *)
Definition minutes (time : string) : res Z :=
  weighted_sum [60; 1] (split ":" time).

Definition send_message (w : world) (chat : Z) (text : string) : M unit :=
  if send_ok w chat text then emit (Sent chat text) else raise TelegramError.

(** [datetime.datetime.now(pytz.timezone(name))] *)
Definition now_in (w : world) (name : string) : M datetime :=
  match localnow w name with
  | Some dt => ret dt
  | None => raise UnknownTimeZoneError
  end.

Definition is_empty {A : Type} (l : list A) : bool :=
  match l with
  | [] => true
  | _ => false
  end.

(** *** [check_prayer_times] *)

(** The key check of the pruning loop. *)
Definition looks_like_date (date_part : string) : bool :=
  (len date_part =? 10) && char_at_is date_part 4 "-" && char_at_is date_part 7 "-".

(** The pruning loop over [sent_notifications.items()], building
    [cleaned_notifications]. *)
Fixpoint clean_notifications (cutoff_date : datetime) (items : list (string * bool))
    (cleaned : dict bool) : M (dict bool) :=
  match items with
  | [] => ret cleaned
  | (k, v) :: rest =>
      cleaned' <-
        try_except
          (let date_part := first (split "-" k) in
           if looks_like_date date_part then
             parsed <- lift (strptime_Ymd date_part) ;;
             newer <- lift (Datetime.gt parsed cutoff_date) ;;
             if (newer : bool) then ret (dict_set cleaned k v) else ret cleaned
           else
             log WARNING (BadNotificationKey k) ;;; ret cleaned)
          is_ValueError
          (fun e => log ERROR (KeyProcessingError k e) ;;; ret cleaned) ;;
      clean_notifications cutoff_date rest cleaned'
  end.

(** [f"{today.strftime('%Y-%m-%d')}-{prayer}-{user['chat_id']}"], with the
    date printed as [isoformat] prints it (the two agree for the years of
    four digits a running clock shows). *)
Definition notification_id (today : date) (prayer : string) (chat : Z) : string :=
  (isoformat today ++ "-" ++ prayer ++ "-" ++ str chat)%string.

Definition prayer_text (prayer time : string) : string :=
  ("🕌 Время <u>" ++ prayer ++ "</u> намаза: <b>" ++ time ++ "</b>")%string.

(** One round of the loop over [schedule.items()]. *)
Definition notify_prayer (w : world) (usr : user) (today : date)
    (current_time : string) (item : string * string) : M unit :=
  let (prayer, time) := item in
  prayer_minutes <- lift (minutes time) ;;
  current_minutes <- lift (minutes current_time) ;;
  let time_diff := prayer_minutes - current_minutes in
  let id := notification_id today prayer (u_chat_id usr) in
  sent <- gets sent_notifications ;;
  if (time_diff =? 0) && negb (dict_in id sent) then
    send_message w (u_chat_id usr) (prayer_text prayer time) ;;;
    modify (fun s => set_sent_notifications (dict_set (sent_notifications s) id true) s) ;;;
    log INFO (NotificationSent prayer (u_chat_id usr) time)
  else ret tt.

(** The body of the [try] for one subscriber. *)
Definition check_user (w : world) (usr : user) : M unit :=
  now <- now_in w (u_tz usr) ;;
  let today := dt_date now in
  let current_time := strftime_HM now in
  log INFO (CheckingUser (u_chat_id usr) current_time) ;;;
  schedule <- parse_prayer_times w (u_city usr) today ;;
  if is_empty schedule then log WARNING (ScheduleEmpty (u_city usr))
  else for_each schedule (notify_prayer w usr today current_time).

(** One round of the loop over the subscribers: the [try] with its
    [except Exception]. *)
Definition check_turn (w : world) (usr : user) : M unit :=
  try_except (check_user w usr) any_exception
    (fun e => log ERROR (UserError (u_chat_id usr) e)).

Definition check_prayer_times (w : world) : M unit :=
  log INFO PrayerCheckStart ;;;
  users <- get_subscribed_users w ;;
  if is_empty users then log WARNING NoSubscribers
  else
    let now := utcnow w in
    let cutoff_date := sub_days now 1 in
    items <- gets sent_notifications ;;
    cleaned_notifications <- clean_notifications cutoff_date items [] ;;
    modify (set_sent_notifications cleaned_notifications) ;;;
    for_each users (check_turn w).

(** *** [send_daily_prayer_schedule] *)

(** The dictionary comprehension that rebuilds [sent_daily_schedules]. *)
Fixpoint recent_schedules (cutoff_date : datetime) (items : list (string * bool))
    : M (dict bool) :=
  match items with
  | [] => ret []
  | (k, v) :: rest =>
      parsed <- lift (strptime_Ymd (first (split "-" k))) ;;
      newer <- lift (Datetime.gt parsed cutoff_date) ;;
      kept <- recent_schedules cutoff_date rest ;;
      if (newer : bool) then ret ((k, v) :: kept) else ret kept
  end.

Definition schedule_id (today : date) (chat : Z) : string :=
  (isoformat today ++ "-" ++ str chat)%string.

(** ["\n".join(parts)] *)
Fixpoint join_lines (parts : list string) : string :=
  match parts with
  | [] => ""
  | [p] => p
  | p :: rest => (p ++ newline ++ join_lines rest)%string
  end.

Definition schedule_text (schedule : pydict) : string :=
  ("🕋 Расписание намазов на сегодня:" ++ newline
   ++ join_lines (map (fun item : string * string =>
                         "• " ++ fst item ++ ": <b>" ++ snd item ++ "</b>") schedule))%string.

(** The part of the subscriber's [try] body after the schedule has been
    found non-empty. *)
Definition digest_due (w : world) (usr : user) (today : date)
    (current_time : string) (schedule : pydict) : M unit :=
  match dict_get schedule "Фаджр" with
  | None | Some "" => log WARNING (FajrNotFound (u_city usr))
  | Some fajr_time =>
      fajr_minutes <- lift (minutes fajr_time) ;;
      current_minutes <- lift (minutes current_time) ;;
      let time_diff := fajr_minutes - current_minutes in
      let id := schedule_id today (u_chat_id usr) in
      sent <- gets sent_daily_schedules ;;
      if (time_diff =? 10) && negb (dict_in id sent) then
        send_message w (u_chat_id usr) (schedule_text schedule) ;;;
        modify (fun s =>
          set_sent_daily_schedules (dict_set (sent_daily_schedules s) id true) s) ;;;
        log INFO (DailyScheduleSent (u_chat_id usr) current_time)
      else ret tt
  end.

Definition digest_user (w : world) (today : date) (usr : user) : M unit :=
  now <- now_in w (u_tz usr) ;;
  let current_time := strftime_HM now in
  schedule <- parse_prayer_times w (u_city usr) today ;;
  if is_empty schedule then log WARNING (ScheduleEmpty (u_city usr))
  else digest_due w usr today current_time schedule.

Definition digest_turn (w : world) (today : date) (usr : user) : M unit :=
  try_except (digest_user w today usr) any_exception
    (fun e => log ERROR (DailyScheduleError (u_chat_id usr) e)).

Definition send_daily_prayer_schedule (w : world) : M unit :=
  log INFO DailyScheduleCheck ;;;
  users <- get_subscribed_users w ;;
  if is_empty users then log WARNING NoSubscribersForSchedule
  else
    let now := utcnow w in
    let today := dt_date now in
    let cutoff_date := sub_days now 1 in
    items <- gets sent_daily_schedules ;;
    kept <- recent_schedules cutoff_date items ;;
    modify (set_sent_daily_schedules kept) ;;;
    for_each users (digest_turn w today).

(** *** [send_daily_quote] *)

Definition quote_message (text : string) : string :=
  ("📖 Аят дня:" ++ newline ++ text)%string.

Definition quote_user (w : world) (quote : pydict) (usr : user) : M unit :=
  now <- now_in w (u_tz usr) ;;
  let current_time := strftime_HM now in
  if String.eqb current_time "08:00" then
    text <- subscript quote "text" ;;
    send_message w (u_chat_id usr) (quote_message text) ;;;
    log INFO (DailyQuoteSent (u_chat_id usr))
  else ret tt.

Definition quote_turn (w : world) (quote : pydict) (usr : user) : M unit :=
  try_except (quote_user w quote usr) any_exception
    (fun e => log ERROR (DailyQuoteError (u_chat_id usr) e)).

Definition send_daily_quote (w : world) : M unit :=
  log INFO DailyQuoteStart ;;;
  users <- get_subscribed_users w ;;
  if is_empty users then log WARNING NoSubscribersForQuote
  else
    quote <- get_daily_quote w "ayat" ;;
    if is_empty quote then log WARNING QuoteUnavailable
    else
      for_each users (quote_turn w quote).

(** ** Runs of a job *)

(** The job queue runs the job once per world; an exception that leaves the
    job ends that run only. *)
Fixpoint run_job (job : world -> M unit) (ws : list world) (s : state)
    : state * list event :=
  match ws with
  | [] => (s, [])
  | w :: ws' =>
      match job w s with
      | (_, s1, t1) =>
          match run_job job ws' s1 with
          | (s2, t2) => (s2, t1 ++ t2)
          end
      end
  end.

(** The messages delivered to one chat, in order. *)
Fixpoint sent_to (chat : Z) (tr : list event) : list string :=
  match tr with
  | [] => []
  | Sent c text :: tr' =>
      if c =? chat then text :: sent_to chat tr' else sent_to chat tr'
  | _ :: tr' => sent_to chat tr'
  end.

Fixpoint fetches (tr : list event) : list string :=
  match tr with
  | [] => []
  | Fetch url :: tr' => url :: fetches tr'
  | _ :: tr' => fetches tr'
  end.

(** ** The cache refresh and the chat handlers

    The functions below write their own log lines and chat replies after
    all their other effects; they return them, in order, as the value of
    the computation.  A reply is taken to succeed. *)

(** [InlineKeyboardButton(label, callback_data=data)] *)
Record button : Type := mkbutton { label : string; callback_data : string }.

Inductive markup : Type :=
| NoMarkup
| InlineKeyboardMarkup (keyboard : list (list button)).

(** The log sites of the handlers and of the refresh.  [None] for the
    exception stands for [sqlite3.Error]. *)
Inductive handler_log : Type :=
| DataUpdated
| DataLoadedAtStart
| DailyScheduleFailed (chat : Z) (e : option exn)
| StatusFailed (chat : Z)
| ShowSettingsFailed (chat : Z)
| UserSubscribed (chat : Z)
| SubscribeFailed (chat : Z).

Inductive output : Type :=
| Reply (chat : Z) (text : string) (parse_mode : option string) (m : markup)
                                      (* [update.message.reply_text] *)
| EditMessage (chat : Z) (text : string) (parse_mode : option string) (m : markup)
                                      (* [query.edit_message_text] *)
| AnswerQuery                         (* [query.answer()] *)
| LogLine (lvl : level) (msg : handler_log).

(** [update_data].  The global [daily_quotes] is written here and read
    nowhere in the program; the value stored under ['ayat'] is returned
    beside the log line. *)
Definition update_data (w : world) : M (pydict * list output) :=
  now <- now_in w "Europe/Moscow" ;;
  let today := dt_date now in
  for_each (map snd CITIES)
    (fun city => _ <- parse_prayer_times w city today ;; ret tt) ;;;
  ayat <- get_daily_quote w "ayat" ;;
  ret (ayat, [LogLine INFO DataUpdated]).

Definition post_init (w : world) : M (pydict * list output) :=
  modify (set_sent_notifications []) ;;;
  modify (set_sent_daily_schedules []) ;;;
  r <- update_data w ;;
  ret (fst r, snd r ++ [LogLine INFO DataLoadedAtStart]).

Definition simple_reply (chat : Z) (text : string) : output :=
  Reply chat text None NoMarkup.

Definition error_reply (chat : Z) : output :=
  simple_reply chat "❌ Произошла ошибка".

Definition set_city_first (chat : Z) : output :=
  simple_reply chat "❌ Сначала установите город с помощью /set_city".

(** ["🕋 Расписание на сегодня:\n" + "\n".join(...)] of [daily_schedule] *)
Definition today_text (schedule : pydict) : string :=
  ("🕋 Расписание на сегодня:" ++ newline
   ++ join_lines (map (fun item : string * string =>
                         "• <b>" ++ snd item ++ "</b> - " ++ fst item) schedule))%string.

Definition daily_schedule (w : world) (chat : Z) : M (list output) :=
  if sqlite_ok w then
    try_except
      (tbl <- gets subscribers ;;
       match select_by_chat_id chat tbl with
       | None => ret [set_city_first chat]
       | Some row =>
           now <- now_in w (timezone row) ;;
           let today := dt_date now in
           schedule <- parse_prayer_times w (city row) today ;;
           if is_empty schedule
           then ret [simple_reply chat "❌ Расписание временно недоступно"]
           else ret [Reply chat (today_text schedule) (Some "HTML") NoMarkup]
       end)
      any_exception
      (fun e => ret [LogLine ERROR (DailyScheduleFailed chat (Some e)); error_reply chat])
  else
    ret [LogLine ERROR (DailyScheduleFailed chat None); error_reply chat].

Definition daily_quote (w : world) (chat : Z) : M (list output) :=
  quote <- get_daily_quote w "ayat" ;;
  if is_empty quote
  then ret [simple_reply chat "❌ Аят дня временно недоступен"]
  else
    text <- subscript quote "text" ;;
    ret [Reply chat (quote_message text) (Some "HTML") NoMarkup].

(** [next((k for k, v in CITIES.items() if v == city), city)] *)
Definition city_display_name (code : string) : string :=
  match find (fun kv : string * string => String.eqb (snd kv) code) CITIES with
  | Some kv => fst kv
  | None => code
  end.

(** The text both [status] and the [show_settings] button build from a
    row. *)
Definition settings_text (row : subscriber) : string :=
  let status_text :=
    if subscribed row =? 0 then "❌ Не подписан" else "✅ Подписан" in
  ("🏠 Город: " ++ city_display_name (city row) ++ newline
   ++ "⏰ Часовой пояс: " ++ timezone row ++ newline
   ++ "📩 Статус: " ++ status_text)%string.

Definition settings_not_found : string :=
  "❌ Настройки не найдены. Установите город с помощью /set_city".

Definition status (w : world) (chat : Z) : M (list output) :=
  if sqlite_ok w then
    tbl <- gets subscribers ;;
    match select_by_chat_id chat tbl with
    | Some row => ret [simple_reply chat (settings_text row)]
    | None => ret [simple_reply chat settings_not_found]
    end
  else
    ret [LogLine ERROR (StatusFailed chat); error_reply chat].

(** [[InlineKeyboardButton(city, callback_data=f"set_city_{city}")] for city
    in CITIES] *)
Definition city_keyboard : list (list button) :=
  map (fun kv : string * string =>
         [mkbutton (fst kv) ("set_city_" ++ fst kv)%string]) CITIES.

Definition get_city (chat : Z) : M (list output) :=
  ret [Reply chat "Выберите город:" None (InlineKeyboardMarkup city_keyboard)].

Definition settings_keyboard : list (list button) :=
  [ [mkbutton "🏠 Изменить город" "change_city"];
    [mkbutton "ℹ️ Текущие настройки" "show_settings"] ].

Definition commands_list : string :=
  ("⚙️ *Настройки*" ++ newline
   ++ "Список доступных команд:" ++ newline
   ++ "/start - ℹ️ Начало работы с ботом" ++ newline
   ++ "/set_city _- 🏠 Выбрать город вручную" ++ newline
   ++ "/status - ℹ️ Показать текущие настройки" ++ newline
   ++ "/daily_quote _- 📖 Аят дня" ++ newline
   ++ "/subscribe - ✅ Подписаться на уведомления" ++ newline
   ++ "/unsubscribe - ❌ Отписаться от уведомлений" ++ newline ++ newline
   ++ "Выберите действие ниже:")%string.

Definition settings (chat : Z) : M (list output) :=
  ret [Reply chat commands_list (Some "Markdown") (InlineKeyboardMarkup settings_keyboard)].

Definition handle_settings_callback (w : world) (data : string) (chat : Z)
    : M (list output) :=
  if String.eqb data "change_city" then
    let keyboard :=
      city_keyboard ++ [[mkbutton "⬅️ Назад" "back_to_settings"]] in
    ret [EditMessage chat "Выберите город:" None (InlineKeyboardMarkup keyboard);
         AnswerQuery]
  else if String.eqb data "show_settings" then
    if sqlite_ok w then
      tbl <- gets subscribers ;;
      let text :=
        match select_by_chat_id chat tbl with
        | Some row => settings_text row
        | None => settings_not_found
        end in
      ret [EditMessage chat text None NoMarkup; AnswerQuery]
    else
      ret [LogLine ERROR (ShowSettingsFailed chat);
           EditMessage chat "❌ Произошла ошибка" None NoMarkup; AnswerQuery]
  else if String.eqb data "back_to_settings" then
    ret [EditMessage chat commands_list (Some "Markdown")
           (InlineKeyboardMarkup settings_keyboard);
         AnswerQuery]
  else ret [AnswerQuery].

(** [UPDATE subscribers SET subscribed = v WHERE chat_id = ?] *)
Definition set_subscribed (chat : Z) (v : Z) (tbl : list subscriber) : list subscriber :=
  map (fun r => if chat_id r =? chat
                then mksubscriber (chat_id r) (city r) (timezone r) v
                else r) tbl.

Definition subscribe (w : world) (chat : Z) : M (list output) :=
  if sqlite_ok w then
    tbl <- gets subscribers ;;
    match select_by_chat_id chat tbl with
    | None => ret [set_city_first chat]
    | Some _ =>
        modify (fun s => set_subscribers (set_subscribed chat 1 (subscribers s)) s) ;;;
        ret [simple_reply chat "✅ Вы подписаны на уведомления!";
             LogLine INFO (UserSubscribed chat)]
    end
  else
    ret [LogLine ERROR (SubscribeFailed chat); error_reply chat].

Definition unsubscribe (w : world) (chat : Z) : M (list output) :=
  unsubscribe_user w chat ;;;
  ret [simple_reply chat "❌ Вы отписались от уведомлений!"].

(** [CallbackQueryHandler(set_city, pattern="^set_city_")]: the pattern is
    matched at the start of the callback data. *)
Definition set_city_pattern (data : string) : bool :=
  String.prefix "set_city_" data.

(** ** A sample environment

    One subscriber in Moscow (UTC+3) on 2024-01-15; the schedule page lists
    Fajr at 04:37 for that day. *)

Definition sample_rows : list (list string) :=
  [ [];
    ["14"; "Вс"; "04:38"; "06:11"; "12:29"; "14:59"; "17:44"; "19:19"];
    ["15"; "Пн"; "04:37"; "06:10"; "12:30"; "15:00"; "17:45"; "19:20"] ].

Definition sample_quote : quote_div :=
  mkquote_div (Some (Some "/ayat/1")) (Some "Св. Коран, 2:286")
              (Some "Аллах не возлагает на душу ничего, кроме возможного для неё.").

Definition sample_http (rows : list (list string)) (url : string) : response :=
  if String.eqb url "https://umma.ru/raspisanie-namaza/moscow"
  then Body (HtmlDoc (mkdocument (Some rows) None))
  else if String.eqb url "https://umma.ru/ayat-dnya"
  then Body (HtmlDoc (mkdocument None (Some sample_quote)))
  else ClientError.

(** The world at Moscow time [h]:[m] of 2024-01-15 (after 03:00). *)
Definition sample_world_with (rows : list (list string)) (h m : Z)
    (send : Z -> string -> bool) : world :=
  mkworld true
    (mkdatetime (mkdate 2024 1 15) (h - 3) m 0 (Some 0))
    (fun name =>
       if String.eqb name "Europe/Moscow"
       then Some (mkdatetime (mkdate 2024 1 15) h m 0 (Some 180))
       else None)
    (mkdate 2024 1 15)
    ((h * 60 + m) * 60)
    (sample_http rows)
    send.

Definition sample_world (h m : Z) : world :=
  sample_world_with sample_rows h m (fun _ _ => true).

Definition sample_table : list subscriber :=
  [mksubscriber 42 "moscow" "Europe/Moscow" 1].

(** ** Vocabulary of the statements *)

(** A computation is [quiet] when it delivers no message and leaves the two
    ledgers and the subscriber table as they were (it may touch the cache,
    fetch pages and write log lines). *)
Definition quiet {A : Type} (m : M A) : Prop :=
  forall s : state,
    sent_notifications (final (m s)) = sent_notifications s
    /\ sent_daily_schedules (final (m s)) = sent_daily_schedules s
    /\ subscribers (final (m s)) = subscribers s
    /\ forall chat : Z, sent_to chat (trace (m s)) = [].

(** The state after [cache[k] = v] at time [now]. *)
Definition stored (k : string) (v : pydict) (now : Z) (s : state) : state :=
  set_cache (TTLCache.setitem cache_maxsize CACHE_TIMEOUT (cache s) k v now) s.

(** A valid 24-hour clock time as the schedule page and [strftime] print
    it: one or two digits for the hour, a colon, two digits for the minute. *)
Definition valid_time (t : string) : bool :=
  match list_ascii_of_string t with
  | [h1; h2; c; m1; m2] =>
      Ascii.eqb c ":" && is_digit h1 && is_digit h2 && is_digit m1 && is_digit m2
      && (10 * digit_val h1 + digit_val h2 <? 24)
      && (10 * digit_val m1 + digit_val m2 <? 60)
  | [h1; c; m1; m2] =>
      Ascii.eqb c ":" && is_digit h1 && is_digit m1 && is_digit m2
      && (10 * digit_val m1 + digit_val m2 <? 60)
  | _ => false
  end.

(** The minute of the day, [hour * 60 + minute], read off the digits of a
    valid time. *)
Definition minute_of_day (t : string) : Z :=
  match list_ascii_of_string t with
  | [h1; h2; _; m1; m2] =>
      (10 * digit_val h1 + digit_val h2) * 60 + (10 * digit_val m1 + digit_val m2)
  | [h1; _; m1; m2] =>
      digit_val h1 * 60 + (10 * digit_val m1 + digit_val m2)
  | _ => 0
  end.

(** The calls the program makes on the cache: [parse_prayer_times] for a
    city and a day, and [get_daily_quote('ayat')]. *)
Inductive call : Type :=
| ParseCall (w : world) (city : string) (d : date)
| QuoteCall (w : world).

Definition run_call (c : call) : M pydict :=
  match c with
  | ParseCall w city d => parse_prayer_times w city d
  | QuoteCall w => get_daily_quote w "ayat"
  end.

(** The results of a sequence of calls, each with its call. *)
Fixpoint run_calls (cs : list call) (s : state) : list (call * res pydict) :=
  match cs with
  | [] => []
  | c :: cs' => (c, outcome (run_call c s)) :: run_calls cs' (final (run_call c s))
  end.

(** The state after a sequence of calls. *)
Fixpoint after_calls (cs : list call) (s : state) : state :=
  match cs with
  | [] => s
  | c :: cs' => after_calls cs' (final (run_call c s))
  end.

Definition call_world (c : call) : world :=
  match c with
  | ParseCall w _ _ => w
  | QuoteCall w => w
  end.

(** City codes reach the table only through [set_city], which takes them
    from [CITIES]. *)
Definition call_ok (c : call) : Prop :=
  match c with
  | ParseCall _ city _ => In city (map snd CITIES)
  | QuoteCall _ => True
  end.

Definition six_names (sched : pydict) : Prop := map fst sched = PRAYER_NAMES.

Definition schedule_result_ok (cr : call * res pydict) : Prop :=
  match cr with
  | (ParseCall _ _ _, r) => r = Ok [] \/ exists sched, r = Ok sched /\ six_names sched
  | (QuoteCall _, _) => True
  end.

(** What the cache holds: under a quote key anything, under any other key a
    schedule with the six names. *)
Definition cache_inv (c : TTLCache.t pydict) : Prop :=
  Forall (fun l => String.prefix "ayat_" (TTLCache.key l) = true
                   \/ six_names (TTLCache.value l)) c.

(** A schedule page whose row for the day shows a dash for sunrise. *)
Definition dash_rows : list (list string) :=
  [ ["15"; "Пн"; "04:37"; "—"; "12:30"; "15:00"; "17:45"; "19:20"] ].

Definition sample_schedule : pydict :=
  [ ("Фаджр", "04:37"); ("Шурук", "06:10"); ("Зухр", "12:30");
    ("Аср", "15:00"); ("Магриб", "17:45"); ("Иша", "19:20") ].

Definition sample_user : user := mkuser 42 "moscow" "Europe/Moscow".

(** A world in which every [send_message] raises. *)
Definition offline_world (h m : Z) : world :=
  sample_world_with sample_rows h m (fun _ _ => false).

Definition dash_world (h m : Z) : world :=
  sample_world_with dash_rows h m (fun _ _ => true).

Definition sample_day : date := mkdate 2024 1 15.

(** The test of [check_prayer_times] on one schedule entry, in the words of
    the specification: the entry's minute of the day is the current one and
    its key is not in the ledger. *)
Definition due_and_unsent (today : date) (chat : Z) (current_minute : Z)
    (ledger : dict bool) (item : string * string) : bool :=
  (minute_of_day (snd item) =? current_minute)
  && negb (dict_in (notification_id today (fst item) chat) ledger).

(** All delivered messages of a trace. *)
Definition deliveries (tr : list event) : list (Z * string) :=
  flat_map (fun ev => match ev with Sent c text => [(c, text)] | _ => [] end) tr.

(** The primary key of the table: chat ids strictly increase along the
    rows. *)
Fixpoint strictly_increasing (ks : list Z) : bool :=
  match ks with
  | k :: ((k' :: _) as rest) => (k <? k') && strictly_increasing rest
  | _ => true
  end.

Definition keyed (tbl : list subscriber) : bool :=
  strictly_increasing (map chat_id tbl).

(** The cache key a call works on. *)
Definition call_key (c : call) : string :=
  match c with
  | ParseCall _ city d => schedule_key city d
  | QuoteCall w => quote_key "ayat" (today_local w)
  end.

(** The calls [update_data] makes on the day [today]. *)
Definition refresh_calls (w : world) (today : date) : list call :=
  map (fun city => ParseCall w city today) (map snd CITIES) ++ [QuoteCall w].

(** The schedule [parse_prayer_times] builds from the row of the day. *)
Definition schedule_of_row (cols : list string) : pydict :=
  [ ("Фаджр", col cols 2); ("Шурук", col cols 3); ("Зухр", col cols 4);
    ("Аср", col cols 5); ("Магриб", col cols 6); ("Иша", col cols 7) ].

(** The keys a cache holds, oldest first. *)
Definition keys {V : Type} (c : TTLCache.t V) : list string :=
  map (@TTLCache.key V) c.

(** The distinct keys among those a cache holds and those a sequence of
    calls works on. *)
Definition keys_in_use (c : TTLCache.t pydict) (cs : list call) : list string :=
  nodup string_dec (keys c ++ map call_key cs).

(** The row of the day on the schedule page a world serves for a city: the
    first [tr] of the table with at least eight cells whose first cell is the
    day of the month; none if the page does not load, has no table or no
    such row. *)
Definition day_row (w : world) (city : string) (d : date) : option (list string) :=
  match http_get w (schedule_url city) with
  | Body (HtmlDoc doc) =>
      match pray_table doc with
      | Some rows => find (is_day_row d) rows
      | None => None
      end
  | _ => None
  end.

Definition row_schedule (row : option (list string)) : pydict :=
  match row with
  | Some cols => schedule_of_row cols
  | None => []
  end.

(** What the cache holds after the calls [past]: under a quote key anything,
    under any other key the six cells of the day's row of a page that one of
    the calls was served for a city of [CITIES] under that key. *)
Definition cells_inv (past : list call) (c : TTLCache.t pydict) : Prop :=
  Forall (fun l =>
            String.prefix "ayat_" (TTLCache.key l) = true
            \/ exists w city d cols,
                 In (ParseCall w city d) past
                 /\ In city (map snd CITIES)
                 /\ TTLCache.key l = schedule_key city d
                 /\ day_row w city d = Some cols
                 /\ TTLCache.value l = schedule_of_row cols) c.

(** The integers SQLite stores in an INTEGER column.  Telegram chat ids lie
    within them; for a Python [int] outside them the [sqlite3] binding
    raises OverflowError, which is no [sqlite3.Error] and is outside this
    model. *)
Definition sqlite_integer (z : Z) : Prop := - 2 ^ 63 <= z < 2 ^ 63.

(** The day after the sample day: the page lists Fajr at 04:36 for the 16th. *)
Definition next_day : date := mkdate 2024 1 16.

Definition next_day_rows : list (list string) :=
  [ [];
    ["15"; "Пн"; "04:37"; "06:10"; "12:30"; "15:00"; "17:45"; "19:20"];
    ["16"; "Вт"; "04:36"; "06:09"; "12:30"; "15:02"; "17:47"; "19:22"] ].

Definition next_day_schedule : pydict :=
  [ ("Фаджр", "04:36"); ("Шурук", "06:09"); ("Зухр", "12:30");
    ("Аср", "15:02"); ("Магриб", "17:47"); ("Иша", "19:22") ].

(** The state the digest job leaves at 04:27 of the sample day, ten minutes
    before Fajr. *)
Definition after_first_digest : state :=
  final (send_daily_prayer_schedule (sample_world 4 27) (initial_state sample_table)).

(** A minute of single-subscriber polling at Moscow time [h]:[m]: the
    schedule for the two jobs that read it and the quote. *)
Definition poll_minute (h m : Z) : list call :=
  [ ParseCall (sample_world h m) "moscow" sample_day;
    ParseCall (sample_world h m) "moscow" sample_day;
    QuoteCall (sample_world h m) ].

(** The polls of the minutes 04:38 to 05:11. *)
Definition polls_of_34_minutes : list call :=
  flat_map (fun m => poll_minute 4 m) (map Z.of_nat (seq 38 22))
  ++ flat_map (fun m => poll_minute 5 m) (map Z.of_nat (seq 0 12)).

(** The world at Moscow time [h]:[m] of 2024-01-16 (after 03:00), a day of
    the timer after the sample world. *)
Definition next_day_world (h m : Z) : world :=
  mkworld true
    (mkdatetime next_day (h - 3) m 0 (Some 0))
    (fun name =>
       if String.eqb name "Europe/Moscow"
       then Some (mkdatetime next_day h m 0 (Some 180))
       else None)
    next_day
    (86400 + (h * 60 + m) * 60)
    (sample_http next_day_rows)
    (fun _ _ => true).

(** The three notification jobs. *)
Definition jobs : list (world -> M unit) :=
  [check_prayer_times; send_daily_prayer_schedule; send_daily_quote].

(** What a handler shows in the chat: the chat, text, parse mode and
    keyboard of every reply and message edit, in order. *)
Definition views (outs : list output) : list (Z * string * option string * markup) :=
  flat_map (fun o => match o with
                     | Reply c t pm m => [(c, t, pm, m)]
                     | EditMessage c t pm m => [(c, t, pm, m)]
                     | _ => []
                     end) outs.

(** What the cache holds under a quote key: a dictionary with the one entry
    ['text']. *)
Definition quote_inv (c : TTLCache.t pydict) : Prop :=
  Forall (fun l => String.prefix "ayat_" (TTLCache.key l) = true ->
                   exists text, TTLCache.value l = [("text", text)]) c.

(** A table with a few subscribers in different cities. *)
Definition three_rows : list subscriber :=
  [ mksubscriber (-100) "kazan" "Europe/Moscow" 1;
    mksubscriber 42 "moscow" "Europe/Moscow" 1;
    mksubscriber 77 "ufa" "Asia/Yekaterinburg" 0 ].

(** * Properties *)

Unset Implicit Arguments.

Arguments strftime_HM : simpl never.
Arguments isoformat : simpl never.
Arguments str : simpl never.
Arguments minutes : simpl never.
Arguments quote_message : simpl never.
Arguments prayer_text : simpl never.
Arguments schedule_text : simpl never.
Arguments notification_id : simpl never.
Arguments schedule_id : simpl never.
Arguments schedule_key : simpl never.
Arguments schedule_url : simpl never.
Arguments quote_key : simpl never.

(** ** The Python primitives on known values *)

Example split_key :
  split "-" "2024-01-15-Asr-42" = ["2024"; "01"; "15"; "Asr"; "42"]
  /\ split ":" "" = [""]
  /\ last (split "_" "set_city_Уфа") = "Уфа".
Proof. repeat split. Qed.

Example int_literals :
  int "04" = Ok 4 /\ int " -1_0 " = Ok (-10) /\ int "4:" = Raise ValueError
  /\ int "" = Raise ValueError /\ int "1__0" = Raise ValueError
  /\ int "—" = Raise ValueError.
Proof. repeat split. Qed.

Example minutes_of_clock_times :
  minutes "04:37" = Ok 277 /\ minutes "4:37:59" = Ok 277 /\ minutes "0437" = Ok 26220
  /\ minutes "—" = Raise ValueError.
Proof. repeat split. Qed.

Example replace_with_nothing : remove "ab" "xabaabby" = "xaby".
Proof. reflexivity. Qed.

Example calendar :
  toordinal (mkdate 2024 1 15) = 738900
  /\ fromordinal 738900 = mkdate 2024 1 15
  /\ dt_date (sub_days (mkdatetime (mkdate 2024 3 1) 0 30 0 (Some 0)) 1) = mkdate 2024 2 29
  /\ dt_date (sub_days (mkdatetime (mkdate 2025 1 1) 0 30 0 (Some 0)) 1) = mkdate 2024 12 31
  /\ isoformat (mkdate 2024 1 5) = "2024-01-05".
Proof. repeat split. Qed.

Example strptime_dates :
  strptime_Ymd "2024-01-15" = Ok (mkdatetime (mkdate 2024 1 15) 0 0 0 None)
  /\ strptime_Ymd "2024-1-5" = Ok (mkdatetime (mkdate 2024 1 5) 0 0 0 None)
  /\ strptime_Ymd "2024" = Raise ValueError
  /\ strptime_Ymd "2024-02-30" = Raise ValueError
  /\ strptime_Ymd "2024-13-01" = Raise ValueError
  /\ strptime_Ymd "2024-01-15-Asr" = Raise ValueError.
Proof. repeat split. Qed.

(** Ordering a naive against an aware datetime, as the pruning code would
    if it got that far. *)
Example naive_against_aware :
  Datetime.gt (mkdatetime (mkdate 2024 1 15) 0 0 0 None)
              (mkdatetime (mkdate 2024 1 14) 1 37 0 (Some 0))
  = Raise TypeError.
Proof. reflexivity. Qed.

(** ** Strings and keys *)

Lemma first_split_no_sep (sep : ascii) (s : string) (i : nat) :
  String.get i (first (split sep s)) <> Some sep.
Proof.
  revert i; induction s as [|c s IH]; intros i; simpl.
  - destruct i; discriminate.
  - destruct (Ascii.eqb_spec c sep) as [->|Hc].
    + destruct i; discriminate.
    + unfold first in *.
      destruct (split sep s) as [|p ps]; simpl in *.
      * destruct i as [|[|i]]; simpl; congruence.
      * destruct i as [|i]; simpl; [congruence | apply IH].
Qed.

Lemma split_no_sep (sep : ascii) (s : string) :
  (forall i, String.get i s <> Some sep) -> split sep s = [s].
Proof.
  induction s as [|c s IH]; intros H; simpl; [reflexivity|].
  destruct (Ascii.eqb_spec c sep) as [->|Hc].
  - exfalso; apply (H 0%nat); reflexivity.
  - rewrite IH; [reflexivity|].
    intros i; apply (H (S i)).
Qed.

Lemma char_at_first_split (sep : ascii) (s : string) (i : nat) :
  char_at_is (first (split sep s)) i sep = false.
Proof.
  unfold char_at_is.
  destruct (String.get i (first (split sep s))) as [c|] eqn:E; [|reflexivity].
  destruct (Ascii.eqb_spec c sep) as [->|]; [|reflexivity].
  exfalso; exact (first_split_no_sep _ _ _ E).
Qed.

(** The segment before the first dash never passes the shape check of the
    pruning loop. *)
Lemma looks_like_date_first_split (k : string) :
  looks_like_date (first (split "-" k)) = false.
Proof.
  unfold looks_like_date.
  rewrite (char_at_first_split "-" k 4), andb_false_r.
  reflexivity.
Qed.

(** ... and is never accepted by [strptime]. *)
Lemma strptime_first_split (k : string) :
  strptime_Ymd (first (split "-" k)) = Raise ValueError.
Proof.
  unfold strptime_Ymd.
  rewrite split_no_sep by apply first_split_no_sep.
  reflexivity.
Qed.

(** ** Pruning *)

Lemma clean_notifications_drops_all (cutoff_date : datetime)
    (items : list (string * bool)) (cleaned : dict bool) (s : state) :
  clean_notifications cutoff_date items cleaned s
  = (Ok cleaned, s, map (fun kv => Log WARNING (BadNotificationKey (fst kv))) items).
Proof.
  revert cleaned s; induction items as [|[k v] items IH]; intros cleaned s.
  - reflexivity.
  - cbn [clean_notifications].
    rewrite looks_like_date_first_split.
    unfold bind at 1; cbn.
    rewrite IH. reflexivity.
Qed.

Lemma recent_schedules_raises (cutoff_date : datetime) (k : string) (v : bool)
    (rest : list (string * bool)) (s : state) :
  recent_schedules cutoff_date ((k, v) :: rest) s = (Raise ValueError, s, []).
Proof.
  cbn [recent_schedules].
  rewrite strptime_first_split.
  reflexivity.
Qed.

(** ** Traces and the effect monad *)

Lemma sent_to_app (chat : Z) (t1 t2 : list event) :
  sent_to chat (t1 ++ t2) = sent_to chat t1 ++ sent_to chat t2.
Proof.
  induction t1 as [|ev t1 IH]; simpl; [reflexivity|].
  destruct ev; try assumption.
  destruct (chat0 =? chat); simpl; rewrite IH; reflexivity.
Qed.

Lemma deliveries_app (t1 t2 : list event) :
  deliveries (t1 ++ t2) = deliveries t1 ++ deliveries t2.
Proof. unfold deliveries. apply flat_map_app. Qed.

Lemma fetches_app (t1 t2 : list event) :
  fetches (t1 ++ t2) = fetches t1 ++ fetches t2.
Proof.
  induction t1 as [|ev t1 IH]; simpl; [reflexivity|].
  destruct ev; simpl; rewrite ?IH; reflexivity.
Qed.

Section Quiet.

Lemma quiet_ret {A : Type} (a : A) : quiet (ret a).
Proof. intros s; cbn; auto. Qed.

Lemma quiet_raise {A : Type} (e : exn) : quiet (@raise A e).
Proof. intros s; cbn; auto. Qed.

Lemma quiet_lift {A : Type} (r : res A) : quiet (lift r).
Proof. intros s; cbn; auto. Qed.

Lemma quiet_gets {A : Type} (f : state -> A) : quiet (gets f).
Proof. intros s; cbn; auto. Qed.

Lemma quiet_log (lvl : level) (msg : log_msg) : quiet (log lvl msg).
Proof. intros s; cbn; auto. Qed.

Lemma quiet_fetch_event (url : string) : quiet (emit (Fetch url)).
Proof. intros s; cbn; auto. Qed.

Lemma quiet_bind {A B : Type} (m : M A) (k : A -> M B) :
  quiet m -> (forall a, quiet (k a)) -> quiet (bind m k).
Proof.
  intros Hm Hk s. specialize (Hm s). unfold bind.
  destruct (m s) as [[[a|e] s1] t1]; cbn in *; [|exact Hm].
  specialize (Hk a s1).
  destruct (k a s1) as [[r s2] t2]; cbn in *.
  destruct Hm as (H1 & H2 & H3 & H4), Hk as (K1 & K2 & K3 & K4).
  repeat split; try congruence.
  intros chat. rewrite sent_to_app, H4, K4. reflexivity.
Qed.

Lemma quiet_try_except {A : Type} (m : M A) (catches : exn -> bool)
    (h : exn -> M A) :
  quiet m -> (forall e, quiet (h e)) -> quiet (try_except m catches h).
Proof.
  intros Hm Hh s. specialize (Hm s). unfold try_except.
  destruct (m s) as [[[a|e] s1] t1]; cbn in *; [exact Hm|].
  destruct (catches e); [|exact Hm].
  specialize (Hh e s1).
  destruct (h e s1) as [[r s2] t2]; cbn in *.
  destruct Hm as (H1 & H2 & H3 & H4), Hh as (K1 & K2 & K3 & K4).
  repeat split; try congruence.
  intros chat. rewrite sent_to_app, H4, K4. reflexivity.
Qed.

Lemma quiet_cache_contains (w : world) (k : string) : quiet (cache_contains w k).
Proof. apply quiet_gets. Qed.

Lemma quiet_cache_getitem (w : world) (k : string) : quiet (cache_getitem w k).
Proof.
  intros s. unfold cache_getitem.
  destruct (TTLCache.getitem (cache s) k (monotonic w)); cbn; auto.
Qed.

Lemma quiet_cache_setitem (w : world) (k : string) (v : pydict) :
  quiet (cache_setitem w k v).
Proof. intros s; cbn; auto. Qed.

Lemma quiet_subscript {V : Type} (d : dict V) (k : string) : quiet (subscript d k).
Proof.
  unfold subscript. destruct (dict_get d k); [apply quiet_ret | apply quiet_raise].
Qed.

Lemma quiet_found {A : Type} (o : option A) : quiet (found o).
Proof. destruct o; [apply quiet_ret | apply quiet_raise]. Qed.

Lemma quiet_now_in (w : world) (name : string) : quiet (now_in w name).
Proof.
  unfold now_in. destruct (localnow w name); [apply quiet_ret | apply quiet_raise].
Qed.

Lemma quiet_fetch_url (w : world) (url : string) : quiet (fetch_url w url).
Proof.
  unfold fetch_url. apply quiet_bind; [apply quiet_fetch_event|]. intros _.
  destruct (http_get w url).
  - apply quiet_ret.
  - apply quiet_bind; [apply quiet_log | intros; apply quiet_ret].
  - apply quiet_raise.
Qed.

End Quiet.

Create HintDb quiet.

#[local] Hint Resolve quiet_ret quiet_raise quiet_lift quiet_gets quiet_log
  quiet_cache_contains quiet_cache_getitem quiet_cache_setitem quiet_subscript
  quiet_found quiet_now_in quiet_fetch_url quiet_fetch_event : quiet.

Ltac quiet_step :=
  first
    [ solve [auto with quiet]
    | apply quiet_bind; [|intro]
    | apply quiet_try_except; [|intro]
    | match goal with
      | |- quiet (if ?b then _ else _) => destruct b
      | |- quiet (match ?x with _ => _ end) => destruct x
      end ].

Lemma quiet_parse_prayer_times (w : world) (city : string) (d : date) :
  quiet (parse_prayer_times w city d).
Proof. unfold parse_prayer_times. repeat quiet_step. Qed.

Lemma quiet_get_daily_quote (w : world) (quote_type : string) :
  quiet (get_daily_quote w quote_type).
Proof. unfold get_daily_quote. repeat quiet_step. Qed.

(** Unfolding the plumbing of the monad. *)
Ltac run :=
  cbv beta iota zeta delta
    [bind try_except ret raise lift gets modify emit log any_exception
     outcome final trace fst snd subscript found now_in send_message].

(** ** The daily quote *)

Lemma users_of_chat_le_1 (chat : Z) (tbl : list subscriber) :
  NoDup (map chat_id tbl) ->
  (length
     (filter (fun u => (u_chat_id u =? chat)%Z)
        (map (fun r => mkuser (chat_id r) (city r) (timezone r))
           (filter (fun r => (subscribed r =? 1)%Z) tbl))) <= 1)%nat.
Proof.
  induction tbl as [|r tbl IH]; intros Hnd; simpl; [lia|].
  inversion Hnd as [|? ? Hnotin Hnd']; subst.
  specialize (IH Hnd').
  destruct (subscribed r =? 1); simpl; [|exact IH].
  destruct (Z.eqb_spec (chat_id r) chat) as [Heq|]; simpl; [|exact IH].
  assert (Hnone :
    filter (fun u => u_chat_id u =? chat)
      (map (fun r => mkuser (chat_id r) (city r) (timezone r))
         (filter (fun r => subscribed r =? 1) tbl)) = []).
  { clear IH Hnd Hnd'. induction tbl as [|r' tbl IH']; simpl; [reflexivity|].
    simpl in Hnotin.
    destruct (subscribed r' =? 1); simpl.
    - destruct (Z.eqb_spec (chat_id r') chat); [exfalso; apply Hnotin; left; congruence|].
      apply IH'. intros H; apply Hnotin; right; exact H.
    - apply IH'. intros H; apply Hnotin; right; exact H. }
  rewrite Hnone. simpl. lia.
Qed.

Lemma quote_turn_run (w : world) (quote : pydict) (usr : user) (chat : Z) (s : state) :
  outcome (quote_turn w quote usr s) = Ok tt
  /\ final (quote_turn w quote usr s) = s
  /\ (sent_to chat (trace (quote_turn w quote usr s)) = []
      \/ (u_chat_id usr = chat
          /\ (exists dt, localnow w (u_tz usr) = Some dt /\ strftime_HM dt = "08:00")
          /\ length (sent_to chat (trace (quote_turn w quote usr s))) = 1%nat)).
Proof.
  unfold quote_turn, quote_user. run.
  destruct (localnow w (u_tz usr)) as [dt|] eqn:Hnow; [|cbn; auto].
  destruct (String.eqb_spec (strftime_HM dt) "08:00") as [H8|H8]; [|cbn; auto].
  destruct (dict_get quote "text") as [text|]; [|cbn; auto].
  destruct (send_ok w (u_chat_id usr) (quote_message text)); [|cbn; auto].
  cbn.
  destruct (Z.eqb_spec (u_chat_id usr) chat) as [Hc|Hc]; [|auto].
  repeat split; auto. right. repeat split; eauto.
Qed.

Lemma for_each_cons_ok {X : Type} (body : X -> M unit) (x : X) (xs : list X)
    (s s1 : state) (t1 : list event) :
  body x s = (Ok tt, s1, t1) ->
  for_each (x :: xs) body s
  = (outcome (for_each xs body s1), final (for_each xs body s1),
     t1 ++ trace (for_each xs body s1)).
Proof.
  intros H. cbn [for_each]. unfold bind. rewrite H.
  destruct (for_each xs body s1) as [[r s2] t2]. reflexivity.
Qed.

Lemma quote_loop (w : world) (quote : pydict) (chat : Z) (users : list user) (s : state) :
  outcome (for_each users (quote_turn w quote) s) = Ok tt
  /\ final (for_each users (quote_turn w quote) s) = s
  /\ (length (sent_to chat (trace (for_each users (quote_turn w quote) s)))
      <= length (filter (fun u => (u_chat_id u =? chat)%Z) users))%nat
  /\ (sent_to chat (trace (for_each users (quote_turn w quote) s)) <> [] ->
      exists usr dt, In usr users /\ u_chat_id usr = chat
                     /\ localnow w (u_tz usr) = Some dt /\ strftime_HM dt = "08:00").
Proof.
  induction users as [|u users IH].
  - cbn. repeat split; auto. congruence.
  - destruct (quote_turn_run w quote u chat s) as (Ho & Hs & Hsent).
    destruct (quote_turn w quote u s) as [[o s1] t1] eqn:E.
    cbn in Ho, Hs, Hsent. subst o s1.
    rewrite (for_each_cons_ok _ _ _ _ _ _ E).
    destruct IH as (IH1 & IH2 & IH3 & IH4).
    cbn [outcome final trace fst snd]. rewrite sent_to_app, length_app.
    split; [assumption|]. split; [assumption|].
    destruct Hsent as [Hnil | (Hc & (dt & Hdt & H8) & Hlen)].
    + rewrite Hnil. cbn [length app filter]. split.
      * destruct (u_chat_id u =? chat); cbn [length]; lia.
      * intros Hne. destruct (IH4 Hne) as (usr & dt & Hin & Hrest).
        exists usr, dt. split; [right; exact Hin | exact Hrest].
    + rewrite Hlen. cbn [filter]. rewrite Hc, Z.eqb_refl. cbn [length]. split; [lia|].
      intros _. exists u, dt. split; [left; reflexivity|]. auto.
Qed.

(** C3, as the code has it.  One run of [send_daily_quote] delivers the quote
    to a subscriber at most once, and only if that subscriber's local clock
    reads 08:00; the job reads and writes no ledger. *)
Theorem send_daily_quote_once_per_run (w : world) (s : state) (chat : Z) :
  NoDup (map chat_id (subscribers s)) ->
  (length (sent_to chat (trace (send_daily_quote w s))) <= 1)%nat
  /\ (sent_to chat (trace (send_daily_quote w s)) <> [] ->
      exists row dt,
        In row (subscribers s) /\ chat_id row = chat /\ subscribed row = 1
        /\ localnow w (timezone row) = Some dt /\ strftime_HM dt = "08:00")
  /\ sent_notifications (final (send_daily_quote w s)) = sent_notifications s
  /\ sent_daily_schedules (final (send_daily_quote w s)) = sent_daily_schedules s.
Proof.
  intros Hnd.
  unfold send_daily_quote, get_subscribed_users. run.
  destruct (sqlite_ok w); [|cbn; repeat split; auto; congruence].
  set (users := map _ (filter _ (subscribers s))).
  assert (Hle : (length (filter (fun u => (u_chat_id u =? chat)%Z) users) <= 1)%nat)
    by (apply users_of_chat_le_1; exact Hnd).
  assert (Hrows : forall usr, In usr users ->
            exists row, In row (subscribers s) /\ chat_id row = u_chat_id usr
                        /\ subscribed row = 1 /\ timezone row = u_tz usr).
  { intros usr Hin. apply in_map_iff in Hin. destruct Hin as (row & <- & Hin).
    apply filter_In in Hin. destruct Hin as (Hin & Hsub).
    exists row. cbn. repeat split; auto. apply Z.eqb_eq; exact Hsub. }
  destruct (is_empty users); [cbn; repeat split; auto; congruence|].
  destruct (quiet_get_daily_quote w "ayat" s) as (Q1 & Q2 & _ & Q4).
  specialize (Q4 chat).
  destruct (get_daily_quote w "ayat" s) as [[[quote|e] s1] t1]; cbn in Q1, Q2, Q4.
  2:{ cbn. rewrite Q4. cbn. repeat split; auto; congruence. }
  destruct (is_empty quote).
  { cbn. rewrite ?sent_to_app, Q4. cbn. repeat split; auto; congruence. }
  destruct (quote_loop w quote chat users s1) as (L1 & L2 & L3 & L4).
  destruct (for_each users (quote_turn w quote) s1) as [[o s2] t2].
  cbn in L1, L2, L3, L4. subst s2.
  cbn. rewrite ?sent_to_app, Q4. cbn.
  repeat split; auto; try lia.
  intros Hne. destruct (L4 Hne) as (usr & dt & Hin & Hc & Hdt & H8).
  destruct (Hrows usr Hin) as (row & Hrow & Hid & Hsub & Htz).
  exists row, dt. rewrite Htz. repeat split; auto; congruence.
Qed.

Lemma send_daily_quote_once_per_run_witness :
  NoDup (map chat_id (subscribers (initial_state sample_table)))
  /\ (length (sent_to 42 (trace (send_daily_quote (sample_world 8 0)
                                   (initial_state sample_table)))) <= 1)%nat.
Proof.
  split.
  - cbn. constructor; [intros []|constructor].
  - apply (send_daily_quote_once_per_run (sample_world 8 0)
             (initial_state sample_table) 42).
    cbn. constructor; [intros []|constructor].
Defined.

(** C3 (fails on the code).  Two runs of [send_daily_quote] in the minute
    08:00 deliver the quote twice to the same subscriber. *)
Lemma quote_sent_twice_in_one_minute :
  length
    (sent_to 42
       (snd (run_job send_daily_quote [sample_world 8 0; sample_world 8 0]
               (initial_state sample_table))))
  = 2%nat.
Proof. vm_compute. reflexivity. Qed.

(** ** Choosing a city *)

Lemma select_insert_or_replace (r : subscriber) (tbl : list subscriber) :
  select_by_chat_id (chat_id r) (insert_or_replace r tbl) = Some r.
Proof.
  induction tbl as [|r' tbl IH]; cbn.
  - rewrite Z.eqb_refl. reflexivity.
  - destruct (chat_id r <? chat_id r'); cbn.
    + rewrite Z.eqb_refl. reflexivity.
    + destruct (Z.eqb_spec (chat_id r) (chat_id r')) as [Heq|Hne]; cbn.
      * rewrite Z.eqb_refl. reflexivity.
      * destruct (Z.eqb_spec (chat_id r') (chat_id r)); [congruence | exact IH].
Qed.

Lemma city_button (name code : string) :
  dict_get CITIES name = Some code ->
  last (split "_" ("set_city_" ++ name)) = name
  /\ exists tz, dict_get CITY_TIMEZONES code = Some tz.
Proof.
  unfold CITIES. cbn [dict_get]. intros H.
  repeat match type of H with
         | (if String.eqb ?k name then _ else _) = _ =>
             destruct (String.eqb_spec k name) as [<-|_];
             [inversion H; subst; split; [reflexivity | eexists; reflexivity]|]
         end.
  discriminate.
Qed.

(** C10.  Choosing a city stores the row with [subscribed = 1], whatever the
    table held for that chat before. *)
Theorem set_city_resubscribes (w : world) (s : state) (chat : Z) (name code : string) :
  sqlite_ok w = true ->
  dict_get CITIES name = Some code ->
  exists tz,
    dict_get CITY_TIMEZONES code = Some tz
    /\ outcome (set_city w ("set_city_" ++ name) chat s) = Ok tt
    /\ select_by_chat_id chat
         (subscribers (final (set_city w ("set_city_" ++ name) chat s)))
       = Some (mksubscriber chat code tz 1).
Proof.
  intros Hok Hcity.
  destruct (city_button name code Hcity) as (Hlast & tz & Htz).
  exists tz. split; [exact Htz|].
  unfold set_city, update_user. rewrite Hlast, Hok. run.
  rewrite Hcity, Htz. cbn.
  split; [reflexivity|].
  apply (select_insert_or_replace (mksubscriber chat code tz 1)).
Qed.

Lemma set_city_resubscribes_witness :
  let s := initial_state [mksubscriber 42 "moscow" "Europe/Moscow" 0] in
  select_by_chat_id 42 (subscribers s) = Some (mksubscriber 42 "moscow" "Europe/Moscow" 0)
  /\ exists tz,
       dict_get CITY_TIMEZONES "kazan" = Some tz
       /\ outcome (set_city (sample_world 9 0) ("set_city_" ++ "Казань") 42 s) = Ok tt
       /\ select_by_chat_id 42
            (subscribers (final (set_city (sample_world 9 0) ("set_city_" ++ "Казань") 42 s)))
          = Some (mksubscriber 42 "kazan" tz 1).
Proof.
  split; [reflexivity|].
  apply (set_city_resubscribes (sample_world 9 0) _ 42 "Казань" "kazan");
    reflexivity.
Defined.

(** ** The TTL cache *)

Section CacheFacts.

Variable V : Type.
Variable maxsize : nat.
Variable ttl : Z.

Abbreviation find := (@TTLCache.find V).
Abbreviation delete := (@TTLCache.delete V).
Abbreviation contains := (@TTLCache.contains V).
Abbreviation getitem := (@TTLCache.getitem V).
Abbreviation setitem := (@TTLCache.setitem V maxsize ttl).

Lemma find_app (k : string) (c1 c2 : TTLCache.t V) :
  find k (c1 ++ c2)
  = match find k c1 with
    | Some l => Some l
    | None => find k c2
    end.
Proof.
  induction c1 as [|l c1 IH]; cbn; [reflexivity|].
  destruct (String.eqb (TTLCache.key l) k); [reflexivity | exact IH].
Qed.

Lemma find_In (k : string) (c : TTLCache.t V) (l : TTLCache.link V) :
  find k c = Some l -> In l c /\ TTLCache.key l = k.
Proof.
  induction c as [|l' c IH]; cbn; [discriminate|].
  destruct (String.eqb_spec (TTLCache.key l') k) as [Hk|_].
  - intros [= <-]. auto.
  - intros H. destruct (IH H). auto.
Qed.

Lemma find_delete (k : string) (c : TTLCache.t V) : find k (delete k c) = None.
Proof.
  induction c as [|l c IH]; cbn; [reflexivity|].
  destruct (String.eqb (TTLCache.key l) k) eqn:E; cbn; [exact IH|].
  rewrite E. exact IH.
Qed.

Lemma find_delete_other (k k' : string) (c : TTLCache.t V) :
  k' <> k -> find k (delete k' c) = find k c.
Proof.
  intros Hne. induction c as [|l c IH]; cbn; [reflexivity|].
  destruct (String.eqb_spec (TTLCache.key l) k') as [E'|E']; cbn.
  - destruct (String.eqb_spec (TTLCache.key l) k); [congruence | exact IH].
  - destruct (String.eqb (TTLCache.key l) k); [reflexivity | exact IH].
Qed.

Lemma find_filter (f : TTLCache.link V -> bool) (k : string) (c : TTLCache.t V)
    (l : TTLCache.link V) :
  find k c = Some l -> f l = true -> find k (filter f c) = Some l.
Proof.
  intros Hfind Hf. induction c as [|l' c IH]; cbn in *; [discriminate|].
  destruct (String.eqb (TTLCache.key l') k) eqn:E.
  - injection Hfind as ->. rewrite Hf. cbn. rewrite E. reflexivity.
  - destruct (f l'); cbn; [rewrite E|]; apply IH; exact Hfind.
Qed.

Lemma find_setitem (c : TTLCache.t V) (k : string) (v : V) (now : Z) :
  find k (setitem c k v now) = Some (TTLCache.mklink k v (now + ttl)).
Proof.
  unfold TTLCache.setitem. rewrite find_app, find_delete. cbn.
  rewrite String.eqb_refl. reflexivity.
Qed.

(** A link that is found and has not expired is served. *)
Lemma contains_find (c : TTLCache.t V) (k : string) (l : TTLCache.link V) (now : Z) :
  find k c = Some l -> now < TTLCache.expires l -> contains c k now = true.
Proof.
  intros Hfind Hlt. unfold TTLCache.contains. rewrite Hfind.
  apply Z.ltb_lt; exact Hlt.
Qed.

Lemma getitem_find (c : TTLCache.t V) (k : string) (l : TTLCache.link V) (now : Z) :
  find k c = Some l -> now < TTLCache.expires l ->
  getitem c k now = (Ok (TTLCache.value l), delete k c ++ [l]).
Proof.
  intros Hfind Hlt. unfold TTLCache.getitem. rewrite Hfind.
  apply Z.ltb_lt in Hlt. rewrite Hlt. reflexivity.
Qed.

Lemma contains_true (c : TTLCache.t V) (k : string) (now : Z) :
  contains c k now = true ->
  exists l, find k c = Some l /\ now < TTLCache.expires l.
Proof.
  unfold TTLCache.contains. destruct (find k c) as [l|]; [|discriminate].
  intros H. exists l. split; [reflexivity | apply Z.ltb_lt; exact H].
Qed.

(** A key that is missing or expired stays so as long as nothing is
    stored. *)
Lemma contains_false_later (c : TTLCache.t V) (k : string) (now now' : Z) :
  contains c k now = false -> now <= now' -> contains c k now' = false.
Proof.
  unfold TTLCache.contains. destruct (find k c) as [l|]; [|reflexivity].
  intros H Hle. apply Z.ltb_ge in H. apply Z.ltb_ge. lia.
Qed.

(** Reading any key leaves every link findable. *)
Lemma find_getitem_keeps (c : TTLCache.t V) (k k' : string) (l : TTLCache.link V)
    (now : Z) :
  find k c = Some l -> find k (snd (getitem c k' now)) = Some l.
Proof.
  intros Hfind. unfold TTLCache.getitem.
  destruct (find k' c) as [l'|] eqn:E'; [|exact Hfind].
  assert (Hc : find k (delete k' c ++ [l']) = Some l).
  { rewrite find_app. destruct (String.eqb_spec k' k) as [->|Hne].
    - rewrite find_delete. rewrite Hfind in E'. injection E' as <-.
      destruct (find_In _ _ _ Hfind) as (_ & Hk). cbn.
      rewrite Hk, String.eqb_refl. reflexivity.
    - rewrite find_delete_other, Hfind by exact Hne. reflexivity. }
  destruct (now <? TTLCache.expires l'); exact Hc.
Qed.

(** Storing another key leaves a live link findable as long as the cache
    is not full. *)
Lemma find_setitem_keeps (c : TTLCache.t V) (k k' : string) (l : TTLCache.link V)
    (v : V) (now : Z) :
  find k c = Some l -> now < TTLCache.expires l -> k' <> k ->
  (length c < maxsize)%nat ->
  find k (setitem c k' v now) = Some l.
Proof.
  intros Hfind Hlt Hne Hroom. unfold TTLCache.setitem.
  assert (H1 : find k (TTLCache.expire c now) = Some l).
  { unfold TTLCache.expire. apply find_filter; [exact Hfind|].
    apply Z.ltb_lt; exact Hlt. }
  assert (Hlen : (length (TTLCache.expire c now) <= length c)%nat)
    by apply filter_length_le.
  replace (length (TTLCache.expire c now) + 1 - maxsize)%nat with 0%nat by lia.
  cbn [skipn].
  rewrite find_app.
  destruct (TTLCache.find k' (TTLCache.expire c now));
    rewrite find_delete_other, H1 by exact Hne; reflexivity.
Qed.

Lemma length_delete (k : string) (c : TTLCache.t V) :
  (length (delete k c) <= length c)%nat.
Proof. apply filter_length_le. Qed.

Lemma length_getitem (c : TTLCache.t V) (k : string) (now : Z) :
  (length (snd (getitem c k now)) <= S (length c))%nat.
Proof.
  unfold TTLCache.getitem. destruct (find k c) as [l|]; [|cbn; lia].
  pose proof (length_delete k c).
  destruct (now <? TTLCache.expires l); cbn; rewrite length_app; cbn; lia.
Qed.

Lemma length_setitem (c : TTLCache.t V) (k : string) (v : V) (now : Z) :
  (length (setitem c k v now) <= S (length c))%nat.
Proof.
  unfold TTLCache.setitem. rewrite length_app. cbn [length].
  pose proof (filter_length_le (fun l => now <? TTLCache.expires l) c) as H1.
  fold (TTLCache.expire c now) in H1.
  destruct (TTLCache.find k (TTLCache.expire c now)).
  - pose proof (length_delete k (TTLCache.expire c now)). lia.
  - pose proof (length_delete k
        (skipn (length (TTLCache.expire c now) + 1 - maxsize) (TTLCache.expire c now))).
    rewrite length_skipn in H. lia.
Qed.

End CacheFacts.

Ltac not_stored := solve [split; [reflexivity | left; split; reflexivity]].

(** A call that misses the cache fetches the page once; it either returns
    the empty dictionary and leaves the state alone, or returns the six
    entries of the day's row and stores them. *)
Lemma parse_prayer_times_miss (w : world) (city : string) (d : date) (s : state) :
  TTLCache.contains (cache s) (schedule_key city d) (monotonic w) = false ->
  fetches (trace (parse_prayer_times w city d s)) = [schedule_url city]
  /\ ((outcome (parse_prayer_times w city d s) = Ok []
       /\ final (parse_prayer_times w city d s) = s)
      \/ (exists sched,
            map fst sched = PRAYER_NAMES
            /\ outcome (parse_prayer_times w city d s) = Ok sched
            /\ final (parse_prayer_times w city d s)
               = stored (schedule_key city d) sched (monotonic w) s)).
Proof.
  intros Hmiss.
  unfold parse_prayer_times, cache_contains, fetch_url, cache_setitem. run.
  rewrite Hmiss.
  destruct (http_get w (schedule_url city)) as [[|doc]| |e]; cbn; try not_stored.
  destruct (pray_table doc) as [rows|]; cbn; try not_stored.
  destruct (find (is_day_row d) rows) as [cols|]; cbn; try not_stored.
  split; [reflexivity|]. right. eexists. split; [|split; reflexivity]. reflexivity.
Qed.

(** A call that finds a live link returns its value without fetching and
    moves the link to the recent end. *)
Lemma parse_prayer_times_hit (w : world) (city : string) (d : date) (s : state)
    (l : TTLCache.link pydict) :
  TTLCache.find (schedule_key city d) (cache s) = Some l ->
  monotonic w < TTLCache.expires l ->
  parse_prayer_times w city d s
  = (Ok (TTLCache.value l),
     set_cache (TTLCache.delete (schedule_key city d) (cache s) ++ [l]) s, []).
Proof.
  intros Hfind Hlt.
  unfold parse_prayer_times, cache_contains, cache_getitem. run.
  rewrite (contains_find _ _ _ _ _ Hfind Hlt). cbv beta iota.
  rewrite (getitem_find _ _ _ _ _ Hfind Hlt). reflexivity.
Qed.

Lemma get_daily_quote_miss (w : world) (quote_type url : string) (s : state) :
  dict_get quote_urls quote_type = Some url ->
  TTLCache.contains (cache s) (quote_key quote_type (today_local w)) (monotonic w) = false ->
  fetches (trace (get_daily_quote w quote_type s)) = [url]
  /\ ((outcome (get_daily_quote w quote_type s) = Ok []
       /\ final (get_daily_quote w quote_type s) = s)
      \/ (exists text,
            outcome (get_daily_quote w quote_type s) = Ok [("text", text)]
            /\ final (get_daily_quote w quote_type s)
               = stored (quote_key quote_type (today_local w)) [("text", text)]
                   (monotonic w) s)).
Proof.
  intros Hurl Hmiss.
  unfold get_daily_quote, cache_contains, fetch_url, cache_setitem. run.
  rewrite Hmiss, Hurl.
  destruct (http_get w url) as [[|doc]| |e]; cbn; try not_stored.
  destruct (quote_block doc) as [block|]; cbn; try not_stored.
  destruct (a_href block) as [href|]; cbn; try not_stored.
  destruct (h3_text block) as [h3|]; cbn; try not_stored.
  destruct (p_text block) as [p|]; cbn; try not_stored.
  split; [reflexivity|]. right. eexists. split; reflexivity.
Qed.

Lemma get_daily_quote_hit (w : world) (quote_type : string) (s : state)
    (l : TTLCache.link pydict) :
  TTLCache.find (quote_key quote_type (today_local w)) (cache s) = Some l ->
  monotonic w < TTLCache.expires l ->
  get_daily_quote w quote_type s
  = (Ok (TTLCache.value l),
     set_cache (TTLCache.delete (quote_key quote_type (today_local w)) (cache s) ++ [l]) s,
     []).
Proof.
  intros Hfind Hlt.
  unfold get_daily_quote, cache_contains, cache_getitem. run.
  rewrite (contains_find _ _ _ _ _ Hfind Hlt). cbv beta iota.
  rewrite (getitem_find _ _ _ _ _ Hfind Hlt). reflexivity.
Qed.

(** The cache after any call: unchanged, or after reading the call's key,
    or after storing under the call's key, which was not served. *)
Lemma run_call_cache (c : call) (s : state) :
  exists k,
    (TTLCache.contains (cache s) k (monotonic (call_world c)) = true
     /\ cache (final (run_call c s))
        = snd (TTLCache.getitem (cache s) k (monotonic (call_world c))))
    \/ (TTLCache.contains (cache s) k (monotonic (call_world c)) = false
        /\ (cache (final (run_call c s)) = cache s
            \/ exists v,
                 cache (final (run_call c s))
                 = TTLCache.setitem cache_maxsize CACHE_TIMEOUT (cache s) k v
                     (monotonic (call_world c)))).
Proof.
  destruct c as [w city d | w]; cbn [run_call call_world].
  - exists (schedule_key city d).
    destruct (TTLCache.contains (cache s) (schedule_key city d) (monotonic w)) eqn:Hc.
    + left. split; [reflexivity|].
      destruct (contains_true _ _ _ _ Hc) as (l & Hfind & Hlt).
      rewrite (parse_prayer_times_hit w city d s l Hfind Hlt),
        (getitem_find _ _ _ _ _ Hfind Hlt). reflexivity.
    + right. split; [reflexivity|].
      destruct (parse_prayer_times_miss w city d s Hc)
        as (_ & [(_ & ->) | (sched & _ & _ & ->)]); [left | right; eexists];
        reflexivity.
  - exists (quote_key "ayat" (today_local w)).
    destruct (TTLCache.contains (cache s) (quote_key "ayat" (today_local w)) (monotonic w))
      eqn:Hc.
    + left. split; [reflexivity|].
      destruct (contains_true _ _ _ _ Hc) as (l & Hfind & Hlt).
      rewrite (get_daily_quote_hit w "ayat" s l Hfind Hlt),
        (getitem_find _ _ _ _ _ Hfind Hlt). reflexivity.
    + right. split; [reflexivity|].
      destruct (get_daily_quote_miss w "ayat" _ s eq_refl Hc)
        as (_ & [(_ & ->) | (text & _ & ->)]); [left | right; eexists];
        reflexivity.
Qed.

(** A live link survives any call made before it expires, as long as the
    cache is not full. *)
Lemma run_call_keeps (c : call) (s : state) (k : string) (l : TTLCache.link pydict) :
  TTLCache.find k (cache s) = Some l ->
  monotonic (call_world c) < TTLCache.expires l ->
  (length (cache s) < cache_maxsize)%nat ->
  TTLCache.find k (cache (final (run_call c s))) = Some l
  /\ (length (cache (final (run_call c s))) <= S (length (cache s)))%nat.
Proof.
  intros Hfind Hlt Hroom.
  destruct (run_call_cache c s) as (k' & [(_ & ->) | (Hmiss & [-> | (v & ->)])]).
  - split; [apply find_getitem_keeps; exact Hfind | apply length_getitem].
  - split; [exact Hfind | lia].
  - split; [|apply length_setitem].
    apply find_setitem_keeps; try assumption.
    intros ->. rewrite (contains_find _ _ _ _ _ Hfind Hlt) in Hmiss. discriminate.
Qed.

Lemma after_calls_keeps (cs : list call) (s : state) (k : string)
    (l : TTLCache.link pydict) :
  TTLCache.find k (cache s) = Some l ->
  Forall (fun c => monotonic (call_world c) < TTLCache.expires l) cs ->
  (length (cache s) + length cs <= cache_maxsize)%nat ->
  TTLCache.find k (cache (after_calls cs s)) = Some l.
Proof.
  revert s. induction cs as [|c cs IH]; intros s Hfind Hlt Hroom; [exact Hfind|].
  inversion Hlt as [|? ? Hc Hcs]; subst. cbn [length] in Hroom.
  destruct (run_call_keeps c s k l Hfind Hc) as (Hfind' & Hlen); [lia|].
  cbn [after_calls]. apply IH; [exact Hfind' | exact Hcs | lia].
Qed.

(** ** The shape of schedules *)

Lemma in_skipn {A : Type} (n : nat) (l : list A) (x : A) :
  In x (skipn n l) -> In x l.
Proof.
  intros H. rewrite <- (firstn_skipn n l). apply in_or_app. right. exact H.
Qed.

Lemma cache_inv_sub (c c' : TTLCache.t pydict) :
  incl c' c -> cache_inv c -> cache_inv c'.
Proof.
  unfold cache_inv. rewrite !Forall_forall. auto.
Qed.

Lemma cache_inv_getitem (c : TTLCache.t pydict) (k : string) (l : TTLCache.link pydict) :
  In l c -> cache_inv c -> cache_inv (TTLCache.delete k c ++ [l]).
Proof.
  intros Hin Hinv. apply (cache_inv_sub c); [|exact Hinv].
  intros x Hx. apply in_app_or in Hx. destruct Hx as [Hx|[<-|[]]]; [|exact Hin].
  unfold TTLCache.delete in Hx. apply filter_In in Hx. tauto.
Qed.

Lemma cache_inv_setitem (c : TTLCache.t pydict) (k : string) (v : pydict) (now : Z) :
  cache_inv c ->
  String.prefix "ayat_" k = true \/ six_names v ->
  cache_inv (TTLCache.setitem cache_maxsize CACHE_TIMEOUT c k v now).
Proof.
  intros Hinv Hnew. unfold TTLCache.setitem, cache_inv.
  apply Forall_app. split.
  - apply (cache_inv_sub c); [|exact Hinv].
    intros x Hx. unfold TTLCache.delete in Hx. apply filter_In in Hx.
    destruct Hx as (Hx & _).
    assert (Hexp : In x (TTLCache.expire c now)).
    { destruct (TTLCache.find k (TTLCache.expire c now)); [exact Hx|].
      eapply in_skipn; exact Hx. }
    unfold TTLCache.expire in Hexp. apply filter_In in Hexp. tauto.
  - constructor; [exact Hnew | constructor].
Qed.

Lemma schedule_key_not_quote (city : string) (d : date) :
  In city (map snd CITIES) -> String.prefix "ayat_" (schedule_key city d) = false.
Proof.
  unfold schedule_key. cbn [CITIES map snd In]. intros H.
  repeat (destruct H as [<-|H]; [reflexivity|]). destruct H.
Qed.

Lemma parse_prayer_times_step (w : world) (city : string) (d : date) (s : state) :
  cache_inv (cache s) ->
  In city (map snd CITIES) ->
  cache_inv (cache (final (parse_prayer_times w city d s)))
  /\ (outcome (parse_prayer_times w city d s) = Ok []
      \/ exists sched,
           outcome (parse_prayer_times w city d s) = Ok sched /\ six_names sched).
Proof.
  intros Hinv Hcity.
  destruct (TTLCache.contains (cache s) (schedule_key city d) (monotonic w)) eqn:Hc.
  - destruct (contains_true _ _ _ _ Hc) as (l & Hfind & Hlt).
    destruct (find_In _ _ _ _ Hfind) as (Hin & Hk).
    rewrite (parse_prayer_times_hit w city d s l Hfind Hlt). cbn.
    split; [apply cache_inv_getitem; assumption|].
    right. exists (TTLCache.value l). split; [reflexivity|].
    unfold cache_inv in Hinv. rewrite Forall_forall in Hinv.
    destruct (Hinv l Hin) as [Hq|Hsix]; [|exact Hsix].
    rewrite Hk, schedule_key_not_quote in Hq by exact Hcity. discriminate.
  - destruct (parse_prayer_times_miss w city d s Hc)
      as (_ & [(Ho & Hs) | (sched & Hnames & Ho & Hs)]).
    + rewrite Hs. auto.
    + rewrite Hs. split; [|right; eauto].
      cbn. apply cache_inv_setitem; auto.
Qed.

Lemma get_daily_quote_step (w : world) (s : state) :
  cache_inv (cache s) ->
  cache_inv (cache (final (get_daily_quote w "ayat" s))).
Proof.
  intros Hinv.
  destruct (TTLCache.contains (cache s) (quote_key "ayat" (today_local w)) (monotonic w))
    eqn:Hc.
  - destruct (contains_true _ _ _ _ Hc) as (l & Hfind & Hlt).
    destruct (find_In _ _ _ _ Hfind) as (Hin & Hk).
    rewrite (get_daily_quote_hit w "ayat" s l Hfind Hlt). cbn.
    apply cache_inv_getitem; assumption.
  - destruct (get_daily_quote_miss w "ayat" _ s eq_refl Hc)
      as (_ & [(Ho & Hs) | (text & Ho & Hs)]).
    + rewrite Hs. exact Hinv.
    + rewrite Hs. cbn. apply cache_inv_setitem; [exact Hinv|].
      left. unfold quote_key. cbn. destruct (isoformat (today_local w)); reflexivity.
Qed.

Lemma run_calls_ok (cs : list call) (s : state) :
  cache_inv (cache s) ->
  Forall call_ok cs ->
  Forall schedule_result_ok (run_calls cs s).
Proof.
  revert s. induction cs as [|c cs IH]; intros s Hinv Hok; cbn; [constructor|].
  inversion Hok as [|? ? Hc Hcs]; subst.
  destruct c as [w city d | w]; cbn in *.
  - destruct (parse_prayer_times_step w city d s Hinv Hc) as (Hinv' & Hres).
    constructor; [exact Hres | apply IH; assumption].
  - constructor; [exact I|].
    apply IH; [apply get_daily_quote_step; exact Hinv | assumption].
Qed.

Lemma check_user_empty_schedule (w : world) (usr : user) (s : state) (now : datetime) :
  localnow w (u_tz usr) = Some now ->
  outcome (parse_prayer_times w (u_city usr) (dt_date now) s) = Ok [] ->
  (forall chat, sent_to chat (trace (check_user w usr s)) = [])
  /\ sent_notifications (final (check_user w usr s)) = sent_notifications s.
Proof.
  intros Hnow Hempty.
  destruct (quiet_parse_prayer_times w (u_city usr) (dt_date now) s)
    as (Q1 & _ & _ & Q4).
  unfold check_user. run. rewrite Hnow.
  destruct (parse_prayer_times w (u_city usr) (dt_date now) s) as [[r s1] t1].
  cbn in Hempty, Q1, Q4. subst r. cbn.
  split; [|exact Q1].
  intros chat. rewrite sent_to_app, Q4. reflexivity.
Qed.

(** C9 (fails on the code).  The cell texts are not checked: with a dash in
    the sunrise cell the schedule is returned and cached with a value that
    is no clock time.  It is then used in part: at 04:37 the Fajr
    notification goes out before the dash stops the subscriber's turn, and
    at 12:30 the Zuhr notification behind the dash is never reached. *)
Lemma schedule_with_invalid_time :
  exists sched,
    outcome (parse_prayer_times (dash_world 4 37) "moscow" sample_day
               (initial_state sample_table)) = Ok sched
    /\ map fst sched = PRAYER_NAMES
    /\ forallb valid_time (map snd sched) = false
    /\ sent_to 42 (trace (check_prayer_times (dash_world 4 37)
                            (initial_state sample_table)))
       = [prayer_text "Фаджр" "04:37"]
    /\ sent_to 42 (trace (check_prayer_times (dash_world 12 30)
                            (initial_state sample_table)))
       = [].
Proof.
  eexists. split; [vm_compute; reflexivity|].
  repeat split; vm_compute; reflexivity.
Qed.

(** ** Clock times *)

Lemma digit_cases (c : ascii) :
  is_digit c = true ->
  In c ["0"; "1"; "2"; "3"; "4"; "5"; "6"; "7"; "8"; "9"]%char.
Proof.
  destruct c as [[] [] [] [] [] [] [] []]; intros H;
    try discriminate H; cbn; tauto.
Qed.

Ltac digit_cases H :=
  apply digit_cases in H; cbn [In] in H;
  repeat (destruct H as [<-|H]; [|]); [..|destruct H].

Lemma int_two_digits (c1 c2 : ascii) :
  is_digit c1 = true -> is_digit c2 = true ->
  int (String c1 (String c2 "")) = Ok (10 * digit_val c1 + digit_val c2).
Proof.
  intros H1 H2. digit_cases H1; digit_cases H2; reflexivity.
Qed.

Lemma int_one_digit (c : ascii) :
  is_digit c = true -> int (String c "") = Ok (digit_val c).
Proof.
  intros H. digit_cases H; reflexivity.
Qed.

Lemma digit_not_colon (c : ascii) : is_digit c = true -> Ascii.eqb c ":" = false.
Proof.
  intros H. digit_cases H; reflexivity.
Qed.

(** The code's [sum(x * int(t) ...)] computes the minute of the day of
    every valid clock time. *)
Lemma minutes_valid (t : string) :
  valid_time t = true -> minutes t = Ok (minute_of_day t).
Proof.
  unfold valid_time, minute_of_day, minutes.
  destruct t as [|a [|b [|c [|d [|e [|f t]]]]]];
    cbn [list_ascii_of_string]; try discriminate.
  - (* H:MM *)
    intros H. repeat (apply andb_prop in H; destruct H as [H ?]).
    apply Ascii.eqb_eq in H; subst b.
    cbn [split]. rewrite (digit_not_colon a), (digit_not_colon c), (digit_not_colon d)
      by assumption.
    cbn -[Z.mul Z.add int]. rewrite int_one_digit, int_two_digits by assumption.
    cbn [res_bind]. f_equal. lia.
  - (* HH:MM *)
    intros H. repeat (apply andb_prop in H; destruct H as [H ?]).
    apply Ascii.eqb_eq in H; subst c.
    cbn [split]. rewrite (digit_not_colon a), (digit_not_colon b),
      (digit_not_colon d), (digit_not_colon e) by assumption.
    cbn -[Z.mul Z.add int]. rewrite !int_two_digits by assumption.
    cbn [res_bind]. f_equal. lia.
Qed.

Lemma two_digit_field (n : Z) :
  0 <= n < 60 ->
  exists c1 c2,
    zfill 2 (str n) = String c1 (String c2 "")
    /\ is_digit c1 = true /\ is_digit c2 = true
    /\ 10 * digit_val c1 + digit_val c2 = n.
Proof.
  intros Hn.
  assert (Hk : exists k, (k < 60)%nat /\ n = Z.of_nat k)
    by (exists (Z.to_nat n); lia).
  destruct Hk as (k & Hk & ->). clear Hn.
  do 60 (destruct k as [|k]; [do 2 eexists; repeat split|]).
  lia.
Qed.

(** [strftime("%H:%M")] prints a valid clock time whose minute of the day
    is [hour * 60 + minute]. *)
Lemma strftime_HM_valid (now : datetime) :
  0 <= hour now < 24 -> 0 <= minute now < 60 ->
  valid_time (strftime_HM now) = true
  /\ minute_of_day (strftime_HM now) = hour now * 60 + minute now.
Proof.
  intros Hh Hm.
  destruct (two_digit_field (hour now)) as (a & b & Eh & Ha & Hb & Hab); [lia|].
  destruct (two_digit_field (minute now)) as (c & d & Em & Hc & Hd & Hcd); [lia|].
  unfold strftime_HM, valid_time, minute_of_day. rewrite Eh, Em.
  cbn [append list_ascii_of_string].
  rewrite Ha, Hb, Hc, Hd, Hab, Hcd. cbn [Ascii.eqb Bool.eqb andb].
  split; [|reflexivity].
  replace (hour now <? 24) with true by (symmetry; apply Z.ltb_lt; lia).
  replace (minute now <? 60) with true by (symmetry; apply Z.ltb_lt; lia).
  reflexivity.
Qed.

(** ** Keys and ledgers *)

Lemma append_inj_l (a x y : string) : (a ++ x = a ++ y)%string -> x = y.
Proof.
  induction a as [|c a IH]; cbn; [auto|].
  intros [= H]. auto.
Qed.

Lemma length_append (x y : string) :
  String.length (x ++ y) = (String.length x + String.length y)%nat.
Proof.
  induction x as [|c x IH]; cbn; [reflexivity|]. rewrite IH. reflexivity.
Qed.

Lemma append_inj_r (x y z : string) : (x ++ z = y ++ z)%string -> x = y.
Proof.
  revert y. induction x as [|c x IH]; intros [|c' y] H; cbn in H.
  - reflexivity.
  - apply (f_equal String.length) in H. cbn in H. rewrite length_append in H. lia.
  - apply (f_equal String.length) in H. cbn in H. rewrite length_append in H. lia.
  - injection H as -> H. f_equal. auto.
Qed.

Lemma notification_id_inj (today : date) (p p' : string) (chat : Z) :
  notification_id today p chat = notification_id today p' chat -> p = p'.
Proof.
  unfold notification_id. intros H.
  apply append_inj_l in H. apply (append_inj_l "-") in H.
  apply append_inj_r in H. exact H.
Qed.

Lemma dict_in_set_same {V : Type} (d : dict V) (k : string) (v : V) :
  dict_in k (dict_set d k v) = true.
Proof.
  unfold dict_in. induction d as [|[k' v'] d IH]; cbn.
  - rewrite String.eqb_refl. reflexivity.
  - destruct (String.eqb k' k) eqn:E; cbn; rewrite E; [reflexivity | exact IH].
Qed.

Lemma dict_in_set_other {V : Type} (d : dict V) (k k' : string) (v : V) :
  k <> k' -> dict_in k (dict_set d k' v) = dict_in k d.
Proof.
  intros Hne. unfold dict_in. induction d as [|[k0 v0] d IH]; cbn.
  - destruct (String.eqb_spec k' k); [congruence | reflexivity].
  - destruct (String.eqb_spec k0 k') as [->|Hk0]; cbn.
    + destruct (String.eqb_spec k' k); [congruence | reflexivity].
    + destruct (String.eqb k0 k); [reflexivity | exact IH].
Qed.

Lemma dict_in_set_mono {V : Type} (d : dict V) (k k' : string) (v : V) :
  dict_in k d = true -> dict_in k (dict_set d k' v) = true.
Proof.
  intros H. destruct (String.eqb_spec k k') as [->|Hne].
  - apply dict_in_set_same.
  - rewrite dict_in_set_other by exact Hne. exact H.
Qed.

Lemma dict_set_new_length {V : Type} (d : dict V) (k : string) (v : V) :
  dict_in k d = false -> length (dict_set d k v) = S (length d).
Proof.
  unfold dict_in. induction d as [|[k' v'] d IH]; cbn; [reflexivity|].
  destruct (String.eqb k' k); [discriminate|].
  intros H. cbn. rewrite IH by exact H. reflexivity.
Qed.

(** ** Which prayers are due *)

Lemma filter_none {A : Type} (f : A -> bool) (l : list A) :
  (forall x, In x l -> f x = false) -> filter f l = [].
Proof.
  induction l as [|x l IH]; intros H; cbn; [reflexivity|].
  rewrite (H x) by (left; reflexivity). apply IH.
  intros y Hy. apply H. right. exact Hy.
Qed.

Lemma NoDup_PRAYER_NAMES : NoDup PRAYER_NAMES.
Proof.
  unfold PRAYER_NAMES.
  repeat (constructor; [cbn; intuition discriminate|]).
  constructor.
Qed.

Lemma notify_prayer_valid (w : world) (usr : user) (today : date)
    (current_time prayer time : string) (s : state) :
  valid_time time = true ->
  valid_time current_time = true ->
  (forall text, send_ok w (u_chat_id usr) text = true) ->
  notify_prayer w usr today current_time (prayer, time) s
  = if due_and_unsent today (u_chat_id usr) (minute_of_day current_time)
         (sent_notifications s) (prayer, time)
    then (Ok tt,
          set_sent_notifications
            (dict_set (sent_notifications s)
               (notification_id today prayer (u_chat_id usr)) true) s,
          [Sent (u_chat_id usr) (prayer_text prayer time);
           Log INFO (NotificationSent prayer (u_chat_id usr) time)])
    else (Ok tt, s, []).
Proof.
  intros Ht Hc Hsend.
  unfold notify_prayer, due_and_unsent. run.
  rewrite (minutes_valid time Ht), (minutes_valid current_time Hc).
  cbv beta iota. cbn [fst snd].
  replace (minute_of_day time - minute_of_day current_time =? 0)
    with (minute_of_day time =? minute_of_day current_time)
    by (destruct (Z.eqb_spec (minute_of_day time) (minute_of_day current_time));
        symmetry; [apply Z.eqb_eq | apply Z.eqb_neq]; lia).
  destruct (_ && _); [|reflexivity].
  rewrite Hsend. reflexivity.
Qed.

Lemma notify_loop (w : world) (usr : user) (today : date) (current_time : string)
    (items : pydict) :
  NoDup (map fst items) ->
  Forall (fun t => valid_time t = true) (map snd items) ->
  valid_time current_time = true ->
  (forall text, send_ok w (u_chat_id usr) text = true) ->
  forall s : state,
    outcome (for_each items (notify_prayer w usr today current_time) s) = Ok tt
    /\ sent_to (u_chat_id usr)
         (trace (for_each items (notify_prayer w usr today current_time) s))
       = map (fun item => prayer_text (fst item) (snd item))
           (filter (due_and_unsent today (u_chat_id usr) (minute_of_day current_time)
                      (sent_notifications s)) items).
Proof.
  intros Hnd Hvalid Hc Hsend.
  induction items as [|[prayer time] items IH]; intros s.
  - split; reflexivity.
  - inversion Hnd as [|? ? Hnotin Hnd']; subst.
    inversion Hvalid as [|? ? Ht Hvalid']; subst.
    specialize (IH Hnd' Hvalid').
    pose proof (notify_prayer_valid w usr today current_time prayer time s Ht Hc Hsend)
      as Hstep.
    cbn [filter].
    destruct (due_and_unsent today (u_chat_id usr) (minute_of_day current_time)
                (sent_notifications s) (prayer, time)).
    + rewrite (for_each_cons_ok _ _ _ _ _ _ Hstep).
      cbn [outcome final trace fst snd].
      destruct (IH (set_sent_notifications
                      (dict_set (sent_notifications s)
                         (notification_id today prayer (u_chat_id usr)) true) s))
        as (IHo & IHt).
      split; [exact IHo|].
      rewrite sent_to_app, IHt. cbn. rewrite Z.eqb_refl. cbn. f_equal. f_equal.
      apply filter_ext_in. intros [p t] Hin.
      unfold due_and_unsent. cbn [fst snd sent_notifications set_sent_notifications].
      rewrite dict_in_set_other; [reflexivity|].
      intros Heq. apply notification_id_inj in Heq. subst p.
      apply Hnotin. apply (in_map fst) in Hin. exact Hin.
    + rewrite (for_each_cons_ok _ _ _ _ _ _ Hstep).
      cbn [outcome final trace fst snd app]. apply IH.
Qed.

(** C5.  For a schedule with the six names and valid times, any local time
    of day and a working channel, the notifications sent in the loop over
    the schedule are exactly those of the entries whose minute of the day
    equals the current one (and whose key is not yet in the ledger); none
    is sent when no entry matches. *)
Theorem due_prayers_exact (w : world) (usr : user) (today : date) (now : datetime)
    (schedule : pydict) (s : state) :
  six_names schedule ->
  Forall (fun t => valid_time t = true) (map snd schedule) ->
  0 <= hour now < 24 ->
  0 <= minute now < 60 ->
  (forall text, send_ok w (u_chat_id usr) text = true) ->
  outcome (for_each schedule (notify_prayer w usr today (strftime_HM now)) s) = Ok tt
  /\ sent_to (u_chat_id usr)
       (trace (for_each schedule (notify_prayer w usr today (strftime_HM now)) s))
     = map (fun item => prayer_text (fst item) (snd item))
         (filter (due_and_unsent today (u_chat_id usr) (hour now * 60 + minute now)
                    (sent_notifications s)) schedule)
  /\ ((forall item, In item schedule ->
         minute_of_day (snd item) <> hour now * 60 + minute now) ->
      sent_to (u_chat_id usr)
        (trace (for_each schedule (notify_prayer w usr today (strftime_HM now)) s))
      = []).
Proof.
  intros Hsix Hvalid Hh Hm Hsend.
  destruct (strftime_HM_valid now Hh Hm) as (Hcur & Hminute).
  assert (Hnd : NoDup (map fst schedule)).
  { rewrite Hsix. apply NoDup_PRAYER_NAMES. }
  destruct (notify_loop w usr today (strftime_HM now) schedule Hnd Hvalid Hcur Hsend s)
    as (Ho & Ht).
  rewrite Hminute in Ht.
  split; [exact Ho|]. split; [exact Ht|].
  intros Hnone. rewrite Ht.
  rewrite filter_none; [reflexivity|].
  intros item Hin. unfold due_and_unsent.
  destruct (Z.eqb_spec (minute_of_day (snd item)) (hour now * 60 + minute now)) as [E|_];
    [destruct (Hnone item Hin E) | reflexivity].
Qed.

Lemma due_prayers_exact_witness :
  six_names sample_schedule
  /\ Forall (fun t => valid_time t = true) (map snd sample_schedule)
  /\ sent_to 42
       (trace (for_each sample_schedule
                 (notify_prayer (sample_world 4 37) sample_user sample_day
                    (strftime_HM (mkdatetime sample_day 4 37 0 (Some 180))))
                 (initial_state sample_table)))
     = [prayer_text "Фаджр" "04:37"].
Proof.
  assert (H1 : six_names sample_schedule) by reflexivity.
  assert (H2 : Forall (fun t => valid_time t = true) (map snd sample_schedule))
    by (repeat constructor).
  split; [exact H1|]. split; [exact H2|].
  destruct (due_prayers_exact (sample_world 4 37) sample_user sample_day
              (mkdatetime sample_day 4 37 0 (Some 180)) sample_schedule
              (initial_state sample_table) H1 H2)
    as (_ & Hsent & _); [cbn; lia | cbn; lia | reflexivity |].
  etransitivity; [exact Hsent | vm_compute; reflexivity].
Defined.

(** ** Delivery failures *)

Lemma deliveries_nil (tr : list event) :
  (forall chat, sent_to chat tr = []) -> deliveries tr = [].
Proof.
  induction tr as [|ev tr IH]; intros H; [reflexivity|].
  destruct ev as [url|c text|c text|lvl msg].
  2:{ specialize (H c). cbn in H. rewrite Z.eqb_refl in H. discriminate. }
  all: cbn; apply IH; intros chat; exact (H chat).
Qed.

(** One round of the loop over the schedule, in any world: the ledger grows
    by exactly the delivered messages, and not at all if sending fails. *)
Lemma notify_prayer_step (w : world) (usr : user) (today : date)
    (current_time : string) (item : string * string) (s : state) :
  length (sent_notifications (final (notify_prayer w usr today current_time item s)))
  = (length (sent_notifications s)
     + length (deliveries (trace (notify_prayer w usr today current_time item s))))%nat
  /\ ((forall text, send_ok w (u_chat_id usr) text = false) ->
      final (notify_prayer w usr today current_time item s) = s
      /\ deliveries (trace (notify_prayer w usr today current_time item s)) = []).
Proof.
  destruct item as [prayer time].
  unfold notify_prayer. run.
  destruct (minutes time) as [pm|e]; [|cbn; auto].
  destruct (minutes current_time) as [cm|e]; [|cbn; auto].
  cbv beta iota.
  destruct (pm - cm =? 0); [|cbn; auto].
  destruct (dict_in _ (sent_notifications s)) eqn:Hin; [cbn; auto|].
  cbn [andb negb].
  destruct (send_ok w (u_chat_id usr) (prayer_text prayer time)) eqn:Hsend.
  - cbn. split.
    + rewrite dict_set_new_length by exact Hin. lia.
    + intros Hfail. rewrite Hfail in Hsend. discriminate.
  - cbn. auto.
Qed.

Lemma notify_loop_step (w : world) (usr : user) (today : date) (current_time : string)
    (items : pydict) (s : state) :
  length (sent_notifications
            (final (for_each items (notify_prayer w usr today current_time) s)))
  = (length (sent_notifications s)
     + length (deliveries
                 (trace (for_each items (notify_prayer w usr today current_time) s))))%nat
  /\ ((forall text, send_ok w (u_chat_id usr) text = false) ->
      final (for_each items (notify_prayer w usr today current_time) s) = s
      /\ deliveries (trace (for_each items (notify_prayer w usr today current_time) s))
         = []).
Proof.
  revert s. induction items as [|item items IH]; intros s.
  - cbn. split; [lia | auto].
  - destruct (notify_prayer_step w usr today current_time item s) as (Hlen & Hfail).
    cbn [for_each]. unfold bind.
    destruct (notify_prayer w usr today current_time item s) as [[[[]|e] s1] t1];
      cbn [outcome final trace fst snd] in Hlen, Hfail.
    + destruct (IH s1) as (IHlen & IHfail).
      destruct (for_each items (notify_prayer w usr today current_time) s1)
        as [[r s2] t2]. cbn [outcome final trace fst snd] in IHlen, IHfail |- *.
      rewrite deliveries_app, length_app. split; [lia|].
      intros Hoff. destruct (Hfail Hoff) as (-> & ->).
      destruct (IHfail Hoff) as (-> & ->). auto.
    + cbn. auto.
Qed.

Lemma check_turn_step (w : world) (usr : user) (s : state) :
  outcome (check_turn w usr s) = Ok tt
  /\ length (sent_notifications (final (check_turn w usr s)))
     = (length (sent_notifications s)
        + length (deliveries (trace (check_turn w usr s))))%nat
  /\ ((forall text, send_ok w (u_chat_id usr) text = false) ->
      sent_notifications (final (check_turn w usr s)) = sent_notifications s
      /\ deliveries (trace (check_turn w usr s)) = []).
Proof.
  unfold check_turn, check_user. run.
  destruct (localnow w (u_tz usr)) as [now|]; [|cbn; repeat split; auto; lia].
  destruct (quiet_parse_prayer_times w (u_city usr) (dt_date now) s)
    as (Q1 & _ & _ & Q4).
  apply deliveries_nil in Q4.
  destruct (parse_prayer_times w (u_city usr) (dt_date now) s) as [[[sched|e] s1] t1];
    cbn [outcome final trace fst snd] in Q1, Q4.
  2:{ cbv beta iota. rewrite !deliveries_app, Q4, Q1. cbn. repeat split; auto; lia. }
  destruct (is_empty sched).
  { cbv beta iota. rewrite !deliveries_app, Q4, Q1. cbn. repeat split; auto; lia. }
  destruct (notify_loop_step w usr (dt_date now) (strftime_HM now) sched s1)
    as (Hlen & Hfail).
  rewrite Q1 in Hlen.
  destruct (for_each sched (notify_prayer w usr (dt_date now) (strftime_HM now)) s1)
    as [[[[]|e] s2] t2]; cbn [outcome final trace fst snd] in Hlen, Hfail;
    cbv beta iota; rewrite !deliveries_app, Q4; cbn; rewrite ?app_nil_r;
    (split; [reflexivity|]); (split; [exact Hlen|]);
    intros Hoff; destruct (Hfail Hoff) as (-> & ->); auto.
Qed.

Lemma check_loop_ok (w : world) (users : list user) (s : state) :
  outcome (for_each users (check_turn w) s) = Ok tt.
Proof.
  revert s. induction users as [|usr users IH]; intros s; [reflexivity|].
  destruct (check_turn_step w usr s) as (Ho & _).
  destruct (check_turn w usr s) as [[o s1] t1] eqn:E. cbn in Ho. subst o.
  rewrite (for_each_cons_ok _ _ _ _ _ _ E). cbn. apply IH.
Qed.

(** C8.  A subscriber's turn in [check_prayer_times] never raises, so the
    loop goes on with the remaining subscribers from the state the turn
    left; the ledger grows by exactly one key per delivered message; and if
    [send_message] raises for the subscriber, the turn delivers nothing and
    leaves the ledger as it was.  The job as a whole never raises. *)
Theorem delivery_failure_is_isolated (w : world) (usr : user) (rest : list user)
    (s : state) :
  outcome (check_turn w usr s) = Ok tt
  /\ length (sent_notifications (final (check_turn w usr s)))
     = (length (sent_notifications s)
        + length (deliveries (trace (check_turn w usr s))))%nat
  /\ for_each (usr :: rest) (check_turn w) s
     = (outcome (for_each rest (check_turn w) (final (check_turn w usr s))),
        final (for_each rest (check_turn w) (final (check_turn w usr s))),
        trace (check_turn w usr s)
        ++ trace (for_each rest (check_turn w) (final (check_turn w usr s))))
  /\ ((forall text, send_ok w (u_chat_id usr) text = false) ->
      sent_notifications (final (check_turn w usr s)) = sent_notifications s
      /\ deliveries (trace (check_turn w usr s)) = [])
  /\ outcome (check_prayer_times w s) = Ok tt.
Proof.
  destruct (check_turn_step w usr s) as (Ho & Hlen & Hfail).
  split; [exact Ho|]. split; [exact Hlen|]. split; [|split; [exact Hfail|]].
  - destruct (check_turn w usr s) as [[o s1] t1] eqn:E. cbn in Ho. subst o.
    rewrite (for_each_cons_ok _ _ _ _ _ _ E). reflexivity.
  - unfold check_prayer_times, get_subscribed_users. run.
    destruct (sqlite_ok w); [|reflexivity].
    destruct (is_empty _); [reflexivity|].
    rewrite clean_notifications_drops_all.
    pose proof (check_loop_ok w
      (map (fun r => mkuser (chat_id r) (city r) (timezone r))
         (filter (fun r => subscribed r =? 1) (subscribers s)))
      (set_sent_notifications [] s)) as Hloop.
    destruct (for_each _ (check_turn w) _) as [[o s2] t2].
    cbn in Hloop |- *. exact Hloop.
Qed.

Lemma delivery_failure_is_isolated_witness :
  (forall text, send_ok (offline_world 4 37) (u_chat_id sample_user) text = false)
  /\ sent_notifications
       (final (check_turn (offline_world 4 37) sample_user (initial_state sample_table)))
     = sent_notifications (initial_state sample_table)
  /\ deliveries
       (trace (check_turn (offline_world 4 37) sample_user (initial_state sample_table)))
     = [].
Proof.
  assert (H : forall text,
            send_ok (offline_world 4 37) (u_chat_id sample_user) text = false)
    by reflexivity.
  split; [exact H|].
  destruct (delivery_failure_is_isolated (offline_world 4 37) sample_user []
              (initial_state sample_table)) as (_ & _ & _ & Hfail & _).
  exact (Hfail H).
Defined.

(** ** The daily digest *)

Lemma sent_to_deliveries (chat : Z) (tr : list event) :
  sent_to chat tr
  = map snd (filter (fun p => fst p =? chat) (deliveries tr)).
Proof.
  induction tr as [|ev tr IH]; [reflexivity|].
  destruct ev as [url|c text|c text|lvl msg]; cbn; try exact IH.
  destruct (c =? chat); cbn; rewrite IH; reflexivity.
Qed.

(** The digest test for one subscriber, in any world: either nothing is
    delivered and the ledger is unchanged, or the key was absent, the digest
    is delivered once and the key is marked. *)
Lemma digest_due_run (w : world) (usr : user) (today : date) (current_time : string)
    (schedule : pydict) (s : state) :
  (sent_daily_schedules (final (digest_due w usr today current_time schedule s))
   = sent_daily_schedules s
   /\ deliveries (trace (digest_due w usr today current_time schedule s)) = [])
  \/ (dict_in (schedule_id today (u_chat_id usr)) (sent_daily_schedules s) = false
      /\ sent_daily_schedules (final (digest_due w usr today current_time schedule s))
         = dict_set (sent_daily_schedules s) (schedule_id today (u_chat_id usr)) true
      /\ deliveries (trace (digest_due w usr today current_time schedule s))
         = [(u_chat_id usr, schedule_text schedule)]).
Proof.
  unfold digest_due.
  destruct (dict_get schedule "Фаджр") as [[|c fajr]|]; [left; split; reflexivity| |left; split; reflexivity].
  run.
  destruct (minutes (String c fajr)) as [fm|e]; [|left; split; reflexivity].
  destruct (minutes current_time) as [cm|e]; [|left; split; reflexivity].
  cbv beta iota.
  destruct (fm - cm =? 10); [|left; split; reflexivity].
  destruct (dict_in _ (sent_daily_schedules s)) eqn:Hin; [left; split; reflexivity|].
  cbn [andb negb].
  destruct (send_ok w (u_chat_id usr) (schedule_text schedule));
    [right | left]; repeat split; reflexivity || assumption.
Qed.

Lemma digest_turn_run (w : world) (today : date) (usr : user) (s : state) :
  outcome (digest_turn w today usr s) = Ok tt
  /\ ((sent_daily_schedules (final (digest_turn w today usr s)) = sent_daily_schedules s
       /\ deliveries (trace (digest_turn w today usr s)) = [])
      \/ (dict_in (schedule_id today (u_chat_id usr)) (sent_daily_schedules s) = false
          /\ sent_daily_schedules (final (digest_turn w today usr s))
             = dict_set (sent_daily_schedules s) (schedule_id today (u_chat_id usr)) true
          /\ exists text,
               deliveries (trace (digest_turn w today usr s)) = [(u_chat_id usr, text)])).
Proof.
  unfold digest_turn, digest_user. run.
  destruct (localnow w (u_tz usr)) as [now|]; [|cbn; auto].
  destruct (quiet_parse_prayer_times w (u_city usr) today s) as (_ & Q2 & _ & Q4).
  apply deliveries_nil in Q4.
  destruct (parse_prayer_times w (u_city usr) today s) as [[[sched|e] s1] t1];
    cbn [outcome final trace fst snd] in Q2, Q4.
  2:{ cbv beta iota. rewrite !deliveries_app, Q4, Q2. cbn. auto. }
  destruct (is_empty sched).
  { cbv beta iota. rewrite !deliveries_app, Q4, Q2. cbn. auto. }
  rewrite <- Q2.
  destruct (digest_due_run w usr today (strftime_HM now) sched s1)
    as [(Hl & Hd) | (Hin & Hl & Hd)];
    destruct (digest_due w usr today (strftime_HM now) sched s1) as [[[[]|e] s2] t2];
    cbn [outcome final trace fst snd] in Hl, Hd;
    cbv beta iota; rewrite !deliveries_app, Q4, Hd; cbn;
    (split; [reflexivity|]); solve [left; auto | right; eauto].
Qed.

Lemma dict_in_nil_false {V : Type} (d : dict V) (k : string) :
  dict_in k d = true -> d <> [].
Proof. intros H ->. discriminate H. Qed.

Section DigestLoop.

Variable w : world.
Variable today : date.
Variable chat : Z.

Lemma digest_loop (users : list user) (s : state) :
  (dict_in (schedule_id today chat) (sent_daily_schedules s) = true ->
   sent_to chat (trace (for_each users (digest_turn w today) s)) = [])
  /\ (length (sent_to chat (trace (for_each users (digest_turn w today) s))) <= 1)%nat
  /\ (sent_daily_schedules (final (for_each users (digest_turn w today) s)) = [] ->
      deliveries (trace (for_each users (digest_turn w today) s)) = [])
  /\ (forall k, dict_in k (sent_daily_schedules s) = true ->
                dict_in k (sent_daily_schedules
                             (final (for_each users (digest_turn w today) s))) = true).
Proof.
  revert s. induction users as [|u users IH]; intros s.
  - cbn. repeat split; auto.
  - destruct (digest_turn_run w today u s) as (Ho & Hturn).
    destruct (digest_turn w today u s) as [[o s1] t1] eqn:E.
    cbn [outcome final trace fst snd] in Ho, Hturn. subst o.
    rewrite (for_each_cons_ok _ _ _ _ _ _ E).
    cbn [outcome final trace fst snd].
    destruct (IH s1) as (IH1 & IH2 & IH3 & IH4).
    rewrite sent_to_app, deliveries_app, (sent_to_deliveries chat t1).
    destruct Hturn as [(Hl & Hd) | (Hin & Hl & text & Hd)]; rewrite Hd, Hl in *.
    + cbn [filter map app]. repeat split; auto.
    + cbn [filter map app fst snd].
      destruct (Z.eqb_spec (u_chat_id u) chat) as [Hc|Hc].
      * (* this subscriber's digest goes out now and not again *)
        rewrite Hc in *.
        assert (Hrest : sent_to chat (trace (for_each users (digest_turn w today) s1)) = [])
          by (apply IH1; apply dict_in_set_same).
        rewrite Hrest. cbn. repeat split.
        -- intros Hk. rewrite Hk in Hin. discriminate.
        -- lia.
        -- intros Hnil. exfalso.
           apply (dict_in_nil_false _ (schedule_id today chat)) in Hnil; [exact Hnil|].
           apply IH4. apply dict_in_set_same.
        -- intros k Hk. apply IH4. apply dict_in_set_mono. exact Hk.
      * cbn [map app]. repeat split.
        -- intros Hk. apply IH1. apply dict_in_set_mono. exact Hk.
        -- exact IH2.
        -- intros Hnil. exfalso.
           apply (dict_in_nil_false _ (schedule_id today (u_chat_id u))) in Hnil;
             [exact Hnil|].
           apply IH4. apply dict_in_set_same.
        -- intros k Hk. apply IH4. apply dict_in_set_mono. exact Hk.
Qed.

End DigestLoop.

(** One run of the digest job: with a non-empty ledger it changes nothing
    and delivers nothing; from an empty ledger it delivers at most one digest
    per chat, and none at all if the ledger is still empty afterwards. *)
Lemma digest_job_run (w : world) (s : state) (chat : Z) :
  (sent_daily_schedules s <> [] ->
   final (send_daily_prayer_schedule w s) = s
   /\ deliveries (trace (send_daily_prayer_schedule w s)) = [])
  /\ (sent_daily_schedules s = [] ->
      (length (sent_to chat (trace (send_daily_prayer_schedule w s))) <= 1)%nat
      /\ (sent_daily_schedules (final (send_daily_prayer_schedule w s)) = [] ->
          deliveries (trace (send_daily_prayer_schedule w s)) = [])).
Proof.
  unfold send_daily_prayer_schedule, get_subscribed_users. run.
  destruct (sqlite_ok w); [|cbn; split; intros; split; auto].
  set (users := map _ (filter _ (subscribers s))).
  destruct (is_empty users); [cbn; split; intros; split; auto|].
  split.
  - intros Hne. destruct (sent_daily_schedules s) as [|[k v] rest] eqn:El;
      [congruence|].
    rewrite recent_schedules_raises. cbn. auto.
  - intros Hnil. rewrite Hnil. cbn [recent_schedules]. run.
    destruct (digest_loop w (dt_date (utcnow w)) chat users
                (set_sent_daily_schedules [] s)) as (_ & L2 & L3 & _).
    destruct (for_each users (digest_turn w (dt_date (utcnow w)))
                (set_sent_daily_schedules [] s)) as [[o s2] t2].
    cbn [outcome final trace fst snd] in L2, L3 |- *.
    cbn. auto.
Qed.

Lemma digest_runs (ws : list world) (s : state) (chat : Z) :
  (sent_daily_schedules s <> [] ->
   sent_to chat (snd (run_job send_daily_prayer_schedule ws s)) = [])
  /\ (length (sent_to chat (snd (run_job send_daily_prayer_schedule ws s))) <= 1)%nat.
Proof.
  revert s. induction ws as [|w ws IH]; intros s.
  - cbn. split; auto.
  - destruct (digest_job_run w s chat) as (Hfull & Hempty).
    cbn [run_job].
    destruct (send_daily_prayer_schedule w s) as [[o s1] t1].
    cbn [outcome final trace fst snd] in Hfull, Hempty.
    destruct (IH s1) as (IH1 & IH2).
    destruct (run_job send_daily_prayer_schedule ws s1) as [s2 t2].
    cbn [snd] in IH1, IH2 |- *.
    rewrite sent_to_app, length_app, (sent_to_deliveries chat t1).
    assert (Hfull' : sent_daily_schedules s <> [] ->
              map snd (filter (fun p => fst p =? chat) (deliveries t1)) ++ sent_to chat t2
              = []).
    { intros Hne. destruct (Hfull Hne) as (-> & ->). cbn. apply IH1. exact Hne. }
    split; [exact Hfull'|].
    destruct (sent_daily_schedules s) as [|kv rest] eqn:El.
    + destruct (Hempty eq_refl) as (Hle & Hstill).
      rewrite (sent_to_deliveries chat t1) in Hle.
      destruct (sent_daily_schedules s1) as [|kv' rest'] eqn:El1.
      * rewrite (Hstill eq_refl). cbn. exact IH2.
      * rewrite IH1 by discriminate. cbn. lia.
    + rewrite <- length_app, Hfull' by discriminate. cbn. lia.
Qed.

Lemma digest_due_valid (w : world) (usr : user) (today : date) (now : datetime)
    (fajr_time : string) (rest : pydict) (s : state) :
  valid_time fajr_time = true ->
  0 <= hour now < 24 -> 0 <= minute now < 60 ->
  (forall text, send_ok w (u_chat_id usr) text = true) ->
  sent_to (u_chat_id usr)
    (trace (digest_due w usr today (strftime_HM now) (("Фаджр", fajr_time) :: rest) s))
  = if (minute_of_day fajr_time - (hour now * 60 + minute now) =? 10)
       && negb (dict_in (schedule_id today (u_chat_id usr)) (sent_daily_schedules s))
    then [schedule_text (("Фаджр", fajr_time) :: rest)]
    else [].
Proof.
  intros Hf Hh Hm Hsend.
  destruct (strftime_HM_valid now Hh Hm) as (Hcur & Hminute).
  unfold digest_due. cbn [dict_get]. rewrite String.eqb_refl.
  destruct fajr_time as [|c fajr]; [discriminate Hf|].
  run.
  rewrite (minutes_valid _ Hf), (minutes_valid _ Hcur), Hminute.
  cbv beta iota.
  destruct (_ && _); [|reflexivity].
  rewrite Hsend. cbn. rewrite Z.eqb_refl. reflexivity.
Qed.

(** ** Running the prayer check twice in one minute *)

(** C1 (fails on the code).  Two runs of [check_prayer_times] within the
    minute 04:37 in which the subscriber's Fajr notification is due deliver
    the notification twice: the second run first prunes the key the first
    run marked and so finds the event unsent. *)
Theorem check_twice_same_minute_sends_twice :
  sent_to 42
    (snd (run_job check_prayer_times [sample_world 4 37; sample_world 4 37]
            (initial_state sample_table)))
  = [prayer_text "Фаджр" "04:37"; prayer_text "Фаджр" "04:37"].
Proof. vm_compute. reflexivity. Qed.

(** C2 (fails on the code).  The pruning loop of [check_prayer_times] keeps
    no key at all, whatever the ledger and the reference instant: every key
    is reported as malformed and dropped.  In particular the key marked at
    04:37 is gone after the run of 04:38 on the same day. *)
Theorem check_prune_keeps_nothing :
  (forall (w : world) (s : state),
     clean_notifications (sub_days (utcnow w) 1) (sent_notifications s) [] s
     = (Ok [], s,
        map (fun kv => Log WARNING (BadNotificationKey (fst kv)))
            (sent_notifications s)))
  /\ sent_notifications
       (final (check_prayer_times (sample_world 4 38)
                 (mkstate (TTLCache.empty pydict)
                          [("2024-01-15-Фаджр-42", true)] [] sample_table)))
     = [].
Proof.
  split.
  - intros w s. apply clean_notifications_drops_all.
  - vm_compute. reflexivity.
Qed.

(** C4 (fails on the code).  The digest job marks its key at 04:27; at the
    next run the rebuilding of [sent_daily_schedules] passes the first
    segment of that key to [strptime], and the ValueError leaves the job. *)
Theorem digest_job_raises_after_first_digest :
  let s1 := final (send_daily_prayer_schedule (sample_world 4 27)
                     (initial_state sample_table)) in
  sent_daily_schedules s1 = [("2024-01-15-42", true)]
  /\ send_daily_prayer_schedule (sample_world 4 28) s1
     = (Raise ValueError, s1,
        [Log INFO DailyScheduleCheck; Log INFO (FoundSubscribers 1)]).
Proof. vm_compute. split; reflexivity. Qed.

(** * Further properties of the program *)

(** ** The subscriber table *)

Lemma strictly_increasing_step (k k' : Z) (ks : list Z) :
  strictly_increasing (k :: k' :: ks)
  = (k <? k') && strictly_increasing (k' :: ks).
Proof. reflexivity. Qed.

Lemma strictly_increasing_tail (k : Z) (ks : list Z) :
  strictly_increasing (k :: ks) = true -> strictly_increasing ks = true.
Proof.
  destruct ks as [|k' ks]; [reflexivity|].
  rewrite strictly_increasing_step. intros H. apply andb_prop in H. tauto.
Qed.

Lemma strictly_increasing_lt (k : Z) (ks : list Z) :
  strictly_increasing (k :: ks) = true -> forall k', In k' ks -> k < k'.
Proof.
  revert k. induction ks as [|k1 ks IH]; intros k H k' Hin; [destruct Hin|].
  rewrite strictly_increasing_step in H.
  apply andb_prop in H. destruct H as (Hlt & Hrest).
  apply Z.ltb_lt in Hlt. destruct Hin as [<-|Hin]; [exact Hlt|].
  specialize (IH k1 Hrest k' Hin). lia.
Qed.

Lemma strictly_increasing_cons (k : Z) (ks : list Z) :
  (forall k', In k' ks -> k < k') -> strictly_increasing ks = true ->
  strictly_increasing (k :: ks) = true.
Proof.
  intros Hlt Hks. destruct ks as [|k' ks]; [reflexivity|].
  rewrite strictly_increasing_step, Hks, andb_true_r.
  apply Z.ltb_lt. apply Hlt. left. reflexivity.
Qed.

Lemma strictly_increasing_NoDup (ks : list Z) :
  strictly_increasing ks = true -> NoDup ks.
Proof.
  induction ks as [|k ks IH]; intros H; constructor.
  - intros Hin. pose proof (strictly_increasing_lt k ks H k Hin). lia.
  - apply IH. exact (strictly_increasing_tail k ks H).
Qed.

Lemma insert_or_replace_keys (r : subscriber) (tbl : list subscriber) (k : Z) :
  In k (map chat_id (insert_or_replace r tbl)) ->
  k = chat_id r \/ In k (map chat_id tbl).
Proof.
  induction tbl as [|r' tbl IH]; cbn.
  - intros [H|[]]; auto.
  - destruct (chat_id r <? chat_id r'); cbn.
    + intros [H|[H|H]]; auto.
    + destruct (chat_id r =? chat_id r'); cbn.
      * intros [H|H]; auto.
      * intros [H|H]; [auto|]. destruct (IH H); auto.
Qed.

Lemma insert_or_replace_keyed (r : subscriber) (tbl : list subscriber) :
  keyed tbl = true -> keyed (insert_or_replace r tbl) = true.
Proof.
  unfold keyed. induction tbl as [|r' tbl IH]; intros H; [reflexivity|].
  cbn [insert_or_replace].
  destruct (Z.ltb_spec (chat_id r) (chat_id r')) as [Hlt|Hge].
  - cbn [map]. apply strictly_increasing_cons; [|exact H].
    intros k' [<-|Hin]; [exact Hlt|].
    pose proof (strictly_increasing_lt _ _ H k' Hin). lia.
  - destruct (Z.eqb_spec (chat_id r) (chat_id r')) as [Heq|Hne].
    + cbn [map] in *. rewrite Heq. apply strictly_increasing_cons.
      * apply strictly_increasing_lt. exact H.
      * exact (strictly_increasing_tail _ _ H).
    + cbn [map] in *. apply strictly_increasing_cons.
      * intros k' Hin. apply insert_or_replace_keys in Hin.
        destruct Hin as [->|Hin]; [lia|].
        exact (strictly_increasing_lt _ _ H k' Hin).
      * apply IH. exact (strictly_increasing_tail _ _ H).
Qed.

Lemma set_subscribed_keys (chat v : Z) (tbl : list subscriber) :
  map chat_id (set_subscribed chat v tbl) = map chat_id tbl.
Proof.
  unfold set_subscribed. rewrite map_map. apply map_ext.
  intros r. destruct (chat_id r =? chat); reflexivity.
Qed.

Lemma select_insert_other (r : subscriber) (tbl : list subscriber) (c : Z) :
  c <> chat_id r ->
  select_by_chat_id c (insert_or_replace r tbl) = select_by_chat_id c tbl.
Proof.
  intros Hne. induction tbl as [|r' tbl IH]; cbn.
  - destruct (Z.eqb_spec (chat_id r) c); [congruence | reflexivity].
  - destruct (chat_id r <? chat_id r'); cbn.
    + destruct (Z.eqb_spec (chat_id r) c); [congruence | reflexivity].
    + destruct (Z.eqb_spec (chat_id r) (chat_id r')) as [Heq|Hne']; cbn.
      * destruct (Z.eqb_spec (chat_id r) c); [congruence|].
        destruct (Z.eqb_spec (chat_id r') c); [congruence | reflexivity].
      * destruct (chat_id r' =? c); [reflexivity | exact IH].
Qed.

Lemma select_set_subscribed (chat v c : Z) (tbl : list subscriber) :
  select_by_chat_id c (set_subscribed chat v tbl)
  = if c =? chat
    then option_map (fun r => mksubscriber (chat_id r) (city r) (timezone r) v)
           (select_by_chat_id c tbl)
    else select_by_chat_id c tbl.
Proof.
  induction tbl as [|r tbl IH]; cbn.
  - destruct (c =? chat); reflexivity.
  - destruct (Z.eqb_spec (chat_id r) chat) as [Hr|Hr]; cbn.
    + destruct (Z.eqb_spec (chat_id r) c) as [Hc|Hc].
      * replace (c =? chat) with true by (symmetry; apply Z.eqb_eq; congruence).
        reflexivity.
      * exact IH.
    + destruct (Z.eqb_spec (chat_id r) c) as [Hc|Hc]; [|exact IH].
      replace (c =? chat) with false by (symmetry; apply Z.eqb_neq; congruence).
      reflexivity.
Qed.

(** X1.  Every operation on the subscriber table keeps the chat ids
    strictly increasing, hence unique: [update_user], [unsubscribe_user],
    [set_city] (whether or not it finds the city) and the [subscribe] and
    [unsubscribe] handlers. *)
Theorem table_stays_keyed (w : world) (s : state) (chat : Z) (code tz data : string) :
  keyed (subscribers s) = true ->
  keyed (subscribers (final (update_user w chat code tz s))) = true
  /\ keyed (subscribers (final (unsubscribe_user w chat s))) = true
  /\ keyed (subscribers (final (set_city w data chat s))) = true
  /\ keyed (subscribers (final (subscribe w chat s))) = true
  /\ keyed (subscribers (final (unsubscribe w chat s))) = true
  /\ NoDup (map chat_id (subscribers s)).
Proof.
  intros H.
  assert (Hupd : forall c t,
            keyed (subscribers (final (update_user w chat c t s))) = true).
  { intros c t. unfold update_user. destruct (sqlite_ok w); cbn; [|exact H].
    apply insert_or_replace_keyed. exact H. }
  assert (Hunsub : keyed (subscribers (final (unsubscribe_user w chat s))) = true).
  { unfold unsubscribe_user. destruct (sqlite_ok w); cbn; [|exact H].
    exact (eq_trans
             (f_equal strictly_increasing (set_subscribed_keys chat 0 (subscribers s)))
             H). }
  split; [apply Hupd|]. split; [exact Hunsub|]. split; [|split; [|split]].
  - unfold set_city. run.
    destruct (dict_get CITIES (last (split "_" data))) as [c|]; [|exact H].
    destruct (dict_get CITY_TIMEZONES c) as [t|]; [|exact H].
    specialize (Hupd c t).
    destruct (update_user w chat c t s) as [[[[]|e] s1] t1]; cbn in Hupd |- *;
      exact Hupd.
  - unfold subscribe. destruct (sqlite_ok w); [|exact H]. run.
    destruct (select_by_chat_id chat (subscribers s)); cbn; [|exact H].
    exact (eq_trans
             (f_equal strictly_increasing (set_subscribed_keys chat 1 (subscribers s)))
             H).
  - unfold unsubscribe. run.
    destruct (unsubscribe_user w chat s) as [[[[]|e] s1] t1]; cbn in Hunsub |- *;
      exact Hunsub.
  - apply strictly_increasing_NoDup. exact H.
Qed.

Lemma table_stays_keyed_witness :
  keyed three_rows = true
  /\ keyed (subscribers (final (set_city (sample_world 9 0) "set_city_Уфа" 50
                                  (initial_state three_rows)))) = true.
Proof.
  assert (H : keyed (subscribers (initial_state three_rows)) = true) by reflexivity.
  split; [exact H|].
  apply (table_stays_keyed (sample_world 9 0) (initial_state three_rows) 50
           "" "" "set_city_Уфа" H).
Defined.

Lemma select_chat_id (c : Z) (tbl : list subscriber) (r : subscriber) :
  select_by_chat_id c tbl = Some r -> In r tbl /\ chat_id r = c.
Proof.
  induction tbl as [|r' tbl IH]; cbn; [discriminate|].
  destruct (Z.eqb_spec (chat_id r') c) as [Hc|_].
  - intros [= <-]. auto.
  - intros H. destruct (IH H). auto.
Qed.

(** X2.  For a chat id that SQLite can store (as every Telegram id is),
    [update_user] returns and writes one row: the chat's row becomes
    (chat, city, timezone, 1) and every other chat's row is what it was; if
    sqlite fails the error is swallowed and the table is unchanged. *)
Theorem update_user_writes_one_row (w : world) (s : state) (chat c : Z)
    (code tz : string) :
  sqlite_integer chat ->
  c <> chat ->
  outcome (update_user w chat code tz s) = Ok tt
  /\ select_by_chat_id c (subscribers (final (update_user w chat code tz s)))
     = select_by_chat_id c (subscribers s)
  /\ (if sqlite_ok w
      then select_by_chat_id chat (subscribers (final (update_user w chat code tz s)))
           = Some (mksubscriber chat code tz 1)
      else subscribers (final (update_user w chat code tz s)) = subscribers s).
Proof.
  intros _ Hne. unfold update_user. destruct (sqlite_ok w); cbn.
  - split; [reflexivity|]. split.
    + apply select_insert_other. exact Hne.
    + apply (select_insert_or_replace (mksubscriber chat code tz 1)).
  - auto.
Qed.

Lemma update_user_writes_one_row_witness :
  sqlite_integer 50
  /\ 77 <> 50
  /\ select_by_chat_id 77
       (subscribers (final (update_user (sample_world 9 0) 50 "ufa"
                              "Asia/Yekaterinburg" (initial_state three_rows))))
     = Some (mksubscriber 77 "ufa" "Asia/Yekaterinburg" 0).
Proof.
  assert (Hchat : sqlite_integer 50) by (unfold sqlite_integer; lia).
  assert (H : 77 <> 50) by discriminate.
  split; [exact Hchat|]. split; [exact H|].
  destruct (update_user_writes_one_row (sample_world 9 0) (initial_state three_rows)
              50 77 "ufa" "Asia/Yekaterinburg" Hchat H) as (_ & Hother & _).
  etransitivity; [exact Hother | reflexivity].
Defined.

Lemma unsubscribe_select (w : world) (s : state) (chat c : Z) :
  sqlite_ok w = true ->
  select_by_chat_id c (subscribers (final (unsubscribe w chat s)))
  = (if c =? chat
     then option_map (fun r => mksubscriber (chat_id r) (city r) (timezone r) 0)
            (select_by_chat_id c (subscribers s))
     else select_by_chat_id c (subscribers s)).
Proof.
  intros Hok. unfold unsubscribe, unsubscribe_user. rewrite Hok. run.
  apply (select_set_subscribed chat 0).
Qed.

Lemma subscribe_select (w : world) (s : state) (chat c : Z) :
  sqlite_ok w = true ->
  select_by_chat_id c (subscribers (final (subscribe w chat s)))
  = (if c =? chat
     then option_map (fun r => mksubscriber (chat_id r) (city r) (timezone r) 1)
            (select_by_chat_id c (subscribers s))
     else select_by_chat_id c (subscribers s)).
Proof.
  intros Hok. unfold subscribe. rewrite Hok. run.
  destruct (select_by_chat_id chat (subscribers s)) as [row|] eqn:E; cbn.
  - apply (select_set_subscribed chat 1).
  - destruct (Z.eqb_spec c chat) as [->|_]; [|reflexivity].
    rewrite E. reflexivity.
Qed.

(** X3.  Unsubscribing and subscribing change nothing but the flag of the
    chat's own row: city and time zone stay, other rows stay, and a chat
    without a row gets none.  [subscribe] then answers that a city must be
    chosen first; [unsubscribe] confirms in every case. *)
Theorem subscription_changes_flag_only (w : world) (s : state) (chat c : Z) :
  sqlite_ok w = true ->
  select_by_chat_id c (subscribers (final (unsubscribe w chat s)))
  = (if c =? chat
     then option_map (fun r => mksubscriber (chat_id r) (city r) (timezone r) 0)
            (select_by_chat_id c (subscribers s))
     else select_by_chat_id c (subscribers s))
  /\ select_by_chat_id c (subscribers (final (subscribe w chat s)))
     = (if c =? chat
        then option_map (fun r => mksubscriber (chat_id r) (city r) (timezone r) 1)
               (select_by_chat_id c (subscribers s))
        else select_by_chat_id c (subscribers s))
  /\ outcome (unsubscribe w chat s)
     = Ok [simple_reply chat "❌ Вы отписались от уведомлений!"]
  /\ (select_by_chat_id chat (subscribers s) = None ->
      final (subscribe w chat s) = s
      /\ outcome (subscribe w chat s) = Ok [set_city_first chat]).
Proof.
  intros Hok.
  split; [apply unsubscribe_select; exact Hok|].
  split; [apply subscribe_select; exact Hok|].
  unfold unsubscribe, unsubscribe_user, subscribe. rewrite Hok. run.
  split; [reflexivity|].
  intros ->. split; reflexivity.
Qed.

Lemma subscription_changes_flag_only_witness :
  sqlite_ok (sample_world 9 0) = true
  /\ select_by_chat_id 42
       (subscribers (final (unsubscribe (sample_world 9 0) 42 (initial_state three_rows))))
     = Some (mksubscriber 42 "moscow" "Europe/Moscow" 0).
Proof.
  assert (H : sqlite_ok (sample_world 9 0) = true) by reflexivity.
  split; [exact H|].
  destruct (subscription_changes_flag_only (sample_world 9 0)
              (initial_state three_rows) 42 42 H) as (Hunsub & _).
  etransitivity; [exact Hunsub | reflexivity].
Defined.

(** X4.  Unsubscribing and then subscribing again gives a subscribed chat
    its row back exactly as it was. *)
Theorem unsubscribe_subscribe_round_trip (w1 w2 : world) (s : state) (chat : Z)
    (row : subscriber) :
  sqlite_ok w1 = true ->
  sqlite_ok w2 = true ->
  select_by_chat_id chat (subscribers s) = Some row ->
  subscribed row = 1 ->
  select_by_chat_id chat (subscribers (final (unsubscribe w1 chat s)))
  = Some (mksubscriber chat (city row) (timezone row) 0)
  /\ select_by_chat_id chat
       (subscribers (final (subscribe w2 chat (final (unsubscribe w1 chat s)))))
     = Some row
  /\ outcome (subscribe w2 chat (final (unsubscribe w1 chat s)))
     = Ok [simple_reply chat "✅ Вы подписаны на уведомления!";
           LogLine INFO (UserSubscribed chat)].
Proof.
  intros Hok1 Hok2 Hrow Hsub.
  destruct (select_chat_id _ _ _ Hrow) as (_ & Hid).
  pose proof (unsubscribe_select w1 s chat chat Hok1) as Hun.
  rewrite Z.eqb_refl, Hrow in Hun. cbn [option_map] in Hun. rewrite Hid in Hun.
  split; [exact Hun|].
  remember (final (unsubscribe w1 chat s)) as s1 eqn:Es1.
  pose proof (subscribe_select w2 s1 chat chat Hok2) as Hre.
  rewrite Z.eqb_refl, Hun in Hre. cbn in Hre.
  split.
  - rewrite Hre. destruct row as [id c t f]. cbn in *. subst. reflexivity.
  - unfold subscribe. rewrite Hok2. run. rewrite Hun. reflexivity.
Qed.

Lemma unsubscribe_subscribe_round_trip_witness :
  sqlite_ok (sample_world 9 0) = true
  /\ select_by_chat_id 42 (subscribers (initial_state three_rows))
     = Some (mksubscriber 42 "moscow" "Europe/Moscow" 1)
  /\ select_by_chat_id 42
       (subscribers (final (subscribe (sample_world 9 1) 42
                              (final (unsubscribe (sample_world 9 0) 42
                                        (initial_state three_rows))))))
     = Some (mksubscriber 42 "moscow" "Europe/Moscow" 1).
Proof.
  assert (H : sqlite_ok (sample_world 9 0) = true) by reflexivity.
  split; [exact H|]. split; [reflexivity|].
  apply (unsubscribe_subscribe_round_trip (sample_world 9 0) (sample_world 9 1)
           (initial_state three_rows) 42 (mksubscriber 42 "moscow" "Europe/Moscow" 1));
    reflexivity.
Defined.

(** ** Who receives notifications *)

Lemma for_each_deliveries {X : Type} (P : X -> Z -> Prop) (body : X -> M unit) :
  (forall x s c text, In (c, text) (deliveries (trace (body x s))) -> P x c) ->
  forall xs s c text,
    In (c, text) (deliveries (trace (for_each xs body s))) ->
    exists x, In x xs /\ P x c.
Proof.
  intros Hbody. induction xs as [|x xs IH]; intros s c text Hin; [destruct Hin|].
  cbn [for_each] in Hin. unfold bind in Hin.
  specialize (Hbody x s c text).
  destruct (body x s) as [[[[]|e] s1] t1]; cbn [trace snd] in Hbody.
  - specialize (IH s1 c text).
    destruct (for_each xs body s1) as [[r s2] t2]. cbn [trace snd] in Hin, IH.
    rewrite deliveries_app in Hin. apply in_app_or in Hin. destruct Hin as [Hin|Hin].
    + exists x. split; [left; reflexivity | auto].
    + destruct (IH Hin) as (y & Hy & HP). exists y. split; [right; exact Hy | exact HP].
  - cbn [trace snd] in Hin. exists x. split; [left; reflexivity | auto].
Qed.

Lemma notify_prayer_recipient (w : world) (usr : user) (today : date)
    (current_time : string) (item : string * string) (s : state) (c : Z) (text : string) :
  In (c, text) (deliveries (trace (notify_prayer w usr today current_time item s))) ->
  c = u_chat_id usr.
Proof.
  destruct item as [prayer time]. unfold notify_prayer. run.
  destruct (minutes time) as [pm|e]; [|intros []].
  destruct (minutes current_time) as [cm|e]; [|intros []].
  cbv beta iota.
  destruct (_ && _); [|intros []].
  destruct (send_ok w (u_chat_id usr) (prayer_text prayer time)); cbn.
  - intros [[= <- _]|[]]. reflexivity.
  - intros [].
Qed.

Lemma check_turn_recipient (w : world) (usr : user) (s : state) (c : Z) (text : string) :
  In (c, text) (deliveries (trace (check_turn w usr s))) -> c = u_chat_id usr.
Proof.
  unfold check_turn, check_user. run.
  destruct (localnow w (u_tz usr)) as [now|]; [|intros []].
  destruct (quiet_parse_prayer_times w (u_city usr) (dt_date now) s)
    as (_ & _ & _ & Q4).
  apply deliveries_nil in Q4.
  destruct (parse_prayer_times w (u_city usr) (dt_date now) s) as [[[sched|e] s1] t1];
    cbn [outcome final trace fst snd] in Q4.
  2:{ cbv beta iota. rewrite !deliveries_app, Q4. cbn. intros []. }
  destruct (is_empty sched).
  { cbv beta iota. rewrite !deliveries_app, Q4. cbn. intros []. }
  pose proof (for_each_deliveries (fun _ c => c = u_chat_id usr)
                (notify_prayer w usr (dt_date now) (strftime_HM now))
                (fun item s0 c0 text0 =>
                   notify_prayer_recipient w usr (dt_date now) (strftime_HM now)
                     item s0 c0 text0) sched s1 c text) as Hloop.
  destruct (for_each sched (notify_prayer w usr (dt_date now) (strftime_HM now)) s1)
    as [[[[]|e] s2] t2]; cbn [trace snd] in Hloop; cbv beta iota;
    rewrite !deliveries_app, Q4; cbn; rewrite ?app_nil_r;
    intros Hin; destruct (Hloop Hin) as (_ & _ & ->); reflexivity.
Qed.

Lemma digest_turn_recipient (w : world) (today : date) (usr : user) (s : state)
    (c : Z) (text : string) :
  In (c, text) (deliveries (trace (digest_turn w today usr s))) -> c = u_chat_id usr.
Proof.
  destruct (digest_turn_run w today usr s)
    as (_ & [(_ & ->) | (_ & _ & t & ->)]); [intros []|].
  intros [[= <- _]|[]]. reflexivity.
Qed.

Lemma in_deliveries_sent_to (c : Z) (text : string) (tr : list event) :
  In (c, text) (deliveries tr) -> sent_to c tr <> [].
Proof.
  intros Hin. rewrite sent_to_deliveries.
  assert (H : In text (map snd (filter (fun p => fst p =? c) (deliveries tr)))).
  { apply in_map_iff. exists (c, text). split; [reflexivity|].
    apply filter_In. split; [exact Hin | apply Z.eqb_refl]. }
  intros E. rewrite E in H. destruct H.
Qed.

Lemma sent_to_in_deliveries (c : Z) (tr : list event) :
  sent_to c tr <> [] -> exists text, In (c, text) (deliveries tr).
Proof.
  rewrite sent_to_deliveries.
  destruct (filter (fun p => fst p =? c) (deliveries tr)) as [|[c' text] rest] eqn:E;
    [intros H; exfalso; apply H; reflexivity|].
  intros _. exists text.
  assert (H : In (c', text) (filter (fun p => fst p =? c) (deliveries tr)))
    by (rewrite E; left; reflexivity).
  apply filter_In in H. destruct H as (H & Hc). cbn in Hc.
  apply Z.eqb_eq in Hc. subst c'. exact H.
Qed.

Lemma quote_turn_recipient (w : world) (quote : pydict) (usr : user) (s : state)
    (c : Z) (text : string) :
  In (c, text) (deliveries (trace (quote_turn w quote usr s))) -> c = u_chat_id usr.
Proof.
  intros Hin. apply in_deliveries_sent_to in Hin.
  destruct (quote_turn_run w quote usr c s) as (_ & _ & [Hnil | (Hc & _)]).
  - contradiction.
  - symmetry. exact Hc.
Qed.

Lemma users_rows (tbl : list subscriber) (usr : user) :
  In usr (map (fun r => mkuser (chat_id r) (city r) (timezone r))
            (filter (fun r => subscribed r =? 1) tbl)) ->
  exists row, In row tbl /\ chat_id row = u_chat_id usr /\ subscribed row = 1.
Proof.
  intros Hin. apply in_map_iff in Hin. destruct Hin as (row & <- & Hin).
  apply filter_In in Hin. destruct Hin as (Hin & Hsub).
  exists row. cbn. repeat split; auto. apply Z.eqb_eq; exact Hsub.
Qed.

Lemma deliveries_logs {A : Type} (f : A -> log_msg) (lvl : level) (l : list A) :
  deliveries (map (fun a => Log lvl (f a)) l) = [].
Proof. induction l as [|a l IH]; [reflexivity | exact IH]. Qed.

Lemma job_recipients (job : world -> M unit) (w : world) (s : state) (c : Z)
    (text : string) :
  In job jobs ->
  In (c, text) (deliveries (trace (job w s))) ->
  exists row, In row (subscribers s) /\ chat_id row = c /\ subscribed row = 1.
Proof.
  intros Hjob Hin.
  assert (Hloop : forall (turn : user -> M unit) s0,
            (forall u s1 c1 t1,
               In (c1, t1) (deliveries (trace (turn u s1))) -> c1 = u_chat_id u) ->
            In (c, text)
              (deliveries
                 (trace (for_each
                           (map (fun r => mkuser (chat_id r) (city r) (timezone r))
                              (filter (fun r => subscribed r =? 1) (subscribers s)))
                           turn s0))) ->
            exists row, In row (subscribers s) /\ chat_id row = c /\ subscribed row = 1).
  { intros turn s0 Hturn Hd.
    destruct (for_each_deliveries (fun u c1 => c1 = u_chat_id u) turn Hturn _ _ _ _ Hd)
      as (usr & Husr & ->).
    apply users_rows. exact Husr. }
  destruct Hjob as [<-|[<-|[<-|[]]]]; revert Hin.
  - unfold check_prayer_times, get_subscribed_users. run.
    destruct (sqlite_ok w); [|intros []].
    destruct (is_empty _); [intros []|].
    rewrite clean_notifications_drops_all. cbv beta iota.
    destruct (for_each _ (check_turn w) _) as [[o s2] t2] eqn:E.
    cbn [app]. rewrite !deliveries_app, deliveries_logs. cbn.
    intros Hin. apply (Hloop (check_turn w) (set_sent_notifications [] s)).
    + apply check_turn_recipient.
    + rewrite E. exact Hin.
  - unfold send_daily_prayer_schedule, get_subscribed_users. run.
    destruct (sqlite_ok w); [|intros []].
    destruct (is_empty _); [intros []|].
    destruct (sent_daily_schedules s) as [|[k v] rest] eqn:El.
    + cbn [recent_schedules]. run.
      destruct (for_each _ (digest_turn w (dt_date (utcnow w))) _) as [[o s2] t2] eqn:E.
      cbn. intros Hin.
      apply (Hloop (digest_turn w (dt_date (utcnow w))) (set_sent_daily_schedules [] s)).
      * apply digest_turn_recipient.
      * rewrite E. exact Hin.
    + rewrite recent_schedules_raises. cbn. intros [].
  - unfold send_daily_quote, get_subscribed_users. run.
    destruct (sqlite_ok w); [|intros []].
    destruct (is_empty _); [intros []|].
    destruct (quiet_get_daily_quote w "ayat" s) as (_ & _ & _ & Q4).
    apply deliveries_nil in Q4.
    destruct (get_daily_quote w "ayat" s) as [[[quote|e] s1] t1];
      cbn [trace snd] in Q4; cbv beta iota.
    2:{ rewrite ?deliveries_app, Q4. cbn. intros []. }
    destruct (is_empty quote).
    { rewrite ?deliveries_app, Q4. cbn. intros []. }
    destruct (for_each _ (quote_turn w quote) s1) as [[o s2] t2] eqn:E.
    rewrite ?deliveries_app, Q4. cbn. intros Hin.
    apply (Hloop (quote_turn w quote) s1).
    + apply quote_turn_recipient.
    + rewrite E. exact Hin.
Qed.

(** X5.  None of the three jobs ever delivers a message to a chat that has
    no row with [subscribed = 1] in the table. *)
Theorem jobs_deliver_to_subscribers_only (job : world -> M unit) (w : world)
    (s : state) (c : Z) (text : string) :
  In job jobs ->
  In (c, text) (deliveries (trace (job w s))) ->
  exists row, In row (subscribers s) /\ chat_id row = c /\ subscribed row = 1.
Proof. apply job_recipients. Qed.

Lemma jobs_deliver_to_subscribers_only_witness :
  In check_prayer_times jobs
  /\ In (42, prayer_text "Фаджр" "04:37")
       (deliveries (trace (check_prayer_times (sample_world 4 37)
                             (initial_state three_rows))))
  /\ exists row, In row three_rows /\ chat_id row = 42 /\ subscribed row = 1.
Proof.
  assert (H1 : In check_prayer_times jobs) by (left; reflexivity).
  assert (H2 : In (42, prayer_text "Фаджр" "04:37")
                 (deliveries (trace (check_prayer_times (sample_world 4 37)
                                       (initial_state three_rows)))))
    by (vm_compute; left; reflexivity).
  split; [exact H1|]. split; [exact H2|].
  exact (jobs_deliver_to_subscribers_only check_prayer_times (sample_world 4 37)
           (initial_state three_rows) 42 _ H1 H2).
Defined.

(** X6.  After a successful [unsubscribe], no run of any of the three jobs
    delivers anything to that chat. *)
Theorem unsubscribed_chat_gets_nothing (job : world -> M unit) (w0 w : world)
    (s : state) (chat : Z) :
  sqlite_ok w0 = true ->
  In job jobs ->
  sent_to chat (trace (job w (final (unsubscribe w0 chat s)))) = [].
Proof.
  intros Hok Hjob.
  destruct (sent_to chat (trace (job w (final (unsubscribe w0 chat s))))) eqn:E;
    [reflexivity|exfalso].
  assert (Hne : sent_to chat (trace (job w (final (unsubscribe w0 chat s)))) <> [])
    by (rewrite E; discriminate).
  destruct (sent_to_in_deliveries _ _ Hne) as (text & Hin).
  destruct (job_recipients job w _ chat text Hjob Hin) as (row & Hrow & Hid & Hsub).
  revert Hrow. unfold unsubscribe, unsubscribe_user. rewrite Hok. run. cbn.
  intros Hrow. apply in_map_iff in Hrow. destruct Hrow as (r & <- & _).
  destruct (Z.eqb_spec (chat_id r) chat) as [Hr|Hr]; cbn in Hid, Hsub.
  - discriminate Hsub.
  - contradiction.
Qed.

Lemma unsubscribed_chat_gets_nothing_witness :
  sqlite_ok (sample_world 4 36) = true
  /\ In check_prayer_times jobs
  /\ sent_to 42
       (trace (check_prayer_times (sample_world 4 37)
                 (final (unsubscribe (sample_world 4 36) 42 (initial_state three_rows)))))
     = [].
Proof.
  assert (H1 : sqlite_ok (sample_world 4 36) = true) by reflexivity.
  assert (H2 : In check_prayer_times jobs) by (left; reflexivity).
  split; [exact H1|]. split; [exact H2|].
  exact (unsubscribed_chat_gets_nothing check_prayer_times (sample_world 4 36)
           (sample_world 4 37) (initial_state three_rows) 42 H1 H2).
Defined.

Lemma no_users (tbl : list subscriber) :
  (forall row, In row tbl -> subscribed row <> 1) ->
  map (fun r => mkuser (chat_id r) (city r) (timezone r))
    (filter (fun r => subscribed r =? 1) tbl) = [].
Proof.
  intros H. rewrite filter_none; [reflexivity|].
  intros row Hin. apply Z.eqb_neq. apply H. exact Hin.
Qed.

(** X7.  When the subscriber query fails or finds no subscribed row, each
    of the three jobs returns at once: nothing is fetched or delivered and
    the state, ledgers included, is left as it was. *)
Theorem jobs_idle_without_subscribers (job : world -> M unit) (w : world) (s : state) :
  In job jobs ->
  sqlite_ok w = false \/ (forall row, In row (subscribers s) -> subscribed row <> 1) ->
  outcome (job w s) = Ok tt
  /\ final (job w s) = s
  /\ fetches (trace (job w s)) = []
  /\ deliveries (trace (job w s)) = [].
Proof.
  intros Hjob Hnone.
  destruct Hjob as [<-|[<-|[<-|[]]]];
    unfold check_prayer_times, send_daily_prayer_schedule, send_daily_quote,
      get_subscribed_users; run;
    (destruct (sqlite_ok w) eqn:Hok;
       [destruct Hnone as [Hnone | Hnone];
          [discriminate Hnone | run; rewrite (no_users _ Hnone)]|]);
    repeat split.
Qed.

Lemma jobs_idle_without_subscribers_witness :
  In send_daily_quote jobs
  /\ final (send_daily_quote (sample_world 8 0)
             (initial_state [mksubscriber 77 "ufa" "Asia/Yekaterinburg" 0]))
     = initial_state [mksubscriber 77 "ufa" "Asia/Yekaterinburg" 0].
Proof.
  assert (H : In send_daily_quote jobs) by (right; right; left; reflexivity).
  split; [exact H|].
  apply (jobs_idle_without_subscribers send_daily_quote (sample_world 8 0) _ H).
  right. intros row [<-|[]]. discriminate.
Defined.

(** ** The scrapers and the cache *)

Lemma get_daily_quote_unknown_type (w : world) (quote_type : string) (s : state) :
  dict_get quote_urls quote_type = None ->
  TTLCache.contains (cache s) (quote_key quote_type (today_local w)) (monotonic w) = false ->
  get_daily_quote w quote_type s
  = (Ok [], s, [Log ERROR (QuoteError quote_type KeyError)]).
Proof.
  intros Hurl Hmiss.
  unfold get_daily_quote, cache_contains. run. rewrite Hmiss, Hurl. reflexivity.
Qed.

Lemma parse_prayer_times_returns (w : world) (city : string) (d : date) (s : state) :
  exists sched, outcome (parse_prayer_times w city d s) = Ok sched.
Proof.
  destruct (TTLCache.contains (cache s) (schedule_key city d) (monotonic w)) eqn:Hc.
  - destruct (contains_true _ _ _ _ Hc) as (l & Hfind & Hlt).
    rewrite (parse_prayer_times_hit w city d s l Hfind Hlt). eexists. reflexivity.
  - destruct (parse_prayer_times_miss w city d s Hc)
      as (_ & [(Ho & _) | (sched & _ & Ho & _)]); eauto.
Qed.

Lemma get_daily_quote_returns (w : world) (quote_type : string) (s : state) :
  exists quote, outcome (get_daily_quote w quote_type s) = Ok quote.
Proof.
  destruct (TTLCache.contains (cache s) (quote_key quote_type (today_local w))
              (monotonic w)) eqn:Hc.
  - destruct (contains_true _ _ _ _ Hc) as (l & Hfind & Hlt).
    rewrite (get_daily_quote_hit w quote_type s l Hfind Hlt). eexists. reflexivity.
  - destruct (dict_get quote_urls quote_type) as [url|] eqn:Hurl.
    + destruct (get_daily_quote_miss w quote_type url s Hurl Hc)
        as (_ & [(Ho & _) | (text & Ho & _)]); eauto.
    + rewrite (get_daily_quote_unknown_type w quote_type s Hurl Hc). eexists. reflexivity.
Qed.

(** X8.  Neither scraper ever raises, whatever the page, the network, the
    cache or the quote type: every failure comes back as the empty
    dictionary, and an unknown quote type is such a failure without any
    request being made.  The same holds for [send_daily_quote], which has no
    ledger to rebuild. *)
Theorem scrapers_never_raise (w : world) (city quote_type : string) (d : date)
    (s : state) :
  (exists sched, outcome (parse_prayer_times w city d s) = Ok sched)
  /\ (exists quote, outcome (get_daily_quote w quote_type s) = Ok quote)
  /\ (dict_get quote_urls quote_type = None ->
      TTLCache.contains (cache s) (quote_key quote_type (today_local w)) (monotonic w)
      = false ->
      outcome (get_daily_quote w quote_type s) = Ok []
      /\ fetches (trace (get_daily_quote w quote_type s)) = [])
  /\ outcome (send_daily_quote w s) = Ok tt.
Proof.
  split; [apply parse_prayer_times_returns|].
  split; [apply get_daily_quote_returns|]. split.
  - intros Hurl Hmiss.
    rewrite (get_daily_quote_unknown_type w quote_type s Hurl Hmiss).
    split; reflexivity.
  - unfold send_daily_quote, get_subscribed_users. run.
    destruct (sqlite_ok w); [|reflexivity].
    destruct (is_empty _); [reflexivity|].
    destruct (get_daily_quote_returns w "ayat" s) as (quote & Ho).
    destruct (get_daily_quote w "ayat" s) as [[r s1] t1]. cbn in Ho. subst r.
    cbv beta iota.
    destruct (is_empty quote); [reflexivity|].
    match goal with
    | |- context [for_each ?users (quote_turn w quote) s1] =>
        destruct (quote_loop w quote 0 users s1) as (Hloop & _);
        destruct (for_each users (quote_turn w quote) s1) as [[o s2] t2]
    end.
    exact Hloop.
Qed.

Lemma scrapers_never_raise_witness :
  dict_get quote_urls "hadith" = None
  /\ outcome (get_daily_quote (sample_world 8 0) "hadith" (initial_state sample_table))
     = Ok [].
Proof.
  assert (H : dict_get quote_urls "hadith" = None) by reflexivity.
  split; [exact H|].
  destruct (scrapers_never_raise (sample_world 8 0) "moscow" "hadith" sample_day
              (initial_state sample_table)) as (_ & _ & Hunknown & _).
  apply Hunknown; [exact H | reflexivity].
Defined.

(** X9.  A stored value is not served once the timer has reached the store
    time plus [CACHE_TIMEOUT]: the next call for the key fetches the page
    again, for schedules and for quotes. *)
Theorem refetch_after_expiry (w1 w2 : world) (city : string) (d : date)
    (quote_type url : string) (s : state) :
  monotonic w1 + CACHE_TIMEOUT <= monotonic w2 ->
  today_local w2 = today_local w1 ->
  dict_get quote_urls quote_type = Some url ->
  (TTLCache.contains (cache s) (schedule_key city d) (monotonic w1) = false ->
   fetches (trace (parse_prayer_times w2 city d (final (parse_prayer_times w1 city d s))))
   = [schedule_url city])
  /\ (TTLCache.contains (cache s) (quote_key quote_type (today_local w1)) (monotonic w1)
      = false ->
      fetches (trace (get_daily_quote w2 quote_type
                        (final (get_daily_quote w1 quote_type s))))
      = [url]).
Proof.
  intros Hlate Htoday Hurl.
  assert (Hpos : monotonic w1 <= monotonic w2) by (unfold CACHE_TIMEOUT in Hlate; lia).
  split; intros Hmiss.
  - apply parse_prayer_times_miss.
    destruct (parse_prayer_times_miss w1 city d s Hmiss)
      as (_ & [(_ & ->) | (sched & _ & _ & ->)]).
    + eapply contains_false_later; eassumption.
    + cbn. unfold TTLCache.contains. rewrite find_setitem. cbn.
      apply Z.ltb_ge. exact Hlate.
  - apply get_daily_quote_miss; [exact Hurl|]. rewrite Htoday.
    destruct (get_daily_quote_miss w1 quote_type url s Hurl Hmiss)
      as (_ & [(_ & ->) | (text & _ & ->)]).
    + eapply contains_false_later; eassumption.
    + cbn. unfold TTLCache.contains. rewrite find_setitem. cbn.
      apply Z.ltb_ge. exact Hlate.
Qed.

Lemma refetch_after_expiry_witness :
  monotonic (sample_world 4 37) + CACHE_TIMEOUT <= monotonic (sample_world 5 37)
  /\ fetches
       (trace (parse_prayer_times (sample_world 5 37) "moscow" sample_day
                 (final (parse_prayer_times (sample_world 4 37) "moscow" sample_day
                           (initial_state sample_table)))))
     = [schedule_url "moscow"].
Proof.
  assert (H : monotonic (sample_world 4 37) + CACHE_TIMEOUT
              <= monotonic (sample_world 5 37)) by (vm_compute; discriminate).
  split; [exact H|].
  destruct (refetch_after_expiry (sample_world 4 37) (sample_world 5 37) "moscow"
              sample_day "ayat" "https://umma.ru/ayat-dnya"
              (initial_state sample_table) H eq_refl eq_refl) as (Hsched & _).
  apply Hsched. reflexivity.
Defined.

Lemma keys_filter_incl {V : Type} (f : TTLCache.link V -> bool) (c : TTLCache.t V) (k : string) :
  In k (keys (filter f c)) -> In k (keys c).
Proof.
  unfold keys. intros H. apply in_map_iff in H. destruct H as (l & <- & Hl).
  apply filter_In in Hl. apply in_map. tauto.
Qed.

Lemma NoDup_keys_filter {V : Type} (f : TTLCache.link V -> bool) (c : TTLCache.t V) :
  NoDup (keys c) -> NoDup (keys (filter f c)).
Proof.
  induction c as [|l c IH]; intros H; [constructor|].
  inversion H as [|? ? Hnotin Hnd]; subst. cbn [filter].
  destruct (f l); [|apply IH; exact Hnd].
  constructor; [|apply IH; exact Hnd].
  intros Hin. apply Hnotin. apply (keys_filter_incl f). exact Hin.
Qed.

Lemma NoDup_keys_skipn {V : Type} (n : nat) (c : TTLCache.t V) :
  NoDup (keys c) -> NoDup (keys (skipn n c)).
Proof.
  revert c. induction n as [|n IH]; intros c H; [exact H|].
  destruct c as [|l c]; [exact H|].
  inversion H; subst. cbn [skipn]. apply IH. assumption.
Qed.

Lemma delete_key_absent {V : Type} (k : string) (c : TTLCache.t V) :
  ~ In k (keys (TTLCache.delete k c)).
Proof.
  unfold keys, TTLCache.delete. intros H. apply in_map_iff in H.
  destruct H as (l & Hk & Hl). apply filter_In in Hl. destruct Hl as (_ & Hl).
  rewrite Hk, String.eqb_refl in Hl. discriminate.
Qed.

Lemma NoDup_keys_snoc {V : Type} (c : TTLCache.t V) (l : TTLCache.link V) :
  NoDup (keys c) -> ~ In (TTLCache.key l) (keys c) -> NoDup (keys (c ++ [l])).
Proof.
  intros Hnd Hnotin. unfold keys. rewrite map_app. cbn [map].
  apply NoDup_app; [exact Hnd | repeat constructor; intros [] |].
  intros k Hk [<-|[]]. exact (Hnotin Hk).
Qed.

Lemma filter_length_lt {A : Type} (f : A -> bool) (l : list A) (x : A) :
  In x l -> f x = false -> (length (filter f l) < length l)%nat.
Proof.
  induction l as [|a l IH]; intros Hin Hf; [destruct Hin|].
  cbn [filter]. pose proof (filter_length_le f l).
  destruct Hin as [->|Hin].
  - rewrite Hf. cbn. lia.
  - specialize (IH Hin Hf). destruct (f a); cbn; lia.
Qed.

Lemma delete_found_length {V : Type} (k : string) (c : TTLCache.t V) (l : TTLCache.link V) :
  TTLCache.find k c = Some l -> (length (TTLCache.delete k c) < length c)%nat.
Proof.
  intros Hfind. destruct (find_In _ _ _ _ Hfind) as (Hin & Hk).
  apply (filter_length_lt _ c l Hin). rewrite Hk, String.eqb_refl. reflexivity.
Qed.

(** Reading keeps the keys distinct and does not grow the cache. *)
Lemma getitem_shape {V : Type} (c : TTLCache.t V) (k : string) (now : Z) :
  NoDup (keys c) ->
  NoDup (keys (snd (TTLCache.getitem c k now)))
  /\ (length (snd (TTLCache.getitem c k now)) <= length c)%nat.
Proof.
  intros Hnd. unfold TTLCache.getitem.
  destruct (TTLCache.find k c) as [l|] eqn:Hfind; [|cbn; split; [exact Hnd | lia]].
  assert (Hshape : NoDup (keys (TTLCache.delete k c ++ [l]))
                   /\ (length (TTLCache.delete k c ++ [l]) <= length c)%nat).
  { destruct (find_In _ _ _ _ Hfind) as (_ & Hk). split.
    - apply NoDup_keys_snoc; [apply NoDup_keys_filter; exact Hnd|].
      rewrite Hk. apply delete_key_absent.
    - rewrite length_app. cbn. pose proof (delete_found_length k c l Hfind). lia. }
  destruct (now <? TTLCache.expires l); exact Hshape.
Qed.

(** Storing keeps the keys distinct and the cache within its capacity. *)
Lemma setitem_shape {V : Type} (maxsize : nat) (ttl : Z) (c : TTLCache.t V)
    (k : string) (v : V) (now : Z) :
  (1 <= maxsize)%nat ->
  NoDup (keys c) -> (length c <= maxsize)%nat ->
  NoDup (keys (TTLCache.setitem maxsize ttl c k v now))
  /\ (length (TTLCache.setitem maxsize ttl c k v now) <= maxsize)%nat.
Proof.
  intros Hpos Hnd Hlen. unfold TTLCache.setitem.
  assert (Hnd1 : NoDup (keys (TTLCache.expire c now)))
    by (apply NoDup_keys_filter; exact Hnd).
  assert (Hlen1 : (length (TTLCache.expire c now) <= length c)%nat)
    by apply filter_length_le.
  destruct (TTLCache.find k (TTLCache.expire c now)) as [l|] eqn:Hfind.
  - split.
    + apply NoDup_keys_snoc; [apply NoDup_keys_filter; exact Hnd1|].
      apply delete_key_absent.
    + rewrite length_app. cbn.
      pose proof (delete_found_length k _ l Hfind). lia.
  - split.
    + apply NoDup_keys_snoc; [|apply delete_key_absent].
      apply NoDup_keys_filter. apply NoDup_keys_skipn. exact Hnd1.
    + rewrite length_app. cbn.
      pose proof (length_delete V k
        (skipn (length (TTLCache.expire c now) + 1 - maxsize) (TTLCache.expire c now))).
      rewrite length_skipn in H. lia.
Qed.


Lemma run_call_shape (c : call) (s : state) :
  NoDup (keys (cache s)) -> (length (cache s) <= cache_maxsize)%nat ->
  NoDup (keys (cache (final (run_call c s))))
  /\ (length (cache (final (run_call c s))) <= cache_maxsize)%nat.
Proof.
  intros Hnd Hlen.
  destruct (run_call_cache c s) as (k & [(_ & ->) | (_ & [-> | (v & ->)])]).
  - destruct (getitem_shape (cache s) k (monotonic (call_world c)) Hnd).
    split; [assumption | lia].
  - auto.
  - apply setitem_shape; [unfold cache_maxsize; lia | assumption | assumption].
Qed.

(** X10.  However many cache-backed calls are made from the start of the
    process, for whatever cities, days and worlds, the cache holds at most
    100 entries and no key twice. *)
Theorem cache_stays_bounded (cs : list call) (tbl : list subscriber) :
  (length (cache (after_calls cs (initial_state tbl))) <= cache_maxsize)%nat
  /\ NoDup (keys (cache (after_calls cs (initial_state tbl)))).
Proof.
  assert (H : forall s,
            NoDup (keys (cache s)) -> (length (cache s) <= cache_maxsize)%nat ->
            (length (cache (after_calls cs s)) <= cache_maxsize)%nat
            /\ NoDup (keys (cache (after_calls cs s)))).
  { induction cs as [|c cs IH]; intros s Hnd Hlen; [split; assumption|].
    destruct (run_call_shape c s Hnd Hlen). cbn [after_calls]. apply IH; assumption. }
  apply H; cbn; [constructor | lia].
Qed.

(** ** The cache refresh *)

Lemma find_none_filter {V : Type} (f : TTLCache.link V -> bool) (k : string)
    (c : TTLCache.t V) :
  TTLCache.find k c = None -> TTLCache.find k (filter f c) = None.
Proof.
  induction c as [|l c IH]; cbn; [reflexivity|].
  destruct (String.eqb (TTLCache.key l) k) eqn:E; [discriminate|].
  intros H. destruct (f l); cbn; [rewrite E|]; apply IH; exact H.
Qed.

Lemma find_none_skipn {V : Type} (n : nat) (k : string) (c : TTLCache.t V) :
  TTLCache.find k c = None -> TTLCache.find k (skipn n c) = None.
Proof.
  revert c. induction n as [|n IH]; intros c H; [exact H|].
  destruct c as [|l c]; [reflexivity|]. cbn in H |- *.
  destruct (String.eqb (TTLCache.key l) k); [discriminate|]. apply IH. exact H.
Qed.

Lemma find_none_setitem_other {V : Type} (maxsize : nat) (ttl : Z) (c : TTLCache.t V)
    (k k' : string) (v : V) (now : Z) :
  TTLCache.find k c = None -> k' <> k ->
  TTLCache.find k (TTLCache.setitem maxsize ttl c k' v now) = None.
Proof.
  intros Hnone Hne. unfold TTLCache.setitem. rewrite find_app.
  assert (H1 : TTLCache.find k (TTLCache.expire c now) = None)
    by (apply find_none_filter; exact Hnone).
  assert (H2 : forall c2 : TTLCache.t V, TTLCache.find k c2 = None ->
                          TTLCache.find k (TTLCache.delete k' c2) = None)
    by (intros c2 Hc2; apply find_none_filter; exact Hc2).
  cbn. destruct (String.eqb_spec k' k); [contradiction|].
  destruct (TTLCache.find k' (TTLCache.expire c now)).
  - rewrite (H2 _ H1). reflexivity.
  - rewrite (H2 _ (find_none_skipn _ _ _ H1)). reflexivity.
Qed.

Lemma find_none_getitem {V : Type} (c : TTLCache.t V) (k k' : string) (now : Z) :
  TTLCache.find k c = None -> TTLCache.find k (snd (TTLCache.getitem c k' now)) = None.
Proof.
  intros Hnone. unfold TTLCache.getitem.
  destruct (TTLCache.find k' c) as [l|] eqn:Hfind; [|exact Hnone].
  assert (H : TTLCache.find k (TTLCache.delete k' c ++ [l]) = None).
  { assert (Hd : TTLCache.find k (TTLCache.delete k' c) = None)
      by (apply find_none_filter; exact Hnone).
    rewrite find_app, Hd. cbn.
    destruct (find_In _ _ _ _ Hfind) as (_ & Hk).
    destruct (String.eqb_spec (TTLCache.key l) k) as [E|_]; [|reflexivity].
    congruence. }
  destruct (now <? TTLCache.expires l); exact H.
Qed.

Lemma schedule_key_inj (city city' : string) (d : date) :
  schedule_key city d = schedule_key city' d -> city = city'.
Proof. unfold schedule_key. apply append_inj_r. Qed.

(** The cache after a call, with the call's key. *)
Lemma run_call_cache_key (c : call) (s : state) :
  (TTLCache.contains (cache s) (call_key c) (monotonic (call_world c)) = true
   /\ cache (final (run_call c s))
      = snd (TTLCache.getitem (cache s) (call_key c) (monotonic (call_world c))))
  \/ (TTLCache.contains (cache s) (call_key c) (monotonic (call_world c)) = false
      /\ (cache (final (run_call c s)) = cache s
          \/ exists v,
               cache (final (run_call c s))
               = TTLCache.setitem cache_maxsize CACHE_TIMEOUT (cache s) (call_key c) v
                   (monotonic (call_world c)))).
Proof.
  destruct c as [w city d | w]; cbn [run_call call_world call_key].
  - destruct (TTLCache.contains (cache s) (schedule_key city d) (monotonic w)) eqn:Hc.
    + left. split; [reflexivity|].
      destruct (contains_true _ _ _ _ Hc) as (l & Hfind & Hlt).
      rewrite (parse_prayer_times_hit w city d s l Hfind Hlt),
        (getitem_find _ _ _ _ _ Hfind Hlt). reflexivity.
    + right. split; [reflexivity|].
      destruct (parse_prayer_times_miss w city d s Hc)
        as (_ & [(_ & ->) | (sched & _ & _ & ->)]); [left | right; eexists];
        reflexivity.
  - destruct (TTLCache.contains (cache s) (quote_key "ayat" (today_local w)) (monotonic w))
      eqn:Hc.
    + left. split; [reflexivity|].
      destruct (contains_true _ _ _ _ Hc) as (l & Hfind & Hlt).
      rewrite (get_daily_quote_hit w "ayat" s l Hfind Hlt),
        (getitem_find _ _ _ _ _ Hfind Hlt). reflexivity.
    + right. split; [reflexivity|].
      destruct (get_daily_quote_miss w "ayat" _ s eq_refl Hc)
        as (_ & [(_ & ->) | (text & _ & ->)]); [left | right; eexists];
        reflexivity.
Qed.

(** A call leaves every other key that is absent absent. *)
Lemma run_call_fresh (c : call) (s : state) (k : string) :
  TTLCache.find k (cache s) = None -> call_key c <> k ->
  TTLCache.find k (cache (final (run_call c s))) = None.
Proof.
  intros Hnone Hne.
  destruct (run_call_cache_key c s) as [(_ & ->) | (_ & [-> | (v & ->)])].
  - apply find_none_getitem. exact Hnone.
  - exact Hnone.
  - apply find_none_setitem_other; assumption.
Qed.

Lemma run_call_length (c : call) (s : state) :
  (length (cache (final (run_call c s))) <= S (length (cache s)))%nat.
Proof.
  destruct (run_call_cache_key c s) as [(_ & ->) | (_ & [-> | (v & ->)])].
  - apply length_getitem.
  - lia.
  - apply length_setitem.
Qed.

Lemma after_calls_app (cs1 cs2 : list call) (s : state) :
  after_calls (cs1 ++ cs2) s = after_calls cs2 (after_calls cs1 s).
Proof.
  revert s. induction cs1 as [|c cs1 IH]; intros s; [reflexivity|].
  cbn [app after_calls]. apply IH.
Qed.

Lemma after_calls_fresh (cs : list call) (s : state) (k : string) :
  TTLCache.find k (cache s) = None ->
  (forall c, In c cs -> call_key c <> k) ->
  TTLCache.find k (cache (after_calls cs s)) = None.
Proof.
  revert s. induction cs as [|c cs IH]; intros s Hnone Hne; [exact Hnone|].
  cbn [after_calls]. apply IH.
  - apply run_call_fresh; [exact Hnone | apply Hne; left; reflexivity].
  - intros c' Hc'. apply Hne. right. exact Hc'.
Qed.

Lemma after_calls_length (cs : list call) (s : state) :
  (length (cache (after_calls cs s)) <= length (cache s) + length cs)%nat.
Proof.
  revert s. induction cs as [|c cs IH]; intros s; cbn [after_calls length]; [lia|].
  pose proof (run_call_length c s). specialize (IH (final (run_call c s))). lia.
Qed.

Lemma bind_ok {A B : Type} (m : M A) (k : A -> M B) (s : state) (a : A)
    (s1 : state) (t1 : list event) :
  m s = (Ok a, s1, t1) ->
  bind m k s = (outcome (k a s1), final (k a s1), t1 ++ trace (k a s1)).
Proof.
  intros H. unfold bind. rewrite H. destruct (k a s1) as [[r s2] t2]. reflexivity.
Qed.

Lemma quiet_for_each {X : Type} (xs : list X) (body : X -> M unit) :
  (forall x, quiet (body x)) -> quiet (for_each xs body).
Proof.
  intros Hbody. induction xs as [|x xs IH]; cbn [for_each].
  - apply quiet_ret.
  - apply quiet_bind; [apply Hbody | intros _; exact IH].
Qed.

Lemma quiet_update_data (w : world) : quiet (update_data w).
Proof.
  unfold update_data.
  apply quiet_bind; [apply quiet_now_in | intros now].
  apply quiet_bind.
  - apply quiet_for_each. intros city.
    apply quiet_bind; [apply quiet_parse_prayer_times | intros; apply quiet_ret].
  - intros _. apply quiet_bind; [apply quiet_get_daily_quote | intros; apply quiet_ret].
Qed.

Lemma find_none_contains {V : Type} (c : TTLCache.t V) (k : string) (now : Z) :
  TTLCache.find k c = None -> TTLCache.contains c k now = false.
Proof. intros H. unfold TTLCache.contains. rewrite H. reflexivity. Qed.

(** The loop of [update_data] is the sequence of its calls; over keys that
    are absent it fetches one page for each city. *)
Lemma refresh_loop (w : world) (today : date) (cities : list string) (s : state) :
  outcome (for_each cities
             (fun city => _ <- parse_prayer_times w city today ;; ret tt) s) = Ok tt
  /\ final (for_each cities
              (fun city => _ <- parse_prayer_times w city today ;; ret tt) s)
     = after_calls (map (fun city => ParseCall w city today) cities) s
  /\ (NoDup cities ->
      (forall city, In city cities ->
                    TTLCache.find (schedule_key city today) (cache s) = None) ->
      fetches (trace (for_each cities
                        (fun city => _ <- parse_prayer_times w city today ;; ret tt) s))
      = map schedule_url cities).
Proof.
  revert s. induction cities as [|city cities IH]; intros s.
  - repeat split; reflexivity.
  - destruct (parse_prayer_times_returns w city today s) as (sched & Hout).
    destruct (parse_prayer_times w city today s) as [[r s1] t1] eqn:E.
    cbn [outcome fst] in Hout. subst r.
    rewrite (for_each_cons_ok _ city cities s s1 (t1 ++ []))
      by (unfold bind at 1; rewrite E; reflexivity).
    cbn [outcome final trace fst snd map after_calls run_call].
    rewrite E. cbn [final fst snd].
    destruct (IH s1) as (IH1 & IH2 & IH3).
    split; [exact IH1|]. split; [exact IH2|].
    intros Hnd Hfresh. inversion Hnd as [|? ? Hnotin Hnd']; subst.
    assert (Hmiss : TTLCache.contains (cache s) (schedule_key city today) (monotonic w)
                    = false)
      by (apply find_none_contains, Hfresh; left; reflexivity).
    destruct (parse_prayer_times_miss w city today s Hmiss) as (Hf & _).
    rewrite E in Hf. cbn [trace snd] in Hf.
    rewrite !fetches_app, Hf. change (fetches []) with (@nil string).
    rewrite app_nil_r. apply (f_equal (cons (schedule_url city))).
    apply IH3; [exact Hnd'|]. intros c Hc.
    replace s1 with (final (run_call (ParseCall w city today) s))
      by (cbn [run_call]; rewrite E; reflexivity).
    apply run_call_fresh; [apply Hfresh; right; exact Hc|].
    cbn [call_key]. intros Hk. apply schedule_key_inj in Hk. subst c. contradiction.
Qed.

Lemma update_data_run (w : world) (now : datetime) (s : state) :
  localnow w "Europe/Moscow" = Some now ->
  exists ayat,
    outcome (update_data w s) = Ok (ayat, [LogLine INFO DataUpdated])
    /\ final (update_data w s) = after_calls (refresh_calls w (dt_date now)) s
    /\ fetches (trace (update_data w s))
       = fetches (trace (for_each (map snd CITIES)
                           (fun city => _ <- parse_prayer_times w city (dt_date now) ;;
                                        ret tt) s))
         ++ fetches (trace (get_daily_quote w "ayat"
                              (after_calls
                                 (map (fun city => ParseCall w city (dt_date now))
                                    (map snd CITIES)) s))).
Proof.
  intros Hnow.
  destruct (refresh_loop w (dt_date now) (map snd CITIES) s) as (L1 & L2 & _).
  unfold refresh_calls. rewrite after_calls_app. cbn [after_calls run_call].
  rewrite <- L2.
  destruct (get_daily_quote_returns w "ayat"
              (final (for_each (map snd CITIES)
                        (fun city => _ <- parse_prayer_times w city (dt_date now) ;;
                                     ret tt) s))) as (ayat & Hq).
  exists ayat. unfold update_data.
  rewrite !(bind_ok (now_in w "Europe/Moscow") _ s now s [])
    by (unfold now_in; rewrite Hnow; reflexivity).
  destruct (for_each (map snd CITIES)
              (fun city => _ <- parse_prayer_times w city (dt_date now) ;; ret tt) s)
    as [[r s1] t1] eqn:EL.
  cbn [outcome final trace fst snd] in L1, Hq |- *. subst r.
  rewrite !(bind_ok _ _ s tt s1 t1 EL).
  destruct (get_daily_quote w "ayat" s1) as [[q s2] t2] eqn:EQ.
  cbn [outcome final trace fst snd] in Hq |- *. subst q.
  rewrite !(bind_ok _ _ s1 ayat s2 t2 EQ).
  cbn [ret outcome final trace fst snd app].
  split; [reflexivity|]. split; [reflexivity|].
  rewrite ?fetches_app, ?app_nil_r. reflexivity.
Qed.

Lemma NoDup_city_codes : NoDup (map snd CITIES).
Proof.
  cbn [CITIES map snd].
  repeat (constructor; [cbn [In]; intuition discriminate|]). constructor.
Qed.

Lemma quote_key_not_schedule (city : string) (d d' : date) :
  In city (map snd CITIES) -> schedule_key city d <> quote_key "ayat" d'.
Proof.
  intros Hin E. pose proof (schedule_key_not_quote city d Hin) as H.
  rewrite E in H. unfold quote_key in H. cbn in H.
  destruct (isoformat d'); discriminate.
Qed.

(** A miss whose page shows the row of the day stores the six times. *)
Lemma parse_prayer_times_miss_row (w : world) (city : string) (d : date) (s : state)
    (doc : document) (rows : list (list string)) (cols : list string) :
  TTLCache.contains (cache s) (schedule_key city d) (monotonic w) = false ->
  http_get w (schedule_url city) = Body (HtmlDoc doc) ->
  pray_table doc = Some rows ->
  find (is_day_row d) rows = Some cols ->
  outcome (parse_prayer_times w city d s) = Ok (schedule_of_row cols)
  /\ final (parse_prayer_times w city d s)
     = stored (schedule_key city d) (schedule_of_row cols) (monotonic w) s.
Proof.
  intros Hmiss Hget Htable Hrow.
  unfold parse_prayer_times, cache_contains, fetch_url, cache_setitem. run.
  rewrite Hmiss, Hget. cbv beta iota. rewrite Htable, Hrow. split; reflexivity.
Qed.

Lemma post_init_run (w : world) (s : state) :
  post_init w s
  = (match outcome (update_data w (set_sent_daily_schedules []
                                     (set_sent_notifications [] s))) with
     | Ok r => Ok (fst r, snd r ++ [LogLine INFO DataLoadedAtStart])
     | Raise e => Raise e
     end,
     final (update_data w (set_sent_daily_schedules [] (set_sent_notifications [] s))),
     trace (update_data w (set_sent_daily_schedules [] (set_sent_notifications [] s)))).
Proof.
  unfold post_init.
  rewrite (bind_ok (modify (set_sent_notifications [])) _ s tt
             (set_sent_notifications [] s) [] eq_refl).
  rewrite !(bind_ok (modify (set_sent_daily_schedules [])) _ (set_sent_notifications [] s)
              tt (set_sent_daily_schedules [] (set_sent_notifications [] s)) [] eq_refl).
  unfold bind.
  destruct (update_data w (set_sent_daily_schedules [] (set_sent_notifications [] s)))
    as [[[r|e] s1] t1]; cbn [ret outcome final trace fst snd app];
    rewrite ?app_nil_r; reflexivity.
Qed.

(** X11.  On an empty cache [update_data] requests the page of every city
    of [CITIES] once, in the order of the table, and then the page of the
    ayat; it returns with its log line, delivers no message and leaves the two
    ledgers and the subscriber table as they were. *)
Theorem update_data_cold_cache (w : world) (now : datetime) (s : state) :
  cache s = [] ->
  localnow w "Europe/Moscow" = Some now ->
  (exists ayat, outcome (update_data w s) = Ok (ayat, [LogLine INFO DataUpdated]))
  /\ fetches (trace (update_data w s))
     = map (fun kv => schedule_url (snd kv)) CITIES ++ ["https://umma.ru/ayat-dnya"]
  /\ deliveries (trace (update_data w s)) = []
  /\ sent_notifications (final (update_data w s)) = sent_notifications s
  /\ sent_daily_schedules (final (update_data w s)) = sent_daily_schedules s
  /\ subscribers (final (update_data w s)) = subscribers s.
Proof.
  intros Hcold Hnow.
  destruct (update_data_run w now s Hnow) as (ayat & Hout & _ & Hfetch).
  destruct (quiet_update_data w s) as (Q1 & Q2 & Q3 & Q4).
  split; [exists ayat; exact Hout|].
  split; [|split; [apply deliveries_nil; exact Q4 | auto]].
  rewrite Hfetch.
  destruct (refresh_loop w (dt_date now) (map snd CITIES) s) as (_ & _ & Hloop).
  rewrite Hloop.
  - rewrite map_map. f_equal.
    assert (Hmiss : TTLCache.contains
                      (cache (after_calls
                                (map (fun city => ParseCall w city (dt_date now))
                                   (map snd CITIES)) s))
                      (quote_key "ayat" (today_local w)) (monotonic w) = false).
    { apply find_none_contains, after_calls_fresh.
      - rewrite Hcold. reflexivity.
      - intros c Hc. apply in_map_iff in Hc. destruct Hc as (city & <- & Hcity).
        cbn [call_key]. apply quote_key_not_schedule. exact Hcity. }
    destruct (get_daily_quote_miss w "ayat" _ _ eq_refl Hmiss) as (Hf & _).
    exact Hf.
  - exact NoDup_city_codes.
  - intros city _. rewrite Hcold. reflexivity.
Qed.

Lemma update_data_cold_cache_witness :
  fetches (trace (update_data (sample_world 4 0) (initial_state sample_table)))
  = map (fun kv => schedule_url (snd kv)) CITIES ++ ["https://umma.ru/ayat-dnya"].
Proof.
  destruct (update_data_cold_cache (sample_world 4 0)
              (mkdatetime (mkdate 2024 1 15) 4 0 0 (Some 180))
              (initial_state sample_table) eq_refl eq_refl) as (_ & H & _).
  exact H.
Defined.

(** X12.  [post_init] empties both ledgers whatever they held, also when
    the Moscow zone cannot be loaded and the refresh raises; it leaves the
    subscriber table alone and delivers no message.  With the zone at hand
    it returns after its two log lines. *)
Theorem post_init_resets_ledgers (w : world) (s : state) :
  sent_notifications (final (post_init w s)) = []
  /\ sent_daily_schedules (final (post_init w s)) = []
  /\ subscribers (final (post_init w s)) = subscribers s
  /\ deliveries (trace (post_init w s)) = []
  /\ match localnow w "Europe/Moscow" with
     | Some _ =>
         exists ayat,
           outcome (post_init w s)
           = Ok (ayat, [LogLine INFO DataUpdated; LogLine INFO DataLoadedAtStart])
     | None => outcome (post_init w s) = Raise UnknownTimeZoneError
     end.
Proof.
  rewrite post_init_run. cbn [outcome final trace fst snd].
  destruct (quiet_update_data w (set_sent_daily_schedules [] (set_sent_notifications [] s)))
    as (Q1 & Q2 & Q3 & Q4).
  split; [rewrite Q1; reflexivity|]. split; [rewrite Q2; reflexivity|].
  split; [rewrite Q3; reflexivity|]. split; [apply deliveries_nil; exact Q4|].
  destruct (localnow w "Europe/Moscow") as [now|] eqn:Hnow.
  - destruct (update_data_run w now
                (set_sent_daily_schedules [] (set_sent_notifications [] s)) Hnow)
      as (ayat & -> & _).
    exists ayat. reflexivity.
  - unfold update_data, now_in. rewrite Hnow. reflexivity.
Qed.

Lemma update_data_warms (w w2 : world) (now : datetime) (s : state) (city : string)
    (doc : document) (rows : list (list string)) (cols : list string) :
  cache s = [] ->
  localnow w "Europe/Moscow" = Some now ->
  In city (map snd CITIES) ->
  http_get w (schedule_url city) = Body (HtmlDoc doc) ->
  pray_table doc = Some rows ->
  find (is_day_row (dt_date now)) rows = Some cols ->
  monotonic w2 < monotonic w + CACHE_TIMEOUT ->
  parse_prayer_times w2 city (dt_date now) (final (update_data w s))
  = (Ok (schedule_of_row cols),
     set_cache (TTLCache.delete (schedule_key city (dt_date now))
                  (cache (final (update_data w s)))
                ++ [TTLCache.mklink (schedule_key city (dt_date now))
                      (schedule_of_row cols) (monotonic w + CACHE_TIMEOUT)])
       (final (update_data w s)),
     []).
Proof.
  intros Hcold Hnow Hcity Hget Htable Hrow Hlt.
  destruct (update_data_run w now s Hnow) as (_ & _ & -> & _).
  destruct (in_split _ _ Hcity) as (pre & post & Hsplit).
  pose proof NoDup_city_codes as Hnd. rewrite Hsplit in Hnd.
  apply NoDup_remove_2 in Hnd.
  assert (Hlen : (length pre + S (length post) = 12)%nat).
  { apply (f_equal (@length string)) in Hsplit. rewrite length_app in Hsplit.
    cbn [length] in Hsplit. rewrite <- Hsplit. reflexivity. }
  unfold refresh_calls. rewrite Hsplit, map_app, <- app_assoc, after_calls_app.
  cbn [map List.app after_calls run_call].
  set (P := fun c => ParseCall w c (dt_date now)).
  set (s_pre := after_calls (map P pre) s).
  assert (Hfresh : TTLCache.find (schedule_key city (dt_date now)) (cache s_pre) = None).
  { apply after_calls_fresh; [rewrite Hcold; reflexivity|].
    intros c Hc. apply in_map_iff in Hc. destruct Hc as (c' & <- & Hc').
    cbn [P call_key]. intros Hk. apply schedule_key_inj in Hk. subst c'.
    apply Hnd, in_or_app. left. exact Hc'. }
  destruct (parse_prayer_times_miss_row w city (dt_date now) s_pre doc rows cols
              (find_none_contains _ _ _ Hfresh) Hget Htable Hrow) as (_ & Hstore).
  rewrite Hstore.
  set (l := TTLCache.mklink (schedule_key city (dt_date now)) (schedule_of_row cols)
              (monotonic w + CACHE_TIMEOUT)).
  assert (Hkept : TTLCache.find (schedule_key city (dt_date now))
                    (cache (after_calls (map P post ++ [QuoteCall w])
                              (stored (schedule_key city (dt_date now))
                                 (schedule_of_row cols) (monotonic w) s_pre)))
                  = Some l).
  { apply after_calls_keeps.
    - cbn [stored set_cache cache]. apply find_setitem.
    - apply Forall_forall. intros c Hc.
      assert (Hw : call_world c = w).
      { apply in_app_or in Hc. destruct Hc as [Hc|[<-|[]]]; [|reflexivity].
        apply in_map_iff in Hc. destruct Hc as (c' & <- & _). reflexivity. }
      rewrite Hw. cbn [l TTLCache.expires]. unfold CACHE_TIMEOUT. lia.
    - cbn [stored set_cache cache].
      pose proof (length_setitem pydict cache_maxsize CACHE_TIMEOUT (cache s_pre)
                    (schedule_key city (dt_date now)) (schedule_of_row cols)
                    (monotonic w)) as H1.
      pose proof (after_calls_length (map P pre) s) as H2.
      fold s_pre in H2. rewrite Hcold in H2. cbn [length] in H2.
      rewrite length_map in H2. rewrite length_app, length_map. cbn [length].
      unfold cache_maxsize in *. lia. }
  rewrite (parse_prayer_times_hit w2 city (dt_date now) _ l Hkept)
    by (cbn [l TTLCache.expires]; exact Hlt).
  reflexivity.
Qed.

(** X13.  After the start-up load on an empty cache, a request for the
    Moscow day's schedule of any city of [CITIES] whose page showed the row
    of the day is answered from the cache for the next hour: it returns the
    six times of that row, requests no page and writes no log line. *)
Theorem start_up_load_warms_cache (w w2 : world) (now : datetime) (s : state)
    (city : string) (doc : document) (rows : list (list string)) (cols : list string) :
  cache s = [] ->
  localnow w "Europe/Moscow" = Some now ->
  In city (map snd CITIES) ->
  http_get w (schedule_url city) = Body (HtmlDoc doc) ->
  pray_table doc = Some rows ->
  find (is_day_row (dt_date now)) rows = Some cols ->
  monotonic w2 < monotonic w + CACHE_TIMEOUT ->
  outcome (parse_prayer_times w2 city (dt_date now) (final (post_init w s)))
  = Ok (schedule_of_row cols)
  /\ trace (parse_prayer_times w2 city (dt_date now) (final (post_init w s))) = [].
Proof.
  intros Hcold Hnow Hcity Hget Htable Hrow Hlt.
  rewrite post_init_run. cbn [final fst snd].
  rewrite (update_data_warms w w2 now
             (set_sent_daily_schedules [] (set_sent_notifications [] s))
             city doc rows cols Hcold Hnow Hcity Hget Htable Hrow Hlt).
  split; reflexivity.
Qed.

Lemma start_up_load_warms_cache_witness :
  outcome (parse_prayer_times (sample_world 4 37) "moscow" sample_day
             (final (post_init (sample_world 4 0) (initial_state sample_table))))
  = Ok sample_schedule
  /\ trace (parse_prayer_times (sample_world 4 37) "moscow" sample_day
              (final (post_init (sample_world 4 0) (initial_state sample_table))))
     = [].
Proof.
  apply (start_up_load_warms_cache (sample_world 4 0) (sample_world 4 37)
           (mkdatetime (mkdate 2024 1 15) 4 0 0 (Some 180))
           (initial_state sample_table) "moscow"
           (mkdocument (Some sample_rows) None) sample_rows
           ["15"; "Пн"; "04:37"; "06:10"; "12:30"; "15:00"; "17:45"; "19:20"]).
  - reflexivity.
  - reflexivity.
  - cbn. auto.
  - reflexivity.
  - reflexivity.
  - vm_compute. reflexivity.
  - vm_compute. reflexivity.
Defined.

(** ** The ledger keys *)

Lemma str_inj (z z' : Z) : str z = str z' -> z = z'.
Proof.
  unfold str. intros H.
  assert (Hn : forall x, Z.to_int x <> Pos Nil /\ Z.to_int x <> Neg Nil).
  { intros [|p|p]; cbn; split; try discriminate; intros [= E];
      exact (DecimalPos.Unsigned.to_uint_nonnil p E). }
  apply (f_equal NilZero.int_of_string) in H.
  rewrite !NilZero.isi in H by apply Hn.
  injection H as H. apply (f_equal Z.of_int) in H.
  rewrite !DecimalZ.of_to in H. exact H.
Qed.

(** X14.  On one day the ledger keys tell the chats and the prayers apart:
    two notification keys are equal only for the same prayer and the same
    chat, two digest keys only for the same chat. *)
Theorem ledger_keys_do_not_collide (today : date) (p p' : string) (chat chat' : Z) :
  In p PRAYER_NAMES -> In p' PRAYER_NAMES ->
  (notification_id today p chat = notification_id today p' chat' ->
   p = p' /\ chat = chat')
  /\ (schedule_id today chat = schedule_id today chat' -> chat = chat').
Proof.
  intros Hp Hp'. split.
  - unfold notification_id. intros H.
    apply append_inj_l in H. apply (append_inj_l "-") in H.
    cbn [PRAYER_NAMES In] in Hp, Hp'.
    destruct Hp as [<-|[<-|[<-|[<-|[<-|[<-|[]]]]]]];
      destruct Hp' as [<-|[<-|[<-|[<-|[<-|[<-|[]]]]]]];
      cbn [String.append] in H; try discriminate H;
      (split; [reflexivity|]); apply str_inj; congruence.
  - unfold schedule_id. intros H.
    apply append_inj_l in H. apply (append_inj_l "-") in H.
    apply str_inj. exact H.
Qed.

Lemma ledger_keys_do_not_collide_witness :
  In "Фаджр" PRAYER_NAMES
  /\ notification_id sample_day "Фаджр" 42 <> notification_id sample_day "Фаджр" 43.
Proof.
  assert (Hp : In "Фаджр" PRAYER_NAMES) by (cbn; auto).
  split; [exact Hp|]. intros E.
  destruct (ledger_keys_do_not_collide sample_day "Фаджр" "Фаджр" 42 43 Hp Hp)
    as (H & _).
  destruct (H E) as (_ & Hchat). discriminate Hchat.
Defined.

(** ** The chat handlers *)

Lemma set_city_stores (w : world) (s : state) (chat : Z) (name code tz : string) :
  sqlite_ok w = true ->
  dict_get CITIES name = Some code ->
  dict_get CITY_TIMEZONES code = Some tz ->
  outcome (set_city w ("set_city_" ++ name) chat s) = Ok tt
  /\ select_by_chat_id chat
       (subscribers (final (set_city w ("set_city_" ++ name) chat s)))
     = Some (mksubscriber chat code tz 1).
Proof.
  intros Hok Hcity Htz.
  destruct (city_button name code Hcity) as (Hlast & _).
  unfold set_city, update_user. rewrite Hlast, Hok. run.
  rewrite Hcity, Htz. cbn.
  split; [reflexivity|].
  apply (select_insert_or_replace (mksubscriber chat code tz 1)).
Qed.

Lemma city_display_name_of_code (name code : string) :
  dict_get CITIES name = Some code -> city_display_name code = name.
Proof.
  unfold CITIES. cbn [dict_get]. intros H.
  repeat match type of H with
         | (if String.eqb ?k name then _ else _) = _ =>
             destruct (String.eqb_spec k name) as [<-|_];
             [inversion H; subst; reflexivity|]
         end.
  discriminate.
Qed.

Lemma city_keyboard_buttons (b : button) :
  In [b] city_keyboard ->
  exists code,
    dict_get CITIES (label b) = Some code
    /\ callback_data b = ("set_city_" ++ label b)%string
    /\ set_city_pattern (callback_data b) = true.
Proof.
  unfold city_keyboard. intros H. apply in_map_iff in H.
  destruct H as ((name & code) & [= <-] & Hin). cbn [fst label callback_data].
  exists code. cbn [CITIES In] in Hin.
  repeat (destruct Hin as [[= <- <-]|Hin]; [repeat split; reflexivity|]).
  destruct Hin.
Qed.

Lemma status_of_row (w : world) (s : state) (chat : Z) (row : subscriber) :
  sqlite_ok w = true ->
  select_by_chat_id chat (subscribers s) = Some row ->
  status w chat s = (Ok [simple_reply chat (settings_text row)], s, []).
Proof.
  intros Hok Hrow. unfold status. rewrite Hok. run. rewrite Hrow. reflexivity.
Qed.

(** X15.  Every city button of the keyboard that [get_city] and the
    [change_city] view show is taken by the [set_city] handler, is accepted
    by it, and stores the city of its label: a [status] request after the
    press shows the label as the city, the time zone of the city and the
    subscription as on. *)
Theorem city_buttons_work (w w' : world) (s : state) (chat : Z) (b : button) :
  sqlite_ok w = true ->
  sqlite_ok w' = true ->
  In [b] city_keyboard ->
  set_city_pattern (callback_data b) = true
  /\ outcome (set_city w (callback_data b) chat s) = Ok tt
  /\ exists code tz,
       dict_get CITIES (label b) = Some code
       /\ dict_get CITY_TIMEZONES code = Some tz
       /\ outcome (status w' chat (final (set_city w (callback_data b) chat s)))
          = Ok [simple_reply chat
                  ("🏠 Город: " ++ label b ++ newline
                   ++ "⏰ Часовой пояс: " ++ tz ++ newline
                   ++ "📩 Статус: ✅ Подписан")].
Proof.
  intros Hok Hok' Hb.
  destruct (city_keyboard_buttons b Hb) as (code & Hcity & Hdata & Hpat).
  destruct (city_button (label b) code Hcity) as (_ & tz & Htz).
  destruct (set_city_stores w s chat (label b) code tz Hok Hcity Htz) as (Hout & Hrow).
  rewrite Hdata in *.
  split; [exact Hpat|]. split; [exact Hout|].
  exists code, tz. split; [exact Hcity|]. split; [exact Htz|].
  rewrite (status_of_row w' _ chat _ Hok' Hrow).
  unfold settings_text. cbn [outcome fst city timezone subscribed Z.eqb].
  rewrite (city_display_name_of_code _ _ Hcity). reflexivity.
Qed.

Lemma city_buttons_work_witness :
  In [mkbutton "Казань" "set_city_Казань"] city_keyboard
  /\ outcome (set_city (sample_world 9 0) "set_city_Казань" 42 (initial_state sample_table))
     = Ok tt.
Proof.
  assert (H : In [mkbutton "Казань" "set_city_Казань"] city_keyboard)
    by (cbn; auto).
  split; [exact H|].
  destruct (city_buttons_work (sample_world 9 0) (sample_world 9 1)
              (initial_state sample_table) 42 (mkbutton "Казань" "set_city_Казань")
              eq_refl eq_refl H) as (_ & Hout & _).
  exact Hout.
Defined.

(** X16.  The settings menu agrees with the commands beside it: the
    [show_settings] button shows what [status] replies, the
    [back_to_settings] button what [settings] replies, and the [change_city]
    view the prompt and the city buttons of [get_city] followed by the back
    button.  Whatever the callback data, the handler returns, answers the
    query last, leaves the state alone and requests no page. *)
Theorem settings_menu_matches_commands (w : world) (s : state) (chat : Z)
    (data : string) :
  (exists outs outs',
      outcome (status w chat s) = Ok outs
      /\ outcome (handle_settings_callback w "show_settings" chat s) = Ok outs'
      /\ views outs' = views outs)
  /\ (exists outs outs',
        outcome (settings chat s) = Ok outs
        /\ outcome (handle_settings_callback w "back_to_settings" chat s) = Ok outs'
        /\ views outs' = views outs)
  /\ (exists text kb,
        outcome (get_city chat s) = Ok [Reply chat text None (InlineKeyboardMarkup kb)]
        /\ outcome (handle_settings_callback w "change_city" chat s)
           = Ok [EditMessage chat text None
                   (InlineKeyboardMarkup
                      (kb ++ [[mkbutton "⬅️ Назад" "back_to_settings"]]));
                 AnswerQuery])
  /\ (exists outs,
        outcome (handle_settings_callback w data chat s) = Ok (outs ++ [AnswerQuery]))
  /\ final (handle_settings_callback w data chat s) = s
  /\ trace (handle_settings_callback w data chat s) = [].
Proof.
  split; [|split; [|split; [|split; [|split]]]].
  - unfold status, handle_settings_callback. cbn [String.eqb Ascii.eqb Bool.eqb].
    destruct (sqlite_ok w); run;
      [destruct (select_by_chat_id chat (subscribers s))|];
      eexists; eexists; (split; [reflexivity|]); (split; [reflexivity|]); reflexivity.
  - eexists; eexists. split; [reflexivity|]. split; reflexivity.
  - eexists; eexists. split; reflexivity.
  - unfold handle_settings_callback.
    destruct (String.eqb data "change_city"); [eexists [_]; reflexivity|].
    destruct (String.eqb data "show_settings").
    + destruct (sqlite_ok w); [eexists [_] | eexists [_; _]]; reflexivity.
    + destruct (String.eqb data "back_to_settings");
        [eexists [_] | exists []]; reflexivity.
  - unfold handle_settings_callback.
    destruct (String.eqb data "change_city"); [reflexivity|].
    destruct (String.eqb data "show_settings"); [destruct (sqlite_ok w); reflexivity|].
    destruct (String.eqb data "back_to_settings"); reflexivity.
  - unfold handle_settings_callback.
    destruct (String.eqb data "change_city"); [reflexivity|].
    destruct (String.eqb data "show_settings"); [destruct (sqlite_ok w); reflexivity|].
    destruct (String.eqb data "back_to_settings"); reflexivity.
Qed.

Lemma quiet_daily_schedule (w : world) (chat : Z) : quiet (daily_schedule w chat).
Proof.
  unfold daily_schedule.
  destruct (sqlite_ok w); [|apply quiet_ret].
  apply quiet_try_except; [|intros; apply quiet_ret].
  apply quiet_bind; [apply quiet_gets | intros tbl].
  destruct (select_by_chat_id chat tbl) as [row|]; [|apply quiet_ret].
  apply quiet_bind; [apply quiet_now_in | intros now].
  apply quiet_bind; [apply quiet_parse_prayer_times | intros schedule].
  destruct (is_empty schedule); apply quiet_ret.
Qed.

Lemma parse_prayer_times_fetches (w : world) (city : string) (d : date) (s : state) :
  fetches (trace (parse_prayer_times w city d s)) = []
  \/ fetches (trace (parse_prayer_times w city d s)) = [schedule_url city].
Proof.
  destruct (TTLCache.contains (cache s) (schedule_key city d) (monotonic w)) eqn:Hc.
  - destruct (contains_true _ _ _ _ Hc) as (l & Hfind & Hlt).
    rewrite (parse_prayer_times_hit w city d s l Hfind Hlt). left. reflexivity.
  - right. apply parse_prayer_times_miss. exact Hc.
Qed.

(** X17.  The handler of the schedule button never raises and shows one
    message to the asking chat, whatever the database, the clock, the page
    and the cache do.  It sends nothing through the job channel and leaves
    the ledgers and the table as they were; a chat without a row causes no
    page request, a chat with a row at most one, for the page of its city. *)
Theorem daily_schedule_always_replies (w : world) (s : state) (chat : Z) :
  (exists outs text mode,
      outcome (daily_schedule w chat s) = Ok outs
      /\ views outs = [(chat, text, mode, NoMarkup)])
  /\ sent_notifications (final (daily_schedule w chat s)) = sent_notifications s
  /\ sent_daily_schedules (final (daily_schedule w chat s)) = sent_daily_schedules s
  /\ subscribers (final (daily_schedule w chat s)) = subscribers s
  /\ deliveries (trace (daily_schedule w chat s)) = []
  /\ match select_by_chat_id chat (subscribers s) with
     | None => fetches (trace (daily_schedule w chat s)) = []
     | Some row =>
         fetches (trace (daily_schedule w chat s)) = []
         \/ fetches (trace (daily_schedule w chat s)) = [schedule_url (city row)]
     end.
Proof.
  destruct (quiet_daily_schedule w chat s) as (Q1 & Q2 & Q3 & Q4).
  split; [|split; [exact Q1|split; [exact Q2|split; [exact Q3|split;
    [apply deliveries_nil; exact Q4|]]]]]; clear Q1 Q2 Q3 Q4.
  - unfold daily_schedule.
    destruct (sqlite_ok w); [|eexists; eexists; eexists; split; reflexivity].
    unfold try_except.
    rewrite (bind_ok (gets subscribers) _ s (subscribers s) s [] eq_refl).
    destruct (select_by_chat_id chat (subscribers s)) as [row|];
      [|eexists; eexists; eexists; split; reflexivity].
    unfold now_in.
    destruct (localnow w (timezone row)) as [now|];
      [|eexists; eexists; eexists; split; reflexivity].
    rewrite (bind_ok (ret now) _ s now s [] eq_refl).
    destruct (parse_prayer_times_returns w (city row) (dt_date now) s) as (sched & Hs).
    destruct (parse_prayer_times w (city row) (dt_date now) s) as [[r s1] t1] eqn:E.
    cbn [outcome fst] in Hs. subst r.
    rewrite (bind_ok _ _ s sched s1 t1 E).
    destruct (is_empty sched); eexists; eexists; eexists; split; reflexivity.
  - unfold daily_schedule.
    destruct (sqlite_ok w);
      [|destruct (select_by_chat_id chat (subscribers s)); [left|]; reflexivity].
    unfold try_except.
    rewrite (bind_ok (gets subscribers) _ s (subscribers s) s [] eq_refl).
    destruct (select_by_chat_id chat (subscribers s)) as [row|]; [|reflexivity].
    unfold now_in.
    destruct (localnow w (timezone row)) as [now|]; [|left; reflexivity].
    rewrite (bind_ok (ret now) _ s now s [] eq_refl).
    destruct (parse_prayer_times_returns w (city row) (dt_date now) s) as (sched & Hs).
    pose proof (parse_prayer_times_fetches w (city row) (dt_date now) s) as Hf.
    destruct (parse_prayer_times w (city row) (dt_date now) s) as [[r s1] t1] eqn:E.
    cbn [outcome trace fst snd] in Hs, Hf. subst r.
    rewrite (bind_ok _ _ s sched s1 t1 E).
    destruct (is_empty sched); cbn [ret outcome final trace fst snd List.app];
      rewrite ?app_nil_r; exact Hf.
Qed.

Lemma Forall_getitem {V : Type} (P : TTLCache.link V -> Prop) (c : TTLCache.t V)
    (k : string) (now : Z) :
  Forall P c -> Forall P (snd (TTLCache.getitem c k now)).
Proof.
  intros H. unfold TTLCache.getitem.
  destruct (TTLCache.find k c) as [l|] eqn:Hfind; [|exact H].
  assert (H' : Forall P (TTLCache.delete k c ++ [l])).
  { apply Forall_app. split.
    - rewrite Forall_forall in *. intros x Hx. apply filter_In in Hx. apply H, Hx.
    - constructor; [|constructor]. rewrite Forall_forall in H.
      apply H. apply (find_In _ _ _ _ Hfind). }
  destruct (now <? TTLCache.expires l); exact H'.
Qed.

Lemma Forall_setitem {V : Type} (P : TTLCache.link V -> Prop) (maxsize : nat) (ttl : Z)
    (c : TTLCache.t V) (k : string) (v : V) (now : Z) :
  Forall P c -> P (TTLCache.mklink k v (now + ttl)) ->
  Forall P (TTLCache.setitem maxsize ttl c k v now).
Proof.
  intros H Hnew. unfold TTLCache.setitem. apply Forall_app. split.
  - rewrite Forall_forall in *. intros x Hx. apply filter_In in Hx.
    destruct Hx as (Hx & _). apply H.
    assert (Hexp : In x (TTLCache.expire c now)).
    { destruct (TTLCache.find k (TTLCache.expire c now)); [exact Hx|].
      eapply in_skipn; exact Hx. }
    apply filter_In in Hexp. apply Hexp.
  - constructor; [exact Hnew | constructor].
Qed.

Lemma run_call_quote_inv (c : call) (s : state) :
  call_ok c -> quote_inv (cache s) -> quote_inv (cache (final (run_call c s))).
Proof.
  intros Hok Hinv.
  destruct (TTLCache.contains (cache s) (call_key c) (monotonic (call_world c))) eqn:Hc.
  - destruct (run_call_cache_key c s) as [(_ & ->) | (Hmiss & _)];
      [|rewrite Hmiss in Hc; discriminate].
    apply Forall_getitem. exact Hinv.
  - destruct c as [w city d | w]; cbn [run_call call_key call_world call_ok] in *.
    + destruct (parse_prayer_times_miss w city d s Hc)
        as (_ & [(_ & ->) | (sched & _ & _ & ->)]); [exact Hinv|].
      apply Forall_setitem; [exact Hinv|]. cbn [TTLCache.key].
      rewrite (schedule_key_not_quote city d Hok). discriminate.
    + destruct (get_daily_quote_miss w "ayat" _ s eq_refl Hc)
        as (_ & [(_ & ->) | (text & _ & ->)]); [exact Hinv|].
      apply Forall_setitem; [exact Hinv|]. intros _. exists text. reflexivity.
Qed.

Lemma after_calls_quote_inv (cs : list call) (s : state) :
  Forall call_ok cs -> quote_inv (cache s) -> quote_inv (cache (after_calls cs s)).
Proof.
  revert s. induction cs as [|c cs IH]; intros s Hok Hinv; [exact Hinv|].
  inversion Hok as [|? ? Hc Hcs]; subst. cbn [after_calls].
  apply IH; [exact Hcs | apply run_call_quote_inv; assumption].
Qed.

Lemma quiet_daily_quote (w : world) (chat : Z) : quiet (daily_quote w chat).
Proof.
  unfold daily_quote.
  apply quiet_bind; [apply quiet_get_daily_quote | intros quote].
  destruct (is_empty quote); [apply quiet_ret|].
  apply quiet_bind; [apply quiet_subscript | intros; apply quiet_ret].
Qed.

Lemma get_daily_quote_text (w : world) (s : state) :
  quote_inv (cache s) ->
  outcome (get_daily_quote w "ayat" s) = Ok []
  \/ exists text, outcome (get_daily_quote w "ayat" s) = Ok [("text", text)].
Proof.
  intros Hinv.
  destruct (TTLCache.contains (cache s) (quote_key "ayat" (today_local w)) (monotonic w))
    eqn:Hc.
  - destruct (contains_true _ _ _ _ Hc) as (l & Hfind & Hlt).
    rewrite (get_daily_quote_hit w "ayat" s l Hfind Hlt).
    destruct (find_In _ _ _ _ Hfind) as (Hin & Hk).
    unfold quote_inv in Hinv. rewrite Forall_forall in Hinv.
    assert (Hp : String.prefix "ayat_" (TTLCache.key l) = true).
    { rewrite Hk. unfold quote_key. cbn.
      destruct (isoformat (today_local w)); reflexivity. }
    destruct (Hinv l Hin Hp) as (text & Hv).
    right. exists text. exact (f_equal Ok Hv).
  - destruct (get_daily_quote_miss w "ayat" _ s eq_refl Hc)
      as (_ & [(Ho & _) | (text & Ho & _)]); [left | right; exists text]; exact Ho.
Qed.

(** X18.  In every state the program reaches from its start through requests
    for listed cities and for the ayat, the handler of the ayat button never
    raises: it shows one message to the asking chat, either the notice that
    the ayat is unavailable or the quote under its heading; it sends nothing
    through the job channel and leaves the ledgers and the table as they
    were. *)
Theorem daily_quote_always_replies (cs : list call) (tbl : list subscriber)
    (w : world) (chat : Z) :
  Forall call_ok cs ->
  (outcome (daily_quote w chat (after_calls cs (initial_state tbl)))
   = Ok [simple_reply chat "❌ Аят дня временно недоступен"]
   \/ exists text,
        outcome (daily_quote w chat (after_calls cs (initial_state tbl)))
        = Ok [Reply chat (quote_message text) (Some "HTML") NoMarkup])
  /\ deliveries (trace (daily_quote w chat (after_calls cs (initial_state tbl)))) = []
  /\ sent_notifications (final (daily_quote w chat (after_calls cs (initial_state tbl))))
     = sent_notifications (after_calls cs (initial_state tbl))
  /\ sent_daily_schedules (final (daily_quote w chat (after_calls cs (initial_state tbl))))
     = sent_daily_schedules (after_calls cs (initial_state tbl))
  /\ subscribers (final (daily_quote w chat (after_calls cs (initial_state tbl))))
     = subscribers (after_calls cs (initial_state tbl)).
Proof.
  intros Hok.
  destruct (quiet_daily_quote w chat (after_calls cs (initial_state tbl)))
    as (Q1 & Q2 & Q3 & Q4).
  split; [|split; [apply deliveries_nil; exact Q4 | auto]].
  assert (Hinv : quote_inv (cache (after_calls cs (initial_state tbl))))
    by (apply after_calls_quote_inv; [exact Hok | constructor]).
  unfold daily_quote.
  destruct (get_daily_quote w "ayat" (after_calls cs (initial_state tbl)))
    as [[r s1] t1] eqn:E.
  pose proof (get_daily_quote_text w _ Hinv) as Hq. rewrite E in Hq.
  cbn [outcome fst] in Hq.
  destruct Hq as [-> | (text & ->)]; rewrite (bind_ok _ _ _ _ s1 t1 E).
  - left. reflexivity.
  - right. exists text. reflexivity.
Qed.

Lemma daily_quote_always_replies_witness :
  exists text,
    outcome (daily_quote (sample_world 8 0) 42
               (after_calls [QuoteCall (sample_world 7 30)] (initial_state sample_table)))
    = Ok [Reply 42 (quote_message text) (Some "HTML") NoMarkup].
Proof.
  destruct (daily_quote_always_replies [QuoteCall (sample_world 7 30)] sample_table
              (sample_world 8 0) 42) as ([H | H] & _).
  - constructor; [exact I | constructor].
  - vm_compute in H. discriminate H.
  - exact H.
Defined.

Lemma city_has_timezone (name code : string) :
  dict_get CITIES name = Some code -> exists tz, dict_get CITY_TIMEZONES code = Some tz.
Proof.
  unfold CITIES. cbn [dict_get]. intros H.
  repeat match type of H with
         | (if String.eqb ?k name then _ else _) = _ =>
             destruct (String.eqb k name);
             [inversion H; subst; eexists; reflexivity|]
         end.
  discriminate.
Qed.

(** X19.  [set_city] reads the city name after the last underscore of the
    callback data.  A name that is a key of [CITIES] always has a time zone:
    the handler returns, the chat's row holds the city's code and zone with
    the subscription on (if sqlite works), and the confirmation is sent
    twice, as the answer to the query and as the new message text.  Any
    other name raises KeyError before anything is written or sent. *)
Theorem set_city_accepts_listed_names_only (w : world) (s : state) (chat : Z)
    (data : string) :
  match dict_get CITIES (last (split "_" data)) with
  | Some code =>
      exists tz,
        dict_get CITY_TIMEZONES code = Some tz
        /\ outcome (set_city w data chat s) = Ok tt
        /\ (if sqlite_ok w
            then select_by_chat_id chat (subscribers (final (set_city w data chat s)))
                 = Some (mksubscriber chat code tz 1)
            else subscribers (final (set_city w data chat s)) = subscribers s)
        /\ filter (fun ev => match ev with Answered _ _ => true | _ => false end)
             (trace (set_city w data chat s))
           = [Answered chat ("Город установлен: " ++ last (split "_" data));
              Answered chat ("Город установлен: " ++ last (split "_" data))]
  | None =>
      outcome (set_city w data chat s) = Raise KeyError
      /\ final (set_city w data chat s) = s
      /\ trace (set_city w data chat s) = []
  end.
Proof.
  destruct (dict_get CITIES (last (split "_" data))) as [code|] eqn:Hcity.
  - destruct (city_has_timezone _ _ Hcity) as (tz & Htz).
    exists tz. split; [exact Htz|].
    unfold set_city, update_user. run. rewrite Hcity, Htz.
    destruct (sqlite_ok w); cbn.
    + split; [reflexivity|]. split; [|reflexivity].
      apply (select_insert_or_replace (mksubscriber chat code tz 1)).
    + repeat split; reflexivity.
  - unfold set_city. run. rewrite Hcity. repeat split; reflexivity.
Qed.

(** * The cache, the schedule cells and the digest, again *)

(** ** Cached values within the time to live *)

Lemma find_none_keys {V : Type} (k : string) (c : TTLCache.t V) :
  TTLCache.find k c = None -> ~ In k (keys c).
Proof.
  induction c as [|l c IH]; cbn; [tauto|].
  destruct (String.eqb_spec (TTLCache.key l) k) as [E|E]; [discriminate|].
  intros H [Hk|Hin]; [exact (E Hk) | exact (IH H Hin)].
Qed.

Lemma keys_skipn_incl {V : Type} (n : nat) (c : TTLCache.t V) (k : string) :
  In k (keys (skipn n c)) -> In k (keys c).
Proof.
  unfold keys. intros H. apply in_map_iff in H. destruct H as (l & <- & Hl).
  apply in_map. eapply in_skipn. exact Hl.
Qed.

Lemma keys_getitem_incl {V : Type} (c : TTLCache.t V) (k : string) (now : Z) :
  incl (keys (snd (TTLCache.getitem c k now))) (keys c).
Proof.
  unfold TTLCache.getitem.
  destruct (TTLCache.find k c) as [l|] eqn:Hfind; [|apply incl_refl].
  assert (H : incl (keys (TTLCache.delete k c ++ [l])) (keys c)).
  { intros x Hx. unfold keys in Hx. rewrite map_app in Hx.
    apply in_app_or in Hx. destruct Hx as [Hx|[<-|[]]].
    - apply (keys_filter_incl _ c x Hx).
    - apply in_map. apply (find_In _ _ _ _ Hfind). }
  destruct (now <? TTLCache.expires l); exact H.
Qed.

Lemma keys_setitem_incl {V : Type} (maxsize : nat) (ttl : Z) (c : TTLCache.t V)
    (k : string) (v : V) (now : Z) :
  incl (keys (TTLCache.setitem maxsize ttl c k v now)) (k :: keys c).
Proof.
  unfold TTLCache.setitem. intros x Hx. unfold keys in Hx. rewrite map_app in Hx.
  apply in_app_or in Hx. destruct Hx as [Hx|[<-|[]]]; [|left; reflexivity].
  right. apply (keys_filter_incl _ _ x) in Hx.
  apply (keys_filter_incl (fun l => now <? TTLCache.expires l)).
  destruct (TTLCache.find k (TTLCache.expire c now)); [exact Hx|].
  eapply keys_skipn_incl. exact Hx.
Qed.

(** Storing another key leaves a live link findable when the key is already
    there or the live links leave room for one more. *)
Lemma find_setitem_keeps_room {V : Type} (maxsize : nat) (ttl : Z) (c : TTLCache.t V)
    (k k' : string) (l : TTLCache.link V) (v : V) (now : Z) :
  TTLCache.find k c = Some l -> now < TTLCache.expires l -> k' <> k ->
  (TTLCache.find k' (TTLCache.expire c now) = None ->
   (length (TTLCache.expire c now) < maxsize)%nat) ->
  TTLCache.find k (TTLCache.setitem maxsize ttl c k' v now) = Some l.
Proof.
  intros Hfind Hlt Hne Hroom. unfold TTLCache.setitem.
  assert (H1 : TTLCache.find k (TTLCache.expire c now) = Some l).
  { unfold TTLCache.expire. apply find_filter; [exact Hfind|].
    apply Z.ltb_lt; exact Hlt. }
  rewrite find_app.
  destruct (TTLCache.find k' (TTLCache.expire c now)) as [l'|].
  - rewrite find_delete_other, H1 by exact Hne. reflexivity.
  - specialize (Hroom eq_refl).
    replace (length (TTLCache.expire c now) + 1 - maxsize)%nat with 0%nat by lia.
    cbn [skipn]. rewrite find_delete_other, H1 by exact Hne. reflexivity.
Qed.

Lemma after_calls_shape (cs : list call) (s : state) :
  NoDup (keys (cache s)) -> (length (cache s) <= cache_maxsize)%nat ->
  NoDup (keys (cache (after_calls cs s)))
  /\ (length (cache (after_calls cs s)) <= cache_maxsize)%nat.
Proof.
  revert s. induction cs as [|c cs IH]; intros s Hnd Hlen; [split; assumption|].
  destruct (run_call_shape c s Hnd Hlen). cbn [after_calls]. apply IH; assumption.
Qed.

Lemma keys_length {V : Type} (c : TTLCache.t V) : length (keys c) = length c.
Proof. apply length_map. Qed.

(** A live link survives the calls made before it expires as long as the
    keys in the cache and the keys of the calls all lie in a set of at most
    [cache_maxsize] keys. *)
Lemma after_calls_keeps_in_use (cs : list call) (s : state) (k : string)
    (l : TTLCache.link pydict) (K : list string) :
  TTLCache.find k (cache s) = Some l ->
  Forall (fun c => monotonic (call_world c) < TTLCache.expires l) cs ->
  NoDup (keys (cache s)) ->
  NoDup K -> (length K <= cache_maxsize)%nat ->
  incl (keys (cache s)) K -> incl (map call_key cs) K ->
  TTLCache.find k (cache (after_calls cs s)) = Some l.
Proof.
  revert s. induction cs as [|c cs IH]; intros s Hfind Hlt Hnd HK Hlen Hin Hcs;
    [exact Hfind|].
  inversion Hlt as [|? ? Hc Hrest]; subst.
  assert (HcK : In (call_key c) K) by (apply Hcs; left; reflexivity).
  assert (Hcs' : incl (map call_key cs) K)
    by (intros x Hx; apply Hcs; right; exact Hx).
  cbn [after_calls].
  destruct (run_call_cache_key c s) as [(_ & E) | (Hmiss & [E | (v & E)])].
  - apply IH; try assumption; rewrite E.
    + apply find_getitem_keeps. exact Hfind.
    + apply getitem_shape. exact Hnd.
    + intros x Hx. apply Hin. exact (keys_getitem_incl _ _ _ x Hx).
  - apply IH; try assumption; rewrite E; assumption.
  - assert (Hne : call_key c <> k).
    { intros Heq. rewrite Heq, (contains_find _ _ _ _ _ Hfind Hc) in Hmiss.
      discriminate. }
    assert (Hsize : (length (cache s) <= cache_maxsize)%nat).
    { rewrite <- keys_length. pose proof (NoDup_incl_length Hnd Hin). lia. }
    apply IH; try assumption; rewrite E.
    + apply find_setitem_keeps_room; try assumption.
      intros Hnone.
      assert (Hnd1 : NoDup (call_key c
                              :: keys (TTLCache.expire (cache s)
                                         (monotonic (call_world c))))).
      { constructor; [apply find_none_keys; exact Hnone|].
        apply NoDup_keys_filter. exact Hnd. }
      assert (Hin1 : incl (call_key c
                             :: keys (TTLCache.expire (cache s)
                                        (monotonic (call_world c)))) K).
      { intros x [<-|Hx]; [exact HcK|]. apply Hin.
        exact (keys_filter_incl _ _ x Hx). }
      pose proof (NoDup_incl_length Hnd1 Hin1) as Hle.
      cbn [length] in Hle. rewrite keys_length in Hle. lia.
    + apply setitem_shape; [unfold cache_maxsize; lia | exact Hnd | exact Hsize].
    + intros x Hx. apply keys_setitem_incl in Hx.
      destruct Hx as [<-|Hx]; [exact HcK | apply Hin; exact Hx].
Qed.

Lemma after_calls_keeps_keys_in_use (cs : list call) (s : state) (k : string)
    (l : TTLCache.link pydict) :
  TTLCache.find k (cache s) = Some l ->
  Forall (fun c => monotonic (call_world c) < TTLCache.expires l) cs ->
  NoDup (keys (cache s)) ->
  (length (keys_in_use (cache s) cs) <= cache_maxsize)%nat ->
  TTLCache.find k (cache (after_calls cs s)) = Some l.
Proof.
  intros Hfind Hlt Hnd Hlen.
  apply (after_calls_keeps_in_use cs s k l (keys_in_use (cache s) cs));
    try assumption.
  - apply NoDup_nodup.
  - intros x Hx. apply nodup_In. apply in_or_app. left. exact Hx.
  - intros x Hx. apply nodup_In. apply in_or_app. right. exact Hx.
Qed.

(** C7.  In any state the program has reached, after a call that missed the
    cache,
    - if it returned a non-empty result, a later call for the same key made
      before the time to live has passed returns that result without
      fetching, whatever cache-backed calls were made in between, hits and
      failed fetches included, as long as the keys in the cache and the keys
      asked for in between are at most 100 different keys (so that the cache
      of size 100 evicts nothing);
    - if it returned the empty result, nothing was stored and the next call
      fetches again.
    This holds for the schedule of a city and day and for the quote of a
    day. *)
Theorem cache_hit_within_ttl_and_retry_after_empty
    (w1 w2 : world) (city : string) (d : date) (quote_type url : string)
    (cs0 cs : list call) (tbl : list subscriber) :
  monotonic w1 <= monotonic w2 ->
  today_local w2 = today_local w1 ->
  dict_get quote_urls quote_type = Some url ->
  Forall (fun c => monotonic (call_world c) < monotonic w1 + CACHE_TIMEOUT) cs ->
  (TTLCache.contains (cache (after_calls cs0 (initial_state tbl)))
     (schedule_key city d) (monotonic w1) = false ->
   exists sched,
     outcome (parse_prayer_times w1 city d (after_calls cs0 (initial_state tbl)))
     = Ok sched
     /\ (sched <> [] ->
         monotonic w2 < monotonic w1 + CACHE_TIMEOUT ->
         (length (keys_in_use
                    (cache (final (parse_prayer_times w1 city d
                                     (after_calls cs0 (initial_state tbl))))) cs)
          <= cache_maxsize)%nat ->
         outcome (parse_prayer_times w2 city d
                    (after_calls cs
                       (final (parse_prayer_times w1 city d
                                 (after_calls cs0 (initial_state tbl))))))
         = Ok sched
         /\ fetches (trace (parse_prayer_times w2 city d
                              (after_calls cs
                                 (final (parse_prayer_times w1 city d
                                           (after_calls cs0 (initial_state tbl)))))))
            = [])
     /\ (sched = [] ->
         cache (final (parse_prayer_times w1 city d
                         (after_calls cs0 (initial_state tbl))))
         = cache (after_calls cs0 (initial_state tbl))
         /\ fetches (trace (parse_prayer_times w2 city d
                              (final (parse_prayer_times w1 city d
                                        (after_calls cs0 (initial_state tbl))))))
            = [schedule_url city]))
  /\ (TTLCache.contains (cache (after_calls cs0 (initial_state tbl)))
        (quote_key quote_type (today_local w1)) (monotonic w1) = false ->
      exists quote,
        outcome (get_daily_quote w1 quote_type (after_calls cs0 (initial_state tbl)))
        = Ok quote
        /\ (quote <> [] ->
            monotonic w2 < monotonic w1 + CACHE_TIMEOUT ->
            (length (keys_in_use
                       (cache (final (get_daily_quote w1 quote_type
                                        (after_calls cs0 (initial_state tbl))))) cs)
             <= cache_maxsize)%nat ->
            outcome (get_daily_quote w2 quote_type
                       (after_calls cs
                          (final (get_daily_quote w1 quote_type
                                    (after_calls cs0 (initial_state tbl))))))
            = Ok quote
            /\ fetches (trace (get_daily_quote w2 quote_type
                                 (after_calls cs
                                    (final (get_daily_quote w1 quote_type
                                              (after_calls cs0 (initial_state tbl)))))))
               = [])
        /\ (quote = [] ->
            cache (final (get_daily_quote w1 quote_type
                            (after_calls cs0 (initial_state tbl))))
            = cache (after_calls cs0 (initial_state tbl))
            /\ fetches (trace (get_daily_quote w2 quote_type
                                 (final (get_daily_quote w1 quote_type
                                           (after_calls cs0 (initial_state tbl))))))
               = [url])).
Proof.
  intros Hmono Htoday Hurl Hcs.
  destruct (after_calls_shape cs0 (initial_state tbl)) as (Hnd & Hsize);
    [constructor | cbn; lia |].
  set (s := after_calls cs0 (initial_state tbl)) in *.
  split; intros Hmiss.
  - destruct (parse_prayer_times_miss w1 city d s Hmiss)
      as (_ & [(Ho & Hs) | (sched & Hnames & Ho & Hs)]).
    + exists []. split; [exact Ho|]. split; [congruence|]. intros _.
      rewrite Hs. split; [reflexivity|].
      apply parse_prayer_times_miss.
      eapply contains_false_later; eassumption.
    + exists sched. split; [exact Ho|]. split.
      * intros _ Hlt Hroom.
        rewrite (parse_prayer_times_hit w2 city d _
                   (TTLCache.mklink (schedule_key city d) sched
                      (monotonic w1 + CACHE_TIMEOUT))).
        -- split; reflexivity.
        -- apply after_calls_keeps_keys_in_use; [|exact Hcs| |exact Hroom].
           ++ rewrite Hs. apply find_setitem.
           ++ rewrite Hs. cbn [stored set_cache cache].
              apply setitem_shape; [unfold cache_maxsize; lia | exact Hnd | exact Hsize].
        -- exact Hlt.
      * intros ->. discriminate Hnames.
  - destruct (get_daily_quote_miss w1 quote_type url s Hurl Hmiss)
      as (_ & [(Ho & Hs) | (text & Ho & Hs)]).
    + exists []. split; [exact Ho|]. split; [congruence|]. intros _.
      rewrite Hs. split; [reflexivity|].
      apply get_daily_quote_miss; [exact Hurl|].
      rewrite Htoday. eapply contains_false_later; eassumption.
    + exists [("text", text)]. split; [exact Ho|]. split.
      * intros _ Hlt Hroom.
        rewrite (get_daily_quote_hit w2 quote_type _
                   (TTLCache.mklink (quote_key quote_type (today_local w1))
                      [("text", text)] (monotonic w1 + CACHE_TIMEOUT))).
        -- split; reflexivity.
        -- rewrite Htoday.
           apply after_calls_keeps_keys_in_use; [|exact Hcs| |exact Hroom].
           ++ rewrite Hs. apply find_setitem.
           ++ rewrite Hs. cbn [stored set_cache cache].
              apply setitem_shape; [unfold cache_maxsize; lia | exact Hnd | exact Hsize].
        -- exact Hlt.
      * discriminate.
Qed.

Lemma cache_hit_within_ttl_and_retry_after_empty_witness :
  length polls_of_34_minutes = 102%nat
  /\ Forall (fun c => monotonic (call_world c)
                      < monotonic (sample_world 4 37) + CACHE_TIMEOUT)
       polls_of_34_minutes
  /\ (length (keys_in_use
                (cache (final (parse_prayer_times (sample_world 4 37) "moscow" sample_day
                                 (after_calls [] (initial_state sample_table)))))
                polls_of_34_minutes)
      <= cache_maxsize)%nat
  /\ outcome
       (parse_prayer_times (sample_world 5 12) "moscow" sample_day
          (after_calls polls_of_34_minutes
             (final (parse_prayer_times (sample_world 4 37) "moscow" sample_day
                       (after_calls [] (initial_state sample_table))))))
     = Ok sample_schedule
  /\ fetches
       (trace (parse_prayer_times (sample_world 5 12) "moscow" sample_day
                 (after_calls polls_of_34_minutes
                    (final (parse_prayer_times (sample_world 4 37) "moscow" sample_day
                              (after_calls [] (initial_state sample_table)))))))
     = [].
Proof.
  assert (H1 : monotonic (sample_world 4 37) <= monotonic (sample_world 5 12))
    by (vm_compute; discriminate).
  assert (H4 : Forall (fun c => monotonic (call_world c)
                               < monotonic (sample_world 4 37) + CACHE_TIMEOUT)
                 polls_of_34_minutes)
    by (apply Forall_forall; intros c Hc; vm_compute in Hc;
        repeat (destruct Hc as [<-|Hc]; [reflexivity|]); destruct Hc).
  assert (H6 : (length (keys_in_use
                          (cache (final (parse_prayer_times (sample_world 4 37) "moscow"
                                           sample_day
                                           (after_calls [] (initial_state sample_table)))))
                          polls_of_34_minutes)
                <= cache_maxsize)%nat)
    by (vm_compute; lia).
  split; [reflexivity|]. split; [exact H4|]. split; [exact H6|].
  destruct (cache_hit_within_ttl_and_retry_after_empty
              (sample_world 4 37) (sample_world 5 12) "moscow" sample_day
              "ayat" "https://umma.ru/ayat-dnya" [] polls_of_34_minutes sample_table
              H1 eq_refl eq_refl H4) as [Hsched _].
  destruct (Hsched eq_refl) as (sched & Ho & Hhit & _).
  vm_compute in Ho. injection Ho as <-.
  apply Hhit; [discriminate | vm_compute; reflexivity | exact H6].
Defined.

(** ** The cells of a schedule *)

(** A call that misses the cache returns the six cells of the day's row of
    the page it is served and stores them, or the empty dictionary and
    stores nothing. *)
Lemma parse_prayer_times_miss_exact (w : world) (city : string) (d : date) (s : state) :
  TTLCache.contains (cache s) (schedule_key city d) (monotonic w) = false ->
  outcome (parse_prayer_times w city d s) = Ok (row_schedule (day_row w city d))
  /\ final (parse_prayer_times w city d s)
     = match day_row w city d with
       | Some cols => stored (schedule_key city d) (schedule_of_row cols) (monotonic w) s
       | None => s
       end.
Proof.
  intros Hmiss.
  unfold parse_prayer_times, cache_contains, fetch_url, cache_setitem, day_row,
    row_schedule.
  run. rewrite Hmiss.
  destruct (http_get w (schedule_url city)) as [[|doc]| |e]; cbn;
    try (split; reflexivity).
  destruct (pray_table doc) as [rows|]; cbn; try (split; reflexivity).
  destruct (find (is_day_row d) rows) as [cols|]; cbn; split; reflexivity.
Qed.

Lemma cells_inv_more (past past' : list call) (c : TTLCache.t pydict) :
  incl past past' -> cells_inv past c -> cells_inv past' c.
Proof.
  intros Hincl. unfold cells_inv. apply Forall_impl.
  intros l [Hq | (w & city & d & cols & Hin & H)]; [left; exact Hq|].
  right. exists w, city, d, cols. split; [apply Hincl; exact Hin | exact H].
Qed.

Lemma run_call_cells_inv (c : call) (s : state) (past : list call) :
  call_ok c -> cells_inv past (cache s) ->
  cells_inv (past ++ [c]) (cache (final (run_call c s))).
Proof.
  intros Hok Hinv.
  assert (Hinv' : cells_inv (past ++ [c]) (cache s))
    by (apply (cells_inv_more past); [apply incl_appl, incl_refl | exact Hinv]).
  destruct (TTLCache.contains (cache s) (call_key c) (monotonic (call_world c))) eqn:Hc.
  - destruct (run_call_cache_key c s) as [(_ & ->) | (Hmiss & _)];
      [|rewrite Hmiss in Hc; discriminate].
    apply Forall_getitem. exact Hinv'.
  - destruct c as [w city d | w]; cbn [run_call call_key call_world call_ok] in *.
    + destruct (parse_prayer_times_miss_exact w city d s Hc) as (_ & ->).
      destruct (day_row w city d) as [cols|] eqn:Hrow; [|exact Hinv'].
      apply Forall_setitem; [exact Hinv'|]. right.
      exists w, city, d, cols. cbn [TTLCache.key TTLCache.value].
      split; [apply in_or_app; right; left; reflexivity|].
      split; [exact Hok|]. split; [reflexivity|]. split; [exact Hrow | reflexivity].
    + destruct (get_daily_quote_miss w "ayat" _ s eq_refl Hc)
        as (_ & [(_ & ->) | (text & _ & ->)]); [exact Hinv'|].
      apply Forall_setitem; [exact Hinv'|]. left.
      unfold quote_key. cbn. destruct (isoformat (today_local w)); reflexivity.
Qed.

Lemma after_calls_cells_inv (cs : list call) (s : state) (past : list call) :
  Forall call_ok cs -> cells_inv past (cache s) ->
  cells_inv (past ++ cs) (cache (after_calls cs s)).
Proof.
  revert s past. induction cs as [|c cs IH]; intros s past Hok Hinv.
  - rewrite app_nil_r. exact Hinv.
  - inversion Hok as [|? ? Hc Hcs]; subst. cbn [after_calls].
    replace (past ++ c :: cs) with ((past ++ [c]) ++ cs)
      by (rewrite <- app_assoc; reflexivity).
    apply IH; [exact Hcs | apply run_call_cells_inv; assumption].
Qed.

(** The cache keys of two listed cities agree only for the same city and
    the same printed day. *)
Lemma schedule_key_city_inj (city city' : string) (d d' : date) :
  In city (map snd CITIES) -> In city' (map snd CITIES) ->
  schedule_key city d = schedule_key city' d' ->
  city = city' /\ isoformat d = isoformat d'.
Proof.
  unfold schedule_key. cbn [CITIES map snd In]. intros H H' E.
  repeat (destruct H as [<-|H]); try (exfalso; exact H);
    repeat (destruct H' as [<-|H']); try (exfalso; exact H');
    cbn [String.append] in E; try discriminate E;
    (split; [reflexivity | congruence]).
Qed.

(** C9, as the code has it.  In any state reached from the start of the
    process through cache-backed calls, the schedule [parse_prayer_times]
    returns for a city of [CITIES] is either empty or the six prayer names,
    in order, each mapped to the text of its cell (columns 2 to 7) in the
    day's row of a page served for that city and printed day, to this call
    or to an earlier one; on a miss it is the row of the page served now.
    The cell texts are whatever the page shows.  A subscriber whose
    schedule comes back empty gets no notification and no ledger entry. *)
Theorem schedule_empty_or_six_names (cs : list call) (tbl : list subscriber)
    (w : world) (city : string) (d : date) (usr : user) (s : state) (now : datetime) :
  Forall call_ok cs ->
  In city (map snd CITIES) ->
  (outcome (parse_prayer_times w city d (after_calls cs (initial_state tbl))) = Ok []
   \/ exists w' d' cols,
        In (ParseCall w' city d') (cs ++ [ParseCall w city d])
        /\ isoformat d' = isoformat d
        /\ day_row w' city d' = Some cols
        /\ outcome (parse_prayer_times w city d (after_calls cs (initial_state tbl)))
           = Ok [ ("Фаджр", col cols 2); ("Шурук", col cols 3); ("Зухр", col cols 4);
                  ("Аср", col cols 5); ("Магриб", col cols 6); ("Иша", col cols 7) ])
  /\ (TTLCache.contains (cache (after_calls cs (initial_state tbl)))
        (schedule_key city d) (monotonic w) = false ->
      outcome (parse_prayer_times w city d (after_calls cs (initial_state tbl)))
      = Ok (row_schedule (day_row w city d)))
  /\ Forall schedule_result_ok (run_calls cs (initial_state tbl))
  /\ (localnow w (u_tz usr) = Some now ->
      outcome (parse_prayer_times w (u_city usr) (dt_date now) s) = Ok [] ->
      (forall chat, sent_to chat (trace (check_user w usr s)) = [])
      /\ sent_notifications (final (check_user w usr s)) = sent_notifications s).
Proof.
  intros Hok Hcity.
  assert (Hinv : cells_inv cs (cache (after_calls cs (initial_state tbl))))
    by (apply (after_calls_cells_inv cs (initial_state tbl) []);
        [exact Hok | constructor]).
  split; [|split; [|split]].
  - destruct (TTLCache.contains (cache (after_calls cs (initial_state tbl)))
                (schedule_key city d) (monotonic w)) eqn:Hc.
    + destruct (contains_true _ _ _ _ Hc) as (l & Hfind & Hlt).
      destruct (find_In _ _ _ _ Hfind) as (Hin & Hk).
      rewrite (parse_prayer_times_hit w city d _ l Hfind Hlt). cbn [outcome fst].
      unfold cells_inv in Hinv. rewrite Forall_forall in Hinv.
      destruct (Hinv l Hin) as [Hq | (w' & city' & d' & cols & Hpast & Hc' & Hk' & Hrow & Hv)].
      * rewrite Hk, schedule_key_not_quote in Hq by exact Hcity. discriminate.
      * rewrite Hk in Hk'.
        destruct (schedule_key_city_inj city city' d d' Hcity Hc' Hk') as (<- & Hd).
        right. exists w', d', cols.
        split; [apply in_or_app; left; exact Hpast|].
        split; [symmetry; exact Hd|]. split; [exact Hrow|].
        exact (f_equal Ok Hv).
    + destruct (parse_prayer_times_miss_exact w city d _ Hc) as (Ho & _).
      rewrite Ho. destruct (day_row w city d) as [cols|] eqn:Hrow; [|left; reflexivity].
      right. exists w, d, cols.
      split; [apply in_or_app; right; left; reflexivity|].
      split; [reflexivity|]. split; [exact Hrow | reflexivity].
  - intros Hc. apply parse_prayer_times_miss_exact. exact Hc.
  - apply run_calls_ok; [constructor | exact Hok].
  - apply check_user_empty_schedule.
Qed.

Lemma schedule_empty_or_six_names_witness :
  Forall call_ok
    [ParseCall (sample_world 4 37) "moscow" sample_day; QuoteCall (sample_world 8 0);
     ParseCall (sample_world 8 1) "kazan" sample_day]
  /\ In "moscow" (map snd CITIES)
  /\ exists w' d' cols,
       In (ParseCall w' "moscow" d')
          ([ParseCall (sample_world 4 37) "moscow" sample_day;
            QuoteCall (sample_world 8 0);
            ParseCall (sample_world 8 1) "kazan" sample_day]
           ++ [ParseCall (sample_world 4 40) "moscow" sample_day])
       /\ isoformat d' = isoformat sample_day
       /\ day_row w' "moscow" d' = Some cols
       /\ outcome (parse_prayer_times (sample_world 4 40) "moscow" sample_day
                     (after_calls
                        [ParseCall (sample_world 4 37) "moscow" sample_day;
                         QuoteCall (sample_world 8 0);
                         ParseCall (sample_world 8 1) "kazan" sample_day]
                        (initial_state sample_table)))
          = Ok [ ("Фаджр", col cols 2); ("Шурук", col cols 3); ("Зухр", col cols 4);
                 ("Аср", col cols 5); ("Магриб", col cols 6); ("Иша", col cols 7) ].
Proof.
  assert (H : Forall call_ok
    [ParseCall (sample_world 4 37) "moscow" sample_day; QuoteCall (sample_world 8 0);
     ParseCall (sample_world 8 1) "kazan" sample_day]).
  { repeat constructor; cbn; tauto. }
  assert (Hcity : In "moscow" (map snd CITIES)) by (cbn; tauto).
  split; [exact H|]. split; [exact Hcity|].
  destruct (schedule_empty_or_six_names _ sample_table (sample_world 4 40) "moscow"
              sample_day (mkuser 42 "moscow" "Europe/Moscow")
              (initial_state sample_table)
              (mkdatetime sample_day 4 40 0 (Some 180)) H Hcity)
    as ([Hempty | Hcells] & _).
  - vm_compute in Hempty. discriminate Hempty.
  - exact Hcells.
Defined.

(** ** The digest after the first digest *)

(** The turn of a subscriber whose Fajr is ten minutes away and whose key of
    the day is not in the ledger delivers the digest. *)
Lemma digest_turn_due (w : world) (today : date) (usr : user) (now : datetime)
    (fajr_time : string) (rest : pydict) (s : state) :
  localnow w (u_tz usr) = Some now ->
  0 <= hour now < 24 ->
  0 <= minute now < 60 ->
  outcome (parse_prayer_times w (u_city usr) today s)
  = Ok (("Фаджр", fajr_time) :: rest) ->
  valid_time fajr_time = true ->
  minute_of_day fajr_time - (hour now * 60 + minute now) = 10 ->
  dict_in (schedule_id today (u_chat_id usr)) (sent_daily_schedules s) = false ->
  (forall text, send_ok w (u_chat_id usr) text = true) ->
  sent_to (u_chat_id usr) (trace (digest_turn w today usr s))
  = [schedule_text (("Фаджр", fajr_time) :: rest)].
Proof.
  intros Hnow Hh Hm Hparse Hf Hdiff Hkey Hsend.
  destruct (quiet_parse_prayer_times w (u_city usr) today s) as (_ & Q2 & _ & Q4).
  unfold digest_turn, try_except, digest_user.
  rewrite (bind_ok (now_in w (u_tz usr)) _ s now s [])
    by (unfold now_in; rewrite Hnow; reflexivity).
  destruct (parse_prayer_times w (u_city usr) today s) as [[r s1] t1] eqn:E.
  cbn [outcome final trace fst snd] in Hparse, Q2, Q4. subst r.
  rewrite (bind_ok _ _ s _ s1 t1 E). cbn [is_empty].
  pose proof (digest_due_valid w usr today now fajr_time rest s1 Hf Hh Hm Hsend) as Hd.
  rewrite Hdiff, Q2, Hkey in Hd. cbn [Z.eqb Pos.eqb andb negb] in Hd.
  specialize (Q4 (u_chat_id usr)).
  destruct (digest_due w usr today (strftime_HM now) (("Фаджр", fajr_time) :: rest) s1)
    as [[[[]|e] s2] t2];
    cbn [outcome final trace fst snd any_exception log emit List.app] in Hd |- *;
    rewrite ?sent_to_app, Q4, Hd; reflexivity.
Qed.

(** With a subscriber in the table and any key in the ledger, the job
    raises at the rebuilding of the ledger, before its loop. *)
Lemma digest_job_blocked (w : world) (s : state) (row : subscriber) :
  sqlite_ok w = true ->
  In row (subscribers s) ->
  subscribed row = 1 ->
  sent_daily_schedules s <> [] ->
  outcome (send_daily_prayer_schedule w s) = Raise ValueError
  /\ final (send_daily_prayer_schedule w s) = s
  /\ deliveries (trace (send_daily_prayer_schedule w s)) = [].
Proof.
  intros Hok Hin Hsub Hne.
  assert (Hu : is_empty (map (fun r => mkuser (chat_id r) (city r) (timezone r))
                           (filter (fun r => subscribed r =? 1) (subscribers s)))
               = false).
  { assert (H : In (mkuser (chat_id row) (city row) (timezone row))
                  (map (fun r => mkuser (chat_id r) (city r) (timezone r))
                     (filter (fun r => subscribed r =? 1) (subscribers s)))).
    { apply in_map_iff. exists row. split; [reflexivity|].
      apply filter_In. split; [exact Hin|]. rewrite Hsub. reflexivity. }
    destruct (map _ _); [destruct H | reflexivity]. }
  unfold send_daily_prayer_schedule, get_subscribed_users. run.
  rewrite Hok, Hu.
  destruct (sent_daily_schedules s) as [|[k v] rest] eqn:El; [congruence|].
  rewrite recent_schedules_raises. cbn. repeat split; reflexivity.
Qed.

(** C6 (fails on the code).  Once the ledger of the digest job holds any
    key (the job marks one with every digest it sends), a digest that is due
    is not sent: for a subscriber whose Fajr is ten minutes away and whose
    key of the day is not in the ledger, the subscriber's turn of the loop,
    run on that state, delivers the digest, but the job raises ValueError
    while it rebuilds the ledger and never reaches the loop. *)
Theorem due_digest_not_sent_once_ledger_holds_a_key
    (w : world) (s : state) (row : subscriber) (now : datetime)
    (fajr_time : string) (rest : pydict) :
  sqlite_ok w = true ->
  In row (subscribers s) ->
  subscribed row = 1 ->
  localnow w (timezone row) = Some now ->
  0 <= hour now < 24 ->
  0 <= minute now < 60 ->
  outcome (parse_prayer_times w (city row) (dt_date (utcnow w)) s)
  = Ok (("Фаджр", fajr_time) :: rest) ->
  valid_time fajr_time = true ->
  minute_of_day fajr_time - (hour now * 60 + minute now) = 10 ->
  dict_in (schedule_id (dt_date (utcnow w)) (chat_id row)) (sent_daily_schedules s)
  = false ->
  (forall text, send_ok w (chat_id row) text = true) ->
  sent_daily_schedules s <> [] ->
  sent_to (chat_id row)
    (trace (digest_turn w (dt_date (utcnow w))
              (mkuser (chat_id row) (city row) (timezone row)) s))
  = [schedule_text (("Фаджр", fajr_time) :: rest)]
  /\ outcome (send_daily_prayer_schedule w s) = Raise ValueError
  /\ final (send_daily_prayer_schedule w s) = s
  /\ deliveries (trace (send_daily_prayer_schedule w s)) = [].
Proof.
  intros Hok Hin Hsub Hnow Hh Hm Hparse Hf Hdiff Hkey Hsend Hne.
  split.
  - apply (digest_turn_due w (dt_date (utcnow w))
             (mkuser (chat_id row) (city row) (timezone row)) now fajr_time rest s);
      assumption.
  - apply (digest_job_blocked w s row); assumption.
Qed.

Lemma due_digest_not_sent_once_ledger_holds_a_key_witness :
  sent_to 42 (trace (send_daily_prayer_schedule (sample_world 4 27)
                       (initial_state sample_table)))
  = [schedule_text sample_schedule]
  /\ sent_daily_schedules after_first_digest = [("2024-01-15-42", true)]
  /\ dict_in (schedule_id next_day 42) (sent_daily_schedules after_first_digest) = false
  /\ sent_to 42 (trace (send_daily_prayer_schedule (next_day_world 4 26)
                          (initial_state sample_table)))
     = [schedule_text next_day_schedule]
  /\ sent_to 42 (trace (digest_turn (next_day_world 4 26) next_day sample_user
                          after_first_digest))
     = [schedule_text next_day_schedule]
  /\ outcome (send_daily_prayer_schedule (next_day_world 4 26) after_first_digest)
     = Raise ValueError
  /\ final (send_daily_prayer_schedule (next_day_world 4 26) after_first_digest)
     = after_first_digest
  /\ deliveries (trace (send_daily_prayer_schedule (next_day_world 4 26)
                          after_first_digest))
     = [].
Proof.
  split; [vm_compute; reflexivity|]. split; [vm_compute; reflexivity|].
  split; [vm_compute; reflexivity|]. split; [vm_compute; reflexivity|].
  apply (due_digest_not_sent_once_ledger_holds_a_key
           (next_day_world 4 26) after_first_digest
           (mksubscriber 42 "moscow" "Europe/Moscow" 1)
           (mkdatetime next_day 4 26 0 (Some 180))
           "04:36"
           [ ("Шурук", "06:09"); ("Зухр", "12:30"); ("Аср", "15:02");
             ("Магриб", "17:47"); ("Иша", "19:22") ]).
  - reflexivity.
  - vm_compute. left. reflexivity.
  - reflexivity.
  - reflexivity.
  - cbn. lia.
  - cbn. lia.
  - vm_compute. reflexivity.
  - reflexivity.
  - vm_compute. reflexivity.
  - vm_compute. reflexivity.
  - intros text. reflexivity.
  - vm_compute. discriminate.
Defined.
